(** * SkillSwap backend: swap-request lifecycle, feedback, skill matching,
      moderation and admin messages

    A shallow embedding of the Express/Mongoose backend
    (backend/src/models and backend/src/routes).  Collections are finite maps
    keyed by the document [_id]; a route handler is a function from the
    request data and the store to a response and the new store.  Dates are
    milliseconds since the epoch ([Z]); [new Date()] is the [now] argument
    of a handler.  A JavaScript string is a [string] whose characters are
    the UTF-16 code units below U+0100, one [ascii] each. *)

From Stdlib Require Import ZArith QArith Qfield Qabs Floats Uint63 Permutation.
From stdpp Require Import gmap strings list fin_maps sorting.

(** Mongo object ids: twelve bytes, a number below [2^96]. *)
Abbreviation ObjectId := N.

(** [id.toString()]: the twelve bytes as 24 hexadecimal digits, in lower
    case. *)
Definition hex_digit (d : N) : Ascii.ascii :=
  if (d <? 10)%N then Ascii.ascii_of_N (48 + d) else Ascii.ascii_of_N (87 + d).

Fixpoint hex_digits (k : nat) (n : N) (acc : string) : string :=
  match k with
  | O => acc
  | S k => hex_digits k (n / 16)%N (String (hex_digit (n mod 16)%N) acc)
  end.

Definition ObjectId_toString (id : ObjectId) : string := hex_digits 24 id "".

(** The value of a hexadecimal digit of either case. *)
Definition hex_value (c : Ascii.ascii) : option N :=
  let n := Ascii.N_of_ascii c in
  if (48 <=? n)%N && (n <=? 57)%N then Some (n - 48)%N
  else if (97 <=? n)%N && (n <=? 102)%N then Some (n - 87)%N
  else if (65 <=? n)%N && (n <=? 70)%N then Some (n - 55)%N
  else None.

Fixpoint parse_hex (acc : N) (s : string) : option N :=
  match s with
  | EmptyString => Some acc
  | String c s =>
      match hex_value c with
      | Some d => parse_hex (16 * acc + d)%N s
      | None => None
      end
  end.

(** validator.js: [isHexadecimal] is the pattern [/^(0x|0h)?[0-9A-F]+$/i],
    and [isMongoId(str)] is [isHexadecimal(str) && str.length === 24]. *)
Definition isHexadecimal (s : string) : bool :=
  let digits s := negb (String.eqb s "") && bool_decide (is_Some (parse_hex 0 s)) in
  digits s
  || match s with
     | String c0 (String c rest) =>
         (Ascii.N_of_ascii c0 =? 48)%N                       (* 0 *)
         && bool_decide (Ascii.N_of_ascii c ∈ [120; 88; 104; 72]%N)  (* x X h H *)
         && digits rest
     | _ => false
     end.

Definition isMongoId (s : string) : bool :=
  isHexadecimal s && (String.length s =? 24)%nat.

(** Mongoose's cast of a string to an [ObjectId]: 24 hexadecimal digits of
    either case; any other string makes the query throw. *)
Definition castObjectId (s : string) : option ObjectId :=
  if (String.length s =? 24)%nat then parse_hex 0 s else None.

(** ** The JSON response envelope [{ success, message, ... }] *)
Module Http.
Record Response := json {
  status : Z;
  success : bool;
  message : string
}.
End Http.

(** JavaScript's white space [\s]: below U+0100 the six ASCII blanks (tab,
    line feed, vertical tab, form feed, carriage return, space) and the
    no-break space U+00A0. *)
Definition isWhiteSpace (a : Ascii.ascii) : bool :=
  Ascii.is_space a || (Ascii.N_of_ascii a =? 160)%N.

(** express-validator's [trim()] sanitizer, which strips white space at
    both ends, and [isLength({ min, max })], which counts characters. *)
Definition trimStart : string → string :=
  fix go s :=
    match s with
    | String a s' => if isWhiteSpace a then go s' else s
    | EmptyString => EmptyString
    end.

Definition trim (s : string) : string :=
  String.rev (trimStart (String.rev (trimStart s))).

Definition isLength (min max : nat) (s : string) : bool :=
  (min <=? String.length s)%nat && (String.length s <=? max)%nat.

(** ** models/SwapRequest.js *)
Module SwapRequest.

Inductive Status := pending | accepted | rejected | completed | cancelled.

#[global] Instance Status_eq_dec : EqDecision Status.
Proof. solve_decision. Defined.

(** The [feedback] sub-document: every slot defaults to [null]. *)
Record Feedback := {
  fromUserRating : option Z;
  fromUserComment : option string;
  toUserRating : option Z;
  toUserComment : option string
}.

Record t := {
  fromUserId : ObjectId;
  toUserId : ObjectId;
  skillOffered : string;
  skillWanted : string;
  message : string;
  status : Status;
  completedAt : option Z;
  feedback : Feedback;
  createdAt : Z;
  updatedAt : Z
}.

Definition set_status (st : Status) (this : t) : t :=
  {| fromUserId := fromUserId this; toUserId := toUserId this;
     skillOffered := skillOffered this; skillWanted := skillWanted this;
     message := message this; status := st; completedAt := completedAt this;
     feedback := feedback this; createdAt := createdAt this;
     updatedAt := updatedAt this |}.

Definition set_completedAt (d : option Z) (this : t) : t :=
  {| fromUserId := fromUserId this; toUserId := toUserId this;
     skillOffered := skillOffered this; skillWanted := skillWanted this;
     message := message this; status := status this; completedAt := d;
     feedback := feedback this; createdAt := createdAt this;
     updatedAt := updatedAt this |}.

Definition set_feedback (f : Feedback) (this : t) : t :=
  {| fromUserId := fromUserId this; toUserId := toUserId this;
     skillOffered := skillOffered this; skillWanted := skillWanted this;
     message := message this; status := status this;
     completedAt := completedAt this; feedback := f;
     createdAt := createdAt this; updatedAt := updatedAt this |}.

Definition set_updatedAt (d : Z) (this : t) : t :=
  {| fromUserId := fromUserId this; toUserId := toUserId this;
     skillOffered := skillOffered this; skillWanted := skillWanted this;
     message := message this; status := status this;
     completedAt := completedAt this; feedback := feedback this;
     createdAt := createdAt this; updatedAt := d |}.

(** A document is stored in its collection under its [_id], which the
    record therefore does not repeat; a method receives it as [id].

    [this.save()] with [timestamps: true]: stamps [updatedAt] and writes
    the document under its [_id]. *)
Definition save (now : Z) (id : ObjectId) (this : t) (coll : gmap N t)
    : t * gmap N t :=
  let doc := set_updatedAt now this in (doc, <[id := doc]> coll).

(** JavaScript truthiness of a rating slot ([null] or a number). *)
Definition truthy (r : option Z) : bool :=
  match r with
  | Some v => negb (v =? 0)%Z
  | None => false
  end.

(** Virtual [isFeedbackComplete], as a condition: whether its value is
    truthy. *)
Definition isFeedbackComplete (this : t) : bool :=
  truthy (fromUserRating (feedback this)) && truthy (toUserRating (feedback this)).

Definition accept (now : Z) (id : ObjectId) (this : t) :=
  save now id (set_status accepted this).

Definition reject (now : Z) (id : ObjectId) (this : t) :=
  save now id (set_status rejected this).

Definition complete (now : Z) (id : ObjectId) (this : t) :=
  save now id (set_completedAt (Some now) (set_status completed this)).

Definition cancel (now : Z) (id : ObjectId) (this : t) :=
  save now id (set_status cancelled this).

Definition addFeedback (now : Z) (id : ObjectId) (userId : ObjectId) (rating : Z)
    (comment : option string) (this : t) :=
  let f := feedback this in
  let this' :=
    if (fromUserId this =? userId)%N then
      set_feedback {| fromUserRating := Some rating; fromUserComment := comment;
                      toUserRating := toUserRating f;
                      toUserComment := toUserComment f |} this
    else if (toUserId this =? userId)%N then
      set_feedback {| fromUserRating := fromUserRating f;
                      fromUserComment := fromUserComment f;
                      toUserRating := Some rating; toUserComment := comment |} this
    else this in
  save now id this'.

(** [SwapRequest.create({...})]: schema defaults fill the rest. *)
Definition create (now : Z) (from to : ObjectId) (offered wanted msg : string)
    (coll : gmap N t) : ObjectId * t * gmap N t :=
  let id := fresh (dom coll) in
  let doc := {| fromUserId := from; toUserId := to;
                skillOffered := offered; skillWanted := wanted; message := msg;
                status := pending; completedAt := None;
                feedback := {| fromUserRating := None; fromUserComment := None;
                               toUserRating := None; toUserComment := None |};
                createdAt := now; updatedAt := now |} in
  (id, doc, <[id := doc]> coll).

End SwapRequest.

(** ** models/Notification.js *)
Module Notification.

Inductive Type_ :=
  swap_request | swap_accepted | swap_rejected | swap_completed
| admin_message | feedback_received.

#[global] Instance Type_eq_dec : EqDecision Type_.
Proof. solve_decision. Defined.

Inductive RelatedModel := SwapRequest | User | AdminMessage.

#[global] Instance RelatedModel_eq_dec : EqDecision RelatedModel.
Proof. solve_decision. Defined.

Record t := {
  userId : ObjectId;
  type : Type_;
  title : string;
  message : string;
  isRead : bool;
  relatedId : option ObjectId;
  relatedModel : option RelatedModel;
  metadata : option ObjectId   (* [{ fromUserId }] or the default [{}] *)
}.

#[global] Instance t_eq_dec : EqDecision t.
Proof. solve_decision. Defined.

(** The collection is only ever appended to and read per user. *)
Definition create (doc : t) (coll : list t) : list t := coll ++ [doc].

Definition createSwapRequestNotification (toUserId fromUserId swapRequestId : ObjectId) :=
  create {| userId := toUserId; type := swap_request;
            title := "New Swap Request";
            message := "You have received a new skill swap request";
            isRead := false; relatedId := Some swapRequestId;
            relatedModel := Some SwapRequest; metadata := Some fromUserId |}.

Definition createSwapAcceptedNotification (userId swapRequestId : ObjectId) :=
  create {| userId := userId; type := swap_accepted;
            title := "Swap Request Accepted";
            message := "Your swap request has been accepted";
            isRead := false; relatedId := Some swapRequestId;
            relatedModel := Some SwapRequest; metadata := None |}.

Definition createSwapRejectedNotification (userId swapRequestId : ObjectId) :=
  create {| userId := userId; type := swap_rejected;
            title := "Swap Request Rejected";
            message := "Your swap request has been rejected";
            isRead := false; relatedId := Some swapRequestId;
            relatedModel := Some SwapRequest; metadata := None |}.

Definition createSwapCompletedNotification (userId swapRequestId : ObjectId) :=
  create {| userId := userId; type := swap_completed;
            title := "Swap Completed";
            message := "Your skill swap has been completed";
            isRead := false; relatedId := Some swapRequestId;
            relatedModel := Some SwapRequest; metadata := None |}.

Definition createFeedbackReceivedNotification (userId swapRequestId : ObjectId) :=
  create {| userId := userId; type := feedback_received;
            title := "Feedback Received";
            message := "You have received feedback for a completed swap";
            isRead := false; relatedId := Some swapRequestId;
            relatedModel := Some SwapRequest; metadata := None |}.

End Notification.

(** A JavaScript number holding an integer, as a double. *)
Definition Number_ofZ (z : Z) : float := PrimFloat.of_uint63 (Uint63.of_Z z).

(** ** models/User.js *)
Module User.

Inductive Availability := weekdays | weekends | evenings | flexible.

(** Modelled from the spec: models/User.js is not among the sources.  The
    fields are those of the specification's data model, under the names the
    routes and the client's [types.ts] use; the credential hash and the
    photo play no role below. *)
Record t := {
  email : string;
  name : string;
  location : option string;
  skillsOffered : list string;
  skillsWanted : list string;
  availability : Availability;
  isPublic : bool;
  isAdmin : bool;
  isBanned : bool;
  rating : float;
  reviewCount : Z
}.

Definition set_isBanned (b : bool) (this : t) : t :=
  {| email := email this; name := name this; location := location this;
     skillsOffered := skillsOffered this; skillsWanted := skillsWanted this;
     availability := availability this; isPublic := isPublic this;
     isAdmin := isAdmin this; isBanned := b; rating := rating this;
     reviewCount := reviewCount this |}.

Definition set_rating (r : float) (c : Z) (this : t) : t :=
  {| email := email this; name := name this; location := location this;
     skillsOffered := skillsOffered this; skillsWanted := skillsWanted this;
     availability := availability this; isPublic := isPublic this;
     isAdmin := isAdmin this; isBanned := isBanned this; rating := r;
     reviewCount := c |}.

Definition save (id : ObjectId) (this : t) (coll : gmap N t) : gmap N t :=
  <[id := this]> coll.

(** Modelled from the spec: the method [updateRating] of models/User.js,
    which the feedback route calls and which is not among the sources.
    "recomputes the target's aggregate as
    newAvg = (oldAvg * oldCount + rating) / (oldCount + 1), increments the
    count by one"; the aggregate is a floating-point mean, not rounded. *)
Definition newAvg (oldAvg : float) (oldCount : Z) (rating : Z) : float :=
  ((oldAvg * Number_ofZ oldCount + Number_ofZ rating) / (Number_ofZ oldCount + 1))%float.

Definition rated (rating : Z) (this : t) : t :=
  set_rating (newAvg (User.rating this) (reviewCount this) rating)
             (reviewCount this + 1) this.

Definition updateRating (id : ObjectId) (rating : Z) (this : t) (coll : gmap N t)
    : gmap N t :=
  save id (rated rating this) coll.

(** Mongo's [{ field: { $in: values } }] on an array field: some element of
    the array is equal to some element of [values]. *)
Definition array_in (field values : list string) : bool :=
  existsb (λ s, bool_decide (s ∈ values)) field.

(** The filter that the skill-match route hands to [countDocuments]:
    [{ _id: { $ne: id }, isPublic: true, isBanned: false,
       $or: [{ skillsOffered: { $in: user.skillsWanted } },
             { skillsWanted: { $in: user.skillsOffered } }] }]. *)
Definition skillMatchQuery (id : ObjectId) (user : t) (doc : ObjectId * t) : bool :=
  negb (doc.1 =? id)%N
  && bool_decide (isPublic doc.2 = true)
  && bool_decide (isBanned doc.2 = false)
  && (array_in (skillsOffered doc.2) (skillsWanted user)
      || array_in (skillsWanted doc.2) (skillsOffered user)).

(** [Model.find(filter)] and [Model.countDocuments(filter)]. *)
Definition find (q : ObjectId * t → bool) (coll : gmap N t) : list (ObjectId * t) :=
  List.filter q (map_to_list coll).

Definition countDocuments (q : ObjectId * t → bool) (coll : gmap N t) : nat :=
  length (find q coll).

(** The skill lists as sets of names, and [a ∩ b ≠ ∅]. *)
Definition intersects (a b : list string) : Prop :=
  list_to_set a ∩ list_to_set b ≠ (∅ : gset string).

(** Modelled from the spec: the static [findSkillMatches] of models/User.js,
    not among the sources.  "given a user U, return all other visible
    (public, non-banned) users V such that V's offered-skills intersect U's
    wanted-skills, OR V's wanted-skills intersect U's offered-skills.  Self
    is always excluded." *)
Definition findSkillMatches (userId : ObjectId) (coll : gmap N t)
    : list (ObjectId * t) :=
  match coll !! userId with
  | Some u =>
      List.filter
        (λ v : ObjectId * t,
           bool_decide (v.1 ≠ userId ∧ isPublic v.2 = true ∧ isBanned v.2 = false
                        ∧ (intersects (skillsOffered v.2) (skillsWanted u)
                           ∨ intersects (skillsWanted v.2) (skillsOffered u))))
        (map_to_list coll)
  | None => []
  end.

End User.

(** ** Mongo filter documents

    A filter is a JavaScript object literal.  Its properties are defined in
    source order, and a later property replaces an earlier one of the same
    name. *)
Module Filter.

Inductive Value :=
| Null
| Bool (b : bool)
| Date (d : Z)
| Id (i : ObjectId)
| Ids (l : list ObjectId).

#[global] Instance Value_eq_dec : EqDecision Value.
Proof. solve_decision. Defined.

(** [{ field: v }], [{ field: { $gt: v } }], [{ field: { $lt: v } }]. *)
Inductive Cond := Is (v : Value) | Gt (v : Value) | Lt (v : Value).

(** The value of a top-level property: a condition on the field of that
    name, or, under the name [$or], an array of flat sub-filters. *)
Inductive Entry :=
| Field (c : Cond)
| Clauses (cs : list (list (string * Cond))).

Definition object {A} (props : list (string * A)) : gmap string A :=
  foldl (λ o kv, <[kv.1 := kv.2]> o) ∅ props.

(** Equality matches an array field when the array contains the value;
    comparisons only relate two dates. *)
Definition holds (c : Cond) (field : Value) : bool :=
  match c, field with
  | Is v, Ids l => match v with Id i => bool_decide (i ∈ l) | _ => bool_decide (v = field) end
  | Is v, _ => bool_decide (v = field)
  | Gt (Date d), Date e => (d <? e)%Z
  | Lt (Date d), Date e => (e <? d)%Z
  | _, _ => false
  end.

Section Matching.
Context {Doc : Type} (get : Doc → string → Value).

Definition clause (doc : Doc) (cl : list (string * Cond)) : bool :=
  forallb (λ kc : string * Cond, holds kc.2 (get doc kc.1)) cl.

Definition entry (doc : Doc) (k : string) (e : Entry) : bool :=
  match e with
  | Field c => holds c (get doc k)
  | Clauses cs => bool_decide (k = "$or") && existsb (clause doc) cs
  end.

Definition matches (q : gmap string Entry) (doc : Doc) : bool :=
  bool_decide (map_Forall (λ k e, entry doc k e = true) q).

End Matching.

End Filter.

(** ** models/AdminMessage.js *)
Module AdminMessage.

Inductive Type_ := info | warning | announcement | maintenance.

Record t := {
  title : string;
  message : string;
  type : Type_;
  isActive : bool;
  isGlobal : bool;
  targetUsers : list ObjectId;
  expiresAt : option Z;
  createdBy : ObjectId;
  createdAt : Z
}.

(** Virtual [isExpired], read at time [now]. *)
Definition isExpired (now : Z) (this : t) : bool :=
  match expiresAt this with
  | None => false
  | Some e => (e <? now)%Z
  end.

(** Virtual [shouldShow]. *)
Definition shouldShow (now : Z) (this : t) : bool :=
  isActive this && negb (isExpired now this).

(** The fields a filter can name. *)
Definition get (this : t) (k : string) : Filter.Value :=
  if decide (k = "isActive") then Filter.Bool (isActive this)
  else if decide (k = "isGlobal") then Filter.Bool (isGlobal this)
  else if decide (k = "targetUsers") then Filter.Ids (targetUsers this)
  else if decide (k = "expiresAt") then from_option Filter.Date Filter.Null (expiresAt this)
  else if decide (k = "createdBy") then Filter.Id (createdBy this)
  else if decide (k = "createdAt") then Filter.Date (createdAt this)
  else Filter.Null.

(** [.sort({ createdAt: -1 })] *)
Definition newest_first (a b : ObjectId * t) : Prop := (createdAt b.2 ≤ createdAt a.2)%Z.

#[global] Instance newest_first_dec : RelDecision newest_first.
Proof. intros a b. unfold newest_first. apply _. Defined.

Definition find (q : gmap string Filter.Entry) (coll : gmap N t) : list (ObjectId * t) :=
  List.filter (λ d : ObjectId * t, Filter.matches get q d.2) (map_to_list coll).

Definition getActiveGlobalMessages_filter (now : Z) : gmap string Filter.Entry :=
  Filter.object
    [ ("isActive", Filter.Field (Filter.Is (Filter.Bool true)));
      ("isGlobal", Filter.Field (Filter.Is (Filter.Bool true)));
      ("$or", Filter.Clauses [ [("expiresAt", Filter.Is Filter.Null)];
                               [("expiresAt", Filter.Gt (Filter.Date now))] ]) ].

Definition getActiveGlobalMessages (now : Z) (coll : gmap N t) :=
  merge_sort newest_first (find (getActiveGlobalMessages_filter now) coll).

Definition getActiveMessagesForUser_filter (now : Z) (userId : ObjectId)
    : gmap string Filter.Entry :=
  Filter.object
    [ ("isActive", Filter.Field (Filter.Is (Filter.Bool true)));
      ("$or", Filter.Clauses [ [("isGlobal", Filter.Is (Filter.Bool true))];
                               [("targetUsers", Filter.Is (Filter.Id userId))] ]);
      ("$or", Filter.Clauses [ [("expiresAt", Filter.Is Filter.Null)];
                               [("expiresAt", Filter.Gt (Filter.Date now))] ]) ].

Definition getActiveMessagesForUser (now : Z) (userId : ObjectId) (coll : gmap N t) :=
  merge_sort newest_first (find (getActiveMessagesForUser_filter now userId) coll).

End AdminMessage.

(** ** The store: one finite map per collection *)
Record Db := {
  users : gmap N User.t;
  swapRequests : gmap N SwapRequest.t;
  notifications : list Notification.t;
  adminMessages : gmap N AdminMessage.t
}.

Definition set_users (u : gmap N User.t) (db : Db) : Db :=
  {| users := u; swapRequests := swapRequests db;
     notifications := notifications db; adminMessages := adminMessages db |}.

Definition set_swapRequests (s : gmap N SwapRequest.t) (db : Db) : Db :=
  {| users := users db; swapRequests := s;
     notifications := notifications db; adminMessages := adminMessages db |}.

Definition set_notifications (n : list Notification.t) (db : Db) : Db :=
  {| users := users db; swapRequests := swapRequests db;
     notifications := n; adminMessages := adminMessages db |}.

(** ** routes/swaps.js

    Every handler runs behind [protect]; [caller] is [req.user._id].  The
    socket emission feeds the push channel only and leaves the store as it
    is; a [populate] call leaves the store as it is, too, but puts [null]
    for a user whose document is missing, which the handlers then read. *)
Module Swaps.
Import SwapRequest.

(** The filter of the duplicate check in [POST /api/swaps]:
    [{ $or: [{ fromUserId: caller, toUserId, status: 'pending' },
             { fromUserId: toUserId, toUserId: caller, status: 'pending' }] }]. *)
Definition pendingBetween (caller toUserId : ObjectId) (doc : ObjectId * t) : bool :=
  ((fromUserId doc.2 =? caller)%N && (SwapRequest.toUserId doc.2 =? toUserId)%N
     && bool_decide (status doc.2 = pending))
  || ((fromUserId doc.2 =? toUserId)%N && (SwapRequest.toUserId doc.2 =? caller)%N
     && bool_decide (status doc.2 = pending)).

Definition findOne (q : ObjectId * t → bool) (coll : gmap N t) : option (ObjectId * t) :=
  List.find q (map_to_list coll).

(** [POST /api/swaps].  [toUserId] is the string of the request body:
    the handler compares it as a string with the caller's id, and Mongoose
    casts it to an id in the query, in the new document and in the
    notification; a string that passes [isMongoId] but is not 24 digits
    makes the query throw, and the handler's [catch] answers 500. *)
Definition createSwap (now : Z) (caller : ObjectId) (toUserId : string)
    (skillOffered skillWanted message : string) (db : Db) : Http.Response * Db :=
  let skillOffered := trim skillOffered in
  let skillWanted := trim skillWanted in
  let message := trim message in
  if negb (isMongoId toUserId
           && isLength 1 50 skillOffered && isLength 1 50 skillWanted
           && isLength 1 500 message) then
    (Http.json 400 false "Validation error", db)
  else if String.eqb (ObjectId_toString caller) toUserId then
    (Http.json 400 false "Cannot create swap request with yourself", db)
  else
    match castObjectId toUserId with
    | None => (Http.json 500 false "Server error", db)
    | Some toUserId =>
        match findOne (pendingBetween caller toUserId) (swapRequests db) with
        | Some existingRequest =>
            (Http.json 400 false
               "A pending swap request already exists between these users", db)
        | None =>
            let '(id, swapRequest, swaps) :=
              create now caller toUserId skillOffered skillWanted message
                (swapRequests db) in
            let notes :=
              Notification.createSwapRequestNotification toUserId caller id
                (notifications db) in
            (Http.json 201 true "Swap request created successfully",
             set_notifications notes (set_swapRequests swaps db))
        end
    end.

(** [await swapRequest.populate(path, 'name email photo')]: the user
    document of that id, or [null]. *)
Definition populate (userId : ObjectId) (db : Db) : option User.t := users db !! userId.

(** [PUT /api/swaps/:id/accept].  After the save the handler populates
    both users and reads [swapRequest.fromUserId._id]: when the requester's
    document is missing this throws, and the handler's [catch] answers 500
    with the new status stored. *)
Definition acceptSwap (now : Z) (caller id : ObjectId) (db : Db) : Http.Response * Db :=
  match swapRequests db !! id with
  | None => (Http.json 404 false "Swap request not found", db)
  | Some swapRequest =>
      if negb (toUserId swapRequest =? caller)%N then
        (Http.json 403 false "Only the recipient can accept swap requests", db)
      else if negb (bool_decide (status swapRequest = pending)) then
        (Http.json 400 false "Can only accept pending swap requests", db)
      else
        let '(swapRequest, swaps) := accept now id swapRequest (swapRequests db) in
        let db := set_swapRequests swaps db in
        match populate (fromUserId swapRequest) db with
        | None => (Http.json 500 false "Server error", db)
        | Some fromUser =>
            let notes :=
              Notification.createSwapAcceptedNotification (fromUserId swapRequest) id
                (notifications db) in
            (Http.json 200 true "Swap request accepted successfully",
             set_notifications notes db)
        end
  end.

(** [PUT /api/swaps/:id/reject], with the same reads after the save. *)
Definition rejectSwap (now : Z) (caller id : ObjectId) (db : Db) : Http.Response * Db :=
  match swapRequests db !! id with
  | None => (Http.json 404 false "Swap request not found", db)
  | Some swapRequest =>
      if negb (toUserId swapRequest =? caller)%N then
        (Http.json 403 false "Only the recipient can reject swap requests", db)
      else if negb (bool_decide (status swapRequest = pending)) then
        (Http.json 400 false "Can only reject pending swap requests", db)
      else
        let '(swapRequest, swaps) := reject now id swapRequest (swapRequests db) in
        let db := set_swapRequests swaps db in
        match populate (fromUserId swapRequest) db with
        | None => (Http.json 500 false "Server error", db)
        | Some fromUser =>
            let notes :=
              Notification.createSwapRejectedNotification (fromUserId swapRequest) id
                (notifications db) in
            (Http.json 200 true "Swap request rejected successfully",
             set_notifications notes db)
        end
  end.

(** [PUT /api/swaps/:id/complete].  After the save the handler populates
    both users, reads [swapRequest.fromUserId._id] for the first
    notification and then [swapRequest.toUserId._id] for the second: a
    missing document makes that read throw, and the handler's [catch]
    answers 500 with what has been written so far. *)
Definition completeSwap (now : Z) (caller id : ObjectId) (db : Db) : Http.Response * Db :=
  match swapRequests db !! id with
  | None => (Http.json 404 false "Swap request not found", db)
  | Some swapRequest =>
      if negb (fromUserId swapRequest =? caller)%N
         && negb (toUserId swapRequest =? caller)%N then
        (Http.json 403 false "Not authorized to complete this swap", db)
      else if negb (bool_decide (status swapRequest = accepted)) then
        (Http.json 400 false "Can only complete accepted swap requests", db)
      else
        let '(swapRequest, swaps) := complete now id swapRequest (swapRequests db) in
        let db := set_swapRequests swaps db in
        match populate (fromUserId swapRequest) db with
        | None => (Http.json 500 false "Server error", db)
        | Some fromUser =>
            let db :=
              set_notifications
                (Notification.createSwapCompletedNotification (fromUserId swapRequest) id
                   (notifications db)) db in
            match populate (toUserId swapRequest) db with
            | None => (Http.json 500 false "Server error", db)
            | Some toUser =>
                let db :=
                  set_notifications
                    (Notification.createSwapCompletedNotification (toUserId swapRequest)
                       id (notifications db)) db in
                (Http.json 200 true "Swap completed successfully", db)
            end
        end
  end.

(** [DELETE /api/swaps/:id] *)
Definition cancelSwap (now : Z) (caller id : ObjectId) (db : Db) : Http.Response * Db :=
  match swapRequests db !! id with
  | None => (Http.json 404 false "Swap request not found", db)
  | Some swapRequest =>
      if negb (fromUserId swapRequest =? caller)%N then
        (Http.json 403 false "Only the sender can cancel swap requests", db)
      else if negb (bool_decide (status swapRequest = pending)) then
        (Http.json 400 false "Can only cancel pending swap requests", db)
      else
        let '(swapRequest, swaps) := cancel now id swapRequest (swapRequests db) in
        (Http.json 200 true "Swap request cancelled successfully",
         set_swapRequests swaps db)
  end.

End Swaps.

(** ** routes/feedback.js *)
Module Feedback.
Import SwapRequest.

(** [body('rating').isInt({ min: 1, max: 5 })] and
    [body('comment').optional().trim().isLength({ max: 200 })]. *)
Definition validRating (rating : Z) : bool := (1 <=? rating)%Z && (rating <=? 5)%Z.

Definition validComment (comment : option string) : bool :=
  from_option (isLength 0 200) true comment.

(** [POST /api/feedback/:swapId].  A missing target user makes
    [targetUser.updateRating] throw after the feedback has been saved; the
    handler's [catch] answers 500. *)
Definition submitFeedback (now : Z) (caller swapId : ObjectId) (rating : Z)
    (comment : option string) (db : Db) : Http.Response * Db :=
  let comment := trim <$> comment in
  if negb (validRating rating && validComment comment) then
    (Http.json 400 false "Validation error", db)
  else
    match swapRequests db !! swapId with
    | None => (Http.json 404 false "Swap request not found", db)
    | Some swapRequest =>
        if negb (fromUserId swapRequest =? caller)%N
           && negb (toUserId swapRequest =? caller)%N then
          (Http.json 403 false "Not authorized to provide feedback for this swap", db)
        else if negb (bool_decide (status swapRequest = completed)) then
          (Http.json 400 false "Can only provide feedback for completed swaps", db)
        else
          let isFromUser := (fromUserId swapRequest =? caller)%N in
          let hasProvidedFeedback :=
            if isFromUser
            then bool_decide (fromUserRating (feedback swapRequest) ≠ None)
            else bool_decide (toUserRating (feedback swapRequest) ≠ None) in
          if hasProvidedFeedback then
            (Http.json 400 false "You have already provided feedback for this swap", db)
          else
            let '(swapRequest, swaps) :=
              addFeedback now swapId caller rating comment swapRequest (swapRequests db) in
            let db := set_swapRequests swaps db in
            let targetUserId :=
              if isFromUser then toUserId swapRequest else fromUserId swapRequest in
            match users db !! targetUserId with
            | None => (Http.json 500 false "Server error", db)
            | Some targetUser =>
                let db := set_users (User.updateRating targetUserId rating targetUser
                                       (users db)) db in
                let db :=
                  if isFeedbackComplete swapRequest then
                    set_notifications
                      (Notification.createFeedbackReceivedNotification targetUserId swapId
                         (notifications db)) db
                  else db in
                (Http.json 200 true "Feedback added successfully", db)
            end
    end.

End Feedback.

(** ** routes/users.js *)
Module Users.
Import User.

(** [.sort({ rating: -1, reviewCount: -1 })] *)
Definition most_reputable_first (a b : ObjectId * t) : Prop :=
  (PrimFloat.ltb (rating b.2) (rating a.2)
   || (PrimFloat.eqb (rating a.2) (rating b.2)
       && (reviewCount b.2 <=? reviewCount a.2)%Z)) = true.

#[global] Instance most_reputable_first_dec : RelDecision most_reputable_first.
Proof. intros a b. unfold most_reputable_first. apply _. Defined.

(** [.skip((page - 1) * limit).limit(limit)] with the defaults of
    [const { page = 1, limit = 20 } = req.query]. *)
Definition paginate {A} (page limit : option nat) (l : list A) : list A :=
  let page := default 1%nat page in
  let limit := default 20%nat limit in
  take limit (drop ((page - 1) * limit) l).

Definition validPage (page limit : option nat) (max : nat) : bool :=
  from_option (λ p, 1 <=? p)%nat true page
  && from_option (λ l, (1 <=? l) && (l <=? max))%nat true limit.

Record SkillMatches := {
  matches : list (ObjectId * t);
  totalMatches : nat
}.

(** [GET /api/users/:id/skill-matches] *)
Definition skillMatches (page limit : option nat) (id : ObjectId) (db : Db)
    : Http.Response + SkillMatches :=
  if negb (validPage page limit 50) then inl (Http.json 400 false "Validation error")
  else
    match users db !! id with
    | None => inl (Http.json 404 false "User not found")
    | Some user =>
        let matches :=
          paginate page limit
            (merge_sort most_reputable_first (findSkillMatches id (users db))) in
        let total := countDocuments (skillMatchQuery id user) (users db) in
        inr {| matches := matches; totalMatches := total |}
    end.

Section Listing.
(** Mongo's text index and its case-insensitive regular expressions are
    the database's; the listing takes them as given. *)
Variable text_search : string → t → bool.
Variable regex_i : string → string → bool.

(** The filter [GET /api/users] builds: [{ isPublic: true, isBanned: false }]
    and one more property per query parameter present. *)
Definition listQuery (search skill : option string) (avail : option Availability)
    (loc : option string) (doc : ObjectId * t) : bool :=
  bool_decide (isPublic doc.2 = true)
  && bool_decide (isBanned doc.2 = false)
  && from_option (λ s, text_search s doc.2) true search
  && from_option (λ k, existsb (regex_i k) (skillsOffered doc.2)
                       || existsb (regex_i k) (skillsWanted doc.2)) true skill
  && from_option (λ a, match a, availability doc.2 with
                       | weekdays, weekdays | weekends, weekends
                       | evenings, evenings | flexible, flexible => true
                       | _, _ => false
                       end) true avail
  && from_option (λ l, from_option (regex_i l) false (location doc.2)) true loc.

(** [GET /api/users] *)
Definition listUsers (search skill : option string) (avail : option Availability)
    (loc : option string) (page limit : option nat) (db : Db)
    : Http.Response + list (ObjectId * t) :=
  if negb (validPage page limit 50) then inl (Http.json 400 false "Validation error")
  else
    inr (paginate page limit
           (merge_sort most_reputable_first
              (find (listQuery search skill avail loc) (users db)))).

End Listing.

End Users.

(** ** routes/admin.js

    The router runs behind [protect, admin]: only administrators reach
    these handlers. *)
Module Admin.
Import User.

(** [PUT /api/admin/users/:id/ban] *)
Definition banUser (reason : option string) (userId : ObjectId) (db : Db)
    : Http.Response * Db :=
  if negb (from_option (isLength 0 200) true (trim <$> reason)) then
    (Http.json 400 false "Validation error", db)
  else
    match users db !! userId with
    | None => (Http.json 404 false "User not found", db)
    | Some user =>
        if isBanned user then (Http.json 400 false "User is already banned", db)
        else if isAdmin user then (Http.json 400 false "Cannot ban admin users", db)
        else
          (Http.json 200 true "User banned successfully",
           set_users (save userId (set_isBanned true user) (users db)) db)
    end.

(** [PUT /api/admin/users/:id/unban] *)
Definition unbanUser (userId : ObjectId) (db : Db) : Http.Response * Db :=
  match users db !! userId with
  | None => (Http.json 404 false "User not found", db)
  | Some user =>
      if negb (isBanned user) then (Http.json 400 false "User is not banned", db)
      else
        (Http.json 200 true "User unbanned successfully",
         set_users (save userId (set_isBanned false user) (users db)) db)
  end.

End Admin.

(** ** The server as a transition system *)
Inductive Request :=
| PostSwap (caller : ObjectId) (toUserId : string)
    (skillOffered skillWanted message : string)
| PutAccept (caller id : ObjectId)
| PutReject (caller id : ObjectId)
| PutComplete (caller id : ObjectId)
| DeleteSwap (caller id : ObjectId)
| PostFeedback (caller swapId : ObjectId) (rating : Z) (comment : option string)
| PutBan (reason : option string) (userId : ObjectId)
| PutUnban (userId : ObjectId).

Definition handle (now : Z) (r : Request) (db : Db) : Http.Response * Db :=
  match r with
  | PostSwap caller to offered wanted msg => Swaps.createSwap now caller to offered wanted msg db
  | PutAccept caller id => Swaps.acceptSwap now caller id db
  | PutReject caller id => Swaps.rejectSwap now caller id db
  | PutComplete caller id => Swaps.completeSwap now caller id db
  | DeleteSwap caller id => Swaps.cancelSwap now caller id db
  | PostFeedback caller id rating comment => Feedback.submitFeedback now caller id rating comment db
  | PutBan reason id => Admin.banUser reason id db
  | PutUnban id => Admin.unbanUser id db
  end.

(** The stores the server can be in: it starts without swap requests,
    notifications or admin messages; the account routes (registration,
    profile), which are outside this development, write [users] only. *)
Inductive reachable : Db → Prop :=
| reachable_init us :
    reachable {| users := us; swapRequests := ∅; notifications := [];
                 adminMessages := ∅ |}
| reachable_account db us : reachable db → reachable (set_users us db)
| reachable_handle db now r : reachable db → reachable (handle now r db).2.

(** ** The lifecycle table of the specification (section 4.1) *)
Inductive Action := Accept | Reject | Complete | Cancel.

Definition run (a : Action) : Z → ObjectId → ObjectId → Db → Http.Response * Db :=
  match a with
  | Accept => Swaps.acceptSwap
  | Reject => Swaps.rejectSwap
  | Complete => Swaps.completeSwap
  | Cancel => Swaps.cancelSwap
  end.

(** "Actor allowed" *)
Definition actor_allowed (a : Action) (s : SwapRequest.t) (caller : ObjectId) : Prop :=
  match a with
  | Accept | Reject => caller = SwapRequest.toUserId s
  | Complete => caller = SwapRequest.fromUserId s ∨ caller = SwapRequest.toUserId s
  | Cancel => caller = SwapRequest.fromUserId s
  end.







(** ** The skill-match relation of the specification (section 4.3)

    [V] (document [v]) matches the querying user [id] (document [u]). *)
Definition skill_match (id : ObjectId) (u : User.t) (V : ObjectId) (v : User.t) : Prop :=
  V ≠ id ∧ User.isPublic v = true ∧ User.isBanned v = false
  ∧ ((∃ k, k ∈ User.skillsOffered v ∧ k ∈ User.skillsWanted u)
     ∨ (∃ k, k ∈ User.skillsWanted v ∧ k ∈ User.skillsOffered u)).

(** ** Specification-side notions for moderation and admin messages *)

(** The optional [reason] of a ban passes validation. *)
Definition valid_reason (reason : option string) : Prop :=
  from_option (isLength 0 200) true (trim <$> reason) = true.

(** "active AND (no expiry OR expiry in the future)", and the same with an
    expiry that is not in the past. *)
Definition visible_future (now : Z) (m : AdminMessage.t) : Prop :=
  AdminMessage.isActive m = true
  ∧ (AdminMessage.expiresAt m = None
     ∨ ∃ e, AdminMessage.expiresAt m = Some e ∧ (now < e)%Z).

Definition visible_not_past (now : Z) (m : AdminMessage.t) : Prop :=
  AdminMessage.isActive m = true
  ∧ (AdminMessage.expiresAt m = None
     ∨ ∃ e, AdminMessage.expiresAt m = Some e ∧ (now ≤ e)%Z).

(** ** The completion invariant of the data model *)
Definition completedAt_set_iff_completed (s : SwapRequest.t) : Prop :=
  SwapRequest.completedAt s ≠ None ↔ SwapRequest.status s = SwapRequest.completed.

(** What one request may do to the collection of swap requests: nothing;
    or write one document, which is then a new pending request, or an
    existing one whose status moved between non-completed statuses, or whose
    status and [completedAt] are as before, or which a complete call of one
    of its participants has just moved from accepted to completed. *)
Definition touched (now : Z) (r : Request) (db : Db) (res : Http.Response) (db' : Db)
    : Prop :=
  swapRequests db' = swapRequests db
  ∨ ∃ id s',
      swapRequests db' = <[id := s']> (swapRequests db)
      ∧ ((swapRequests db !! id = None
          ∧ SwapRequest.status s' = SwapRequest.pending
          ∧ SwapRequest.completedAt s' = None)
         ∨ (∃ s, swapRequests db !! id = Some s
                ∧ ((SwapRequest.status s ≠ SwapRequest.completed
                    ∧ SwapRequest.status s' ≠ SwapRequest.completed
                    ∧ SwapRequest.completedAt s' = SwapRequest.completedAt s)
                   ∨ (SwapRequest.status s' = SwapRequest.status s
                      ∧ SwapRequest.completedAt s' = SwapRequest.completedAt s)
                   ∨ (∃ caller, r = PutComplete caller id
                        ∧ (caller = SwapRequest.fromUserId s
                           ∨ caller = SwapRequest.toUserId s)
                        ∧ SwapRequest.status s = SwapRequest.accepted
                        ∧ SwapRequest.status s' = SwapRequest.completed
                        ∧ SwapRequest.completedAt s' = Some now)))).

(** ** Specification-side notions for swap creation *)

(** A pending request between the two users, in either direction. *)
Definition pending_between (db : Db) (a b : ObjectId) : Prop :=
  ∃ id s, swapRequests db !! id = Some s
          ∧ SwapRequest.status s = SwapRequest.pending
          ∧ ((SwapRequest.fromUserId s = a ∧ SwapRequest.toUserId s = b)
             ∨ (SwapRequest.fromUserId s = b ∧ SwapRequest.toUserId s = a)).

(** The body of a create call passes validation. *)
Definition valid_fields (skillOffered skillWanted message : string) : Prop :=
  isLength 1 50 (trim skillOffered) = true
  ∧ isLength 1 50 (trim skillWanted) = true
  ∧ isLength 1 500 (trim message) = true.

Definition conflict : Http.Response :=
  Http.json 400 false "A pending swap request already exists between these users".

(** ** Specification-side notions for the feedback route *)

(** The feedback slot of a participant: the requester's when the caller is
    the requester, else the recipient's. *)
Definition own_slot (s : SwapRequest.t) (caller : ObjectId)
    : option (option Z * option string) :=
  let f := SwapRequest.feedback s in
  if decide (caller = SwapRequest.fromUserId s)
  then Some (SwapRequest.fromUserRating f, SwapRequest.fromUserComment f)
  else if decide (caller = SwapRequest.toUserId s)
  then Some (SwapRequest.toUserRating f, SwapRequest.toUserComment f)
  else None.

(** The rating in the slot of the other participant. *)
Definition other_rating (s : SwapRequest.t) (caller : ObjectId) : option Z :=
  let f := SwapRequest.feedback s in
  if decide (caller = SwapRequest.fromUserId s)
  then SwapRequest.toUserRating f
  else SwapRequest.fromUserRating f.

(** The user whose aggregate a submission by [caller] updates. *)
Definition counterparty (s : SwapRequest.t) (caller : ObjectId) : ObjectId :=
  if decide (caller = SwapRequest.fromUserId s)
  then SwapRequest.toUserId s
  else SwapRequest.fromUserId s.

(** The aggregate of a user after receiving the ratings [l] in this order,
    and a user nobody has rated yet. *)
Definition rate_all (u : User.t) (l : list Z) : User.t :=
  foldl (λ u r, User.rated r u) u l.

Definition unrated (u : User.t) : Prop :=
  User.rating u = 0%float ∧ User.reviewCount u = 0%Z.

(** The same recurrence in exact rational arithmetic, from the aggregate
    (0, 0) of an unrated user. *)
Definition exact_newAvg (oldAvg : Q) (oldCount : Z) (rating : Z) : Q :=
  ((oldAvg * inject_Z oldCount + inject_Z rating) / (inject_Z oldCount + 1))%Q.

Definition exact_mean (l : list Z) : Q * Z :=
  foldl (λ a r, (exact_newAvg a.1 a.2 r, (a.2 + 1)%Z)) (0%Q, 0%Z) l.

Definition total (l : list Z) : Z := foldr Z.add 0%Z l.

(** The rational number a finite double stands for, and a double within
    [eps] of a rational. *)
Definition float_to_Q (f : float) : option Q :=
  match Prim2SF f with
  | S754_zero _ => Some 0%Q
  | S754_finite s m e =>
      Some (inject_Z (if s then Z.neg m else Z.pos m) * Qpower 2 e)%Q
  | _ => None
  end.

Definition within (eps : Q) (f : float) (q : Q) : Prop :=
  ∃ x, float_to_Q f = Some x ∧ (Qabs (x - q) <= eps)%Q.

(** The aggregates (mean, count, and the sum of the ratings so far) that
    ratings between 1 and 5 can lead to from an unrated user, by the number
    of ratings. *)
Definition rate (a : float * Z * Z) (r : Z) : float * Z * Z :=
  (User.newAvg a.1.1 a.1.2 r, a.1.2 + 1, a.2 + r)%Z.

Definition same_aggregate (a b : float * Z * Z) : bool :=
  Leibniz.eqb a.1.1 b.1.1 && (a.1.2 =? b.1.2)%Z && (a.2 =? b.2)%Z.

Definition add_aggregate (a : float * Z * Z) (l : list (float * Z * Z)) :=
  if existsb (same_aggregate a) l then l else a :: l.

Definition after_one_more (l : list (float * Z * Z)) : list (float * Z * Z) :=
  foldr (λ a acc, foldr (λ r acc, add_aggregate (rate a r) acc) acc [1; 2; 3; 4; 5]%Z)
        [] l.

Fixpoint after (k : nat) : list (float * Z * Z) :=
  match k with
  | O => [(0%float, 0%Z, 0%Z)]
  | S k => after_one_more (after k)
  end.

(** The mean of the aggregate is a finite double within [eps] of the
    quotient of its sum and count. *)
Definition accurate (eps : Q) (a : float * Z * Z) : bool :=
  match float_to_Q a.1.1 with
  | Some x => Qle_bool (Qabs (x - inject_Z a.2 / inject_Z a.1.2)) eps
  | None => false
  end.

(** [user] holds a "feedback received" notification about swap [swapId]. *)
Definition feedback_notified (db : Db) (swapId user : ObjectId) : Prop :=
  Exists (λ n, Notification.type n = Notification.feedback_received
               ∧ Notification.userId n = user
               ∧ Notification.relatedId n = Some swapId) (notifications db).

(** ** A store to run the handlers on: the scenario of the specification *)
Module Example.

Definition userA : User.t :=
  {| User.email := "a@skillswap.com"; User.name := "A"; User.location := None;
     User.skillsOffered := ["JavaScript"]; User.skillsWanted := ["Python"];
     User.availability := User.weekends; User.isPublic := true;
     User.isAdmin := false; User.isBanned := false;
     User.rating := 0; User.reviewCount := 0 |}.

Definition userB : User.t :=
  {| User.email := "b@skillswap.com"; User.name := "B"; User.location := None;
     User.skillsOffered := ["Python"]; User.skillsWanted := ["JavaScript"];
     User.availability := User.weekdays; User.isPublic := true;
     User.isAdmin := false; User.isBanned := false;
     User.rating := 0; User.reviewCount := 0 |}.

(** A banned member and an administrator. *)
Definition userC : User.t :=
  {| User.email := "c@skillswap.com"; User.name := "C"; User.location := None;
     User.skillsOffered := ["Python"]; User.skillsWanted := ["React"];
     User.availability := User.flexible; User.isPublic := true;
     User.isAdmin := false; User.isBanned := true;
     User.rating := 0; User.reviewCount := 0 |}.

Definition userD : User.t :=
  {| User.email := "admin@skillswap.com"; User.name := "D"; User.location := None;
     User.skillsOffered := []; User.skillsWanted := [];
     User.availability := User.flexible; User.isPublic := true;
     User.isAdmin := true; User.isBanned := false;
     User.rating := 0; User.reviewCount := 0 |}.

Definition members : gmap N User.t :=
  <[4%N := userD]> (<[3%N := userC]> (<[2%N := userB]> (<[1%N := userA]> ∅))).

Definition db0 : Db :=
  {| users := members; swapRequests := ∅; notifications := []; adminMessages := ∅ |}.

(** A requests, B accepts, A completes, A rates 5, B rates 4. *)
Definition db1 : Db :=
  (Swaps.createSwap 1000 1 (ObjectId_toString 2) "JavaScript" "Python" "Swap?" db0).2.
Definition db2 : Db := (Swaps.acceptSwap 2000 2 0 db1).2.
Definition db3 : Db := (Swaps.completeSwap 3000 1 0 db2).2.
Definition db4 : Db := (Feedback.submitFeedback 4000 1 0 5 (Some "Great") db3).2.
Definition db5 : Db := (Feedback.submitFeedback 5000 2 0 4 None db4).2.

Definition swap1 : SwapRequest.t :=
  {| SwapRequest.fromUserId := 1; SwapRequest.toUserId := 2;
     SwapRequest.skillOffered := "JavaScript"; SwapRequest.skillWanted := "Python";
     SwapRequest.message := "Swap?"; SwapRequest.status := SwapRequest.pending;
     SwapRequest.completedAt := None;
     SwapRequest.feedback :=
       {| SwapRequest.fromUserRating := None; SwapRequest.fromUserComment := None;
          SwapRequest.toUserRating := None; SwapRequest.toUserComment := None |};
     SwapRequest.createdAt := 1000; SwapRequest.updatedAt := 1000 |}.

(** A targeted message that expires at time 1000, and a global one that
    never does. *)
Definition notice : AdminMessage.t :=
  {| AdminMessage.title := "Maintenance"; AdminMessage.message := "Tonight";
     AdminMessage.type := AdminMessage.maintenance; AdminMessage.isActive := true;
     AdminMessage.isGlobal := false; AdminMessage.targetUsers := [2%N];
     AdminMessage.expiresAt := Some 1000%Z; AdminMessage.createdBy := 4%N;
     AdminMessage.createdAt := 10%Z |}.

Definition welcome : AdminMessage.t :=
  {| AdminMessage.title := "Welcome"; AdminMessage.message := "Hello";
     AdminMessage.type := AdminMessage.announcement; AdminMessage.isActive := true;
     AdminMessage.isGlobal := true; AdminMessage.targetUsers := [];
     AdminMessage.expiresAt := None; AdminMessage.createdBy := 4%N;
     AdminMessage.createdAt := 20%Z |}.

Definition board : gmap N AdminMessage.t := <[1%N := welcome]> (<[0%N := notice]> ∅).


(** The stored request once completed. *)
Definition swap3 : SwapRequest.t :=
  SwapRequest.set_updatedAt 3000
    (SwapRequest.set_completedAt (Some 3000%Z)
       (SwapRequest.set_status SwapRequest.completed swap1)).

(** The stored request after A's feedback. *)
Definition swap4 : SwapRequest.t :=
  SwapRequest.set_updatedAt 4000
    (SwapRequest.set_feedback
       {| SwapRequest.fromUserRating := Some 5%Z;
          SwapRequest.fromUserComment := Some "Great";
          SwapRequest.toUserRating := None; SwapRequest.toUserComment := None |}
       (SwapRequest.set_completedAt (Some 3000%Z)
          (SwapRequest.set_status SwapRequest.completed swap1))).

End Example.


(** * Further parts of the backend *)

From stdpp Require pretty.

(** ** models/SwapRequest.js: statics, and the value of a virtual *)
Module SwapRequestStatics.
Import SwapRequest.

(** [{ $or: [{ fromUserId: userId }, { toUserId: userId }], status }] *)
Definition forUser (st : Status) (userId : ObjectId) (doc : ObjectId * t) : bool :=
  ((fromUserId doc.2 =? userId)%N || (toUserId doc.2 =? userId)%N)
  && bool_decide (status doc.2 = st).

Definition find (q : ObjectId * t → bool) (coll : gmap N t) : list (ObjectId * t) :=
  List.filter q (map_to_list coll).

Definition countDocuments (q : ObjectId * t → bool) (coll : gmap N t) : nat :=
  length (find q coll).

Definition findPendingForUser (userId : ObjectId) := find (forUser pending userId).

Definition findAcceptedForUser (userId : ObjectId) := find (forUser accepted userId).

Definition findCompletedForUser (userId : ObjectId) := find (forUser completed userId).

Definition statuses : list Status := [pending; accepted; rejected; completed; cancelled].

(** [aggregate([{ $group: { _id: '$status', count: { $sum: 1 } } }])] over
    the documents an optional [$match] stage lets through: one group per
    status that occurs. *)
Definition groupByStatus (docs : list (ObjectId * t)) : list (Status * nat) :=
  List.filter (λ g : Status * nat, (0 <? g.2)%nat)
    ((λ st, (st, length (List.filter (λ d : ObjectId * t,
                                        bool_decide (status d.2 = st)) docs)))
       <$> statuses).

Definition getStats (coll : gmap N t) : list (Status * nat) :=
  groupByStatus (map_to_list coll).

(** The JavaScript value of the virtual [isFeedbackComplete],
    [fromUserRating && toUserRating]: the left operand when it is falsy,
    else the right one. *)
Definition isFeedbackComplete_value (this : t) : option Z :=
  if truthy (fromUserRating (feedback this))
  then toUserRating (feedback this)
  else fromUserRating (feedback this).

(** The JavaScript value of the virtual [isReadyForCompletion],
    [this.status === 'accepted' && this.isFeedbackComplete]: the left
    operand, [false], when the status is another one, else the value of
    [isFeedbackComplete], [null] or a number. *)
Definition isReadyForCompletion (this : t) : bool + option Z :=
  let isAccepted := bool_decide (status this = accepted) in
  if isAccepted then inr (isFeedbackComplete_value this) else inl isAccepted.

(** JavaScript truthiness of such a value. *)
Definition truthy_value (v : bool + option Z) : bool :=
  match v with
  | inl b => b
  | inr r => truthy r
  end.

End SwapRequestStatics.

(** ** routes/swaps.js: the read-only routes *)
Module SwapsRead.
Import SwapRequest.

Inductive Direction := sent | received.

(** The filter [GET /api/swaps] builds from [type] and [status]. *)
Definition listQuery (caller : ObjectId) (status : option Status)
    (type : option Direction) (doc : ObjectId * t) : bool :=
  match type with
  | Some sent => (fromUserId doc.2 =? caller)%N
  | Some received => (toUserId doc.2 =? caller)%N
  | None => (fromUserId doc.2 =? caller)%N || (toUserId doc.2 =? caller)%N
  end
  && from_option (λ st, bool_decide (SwapRequest.status doc.2 = st)) true status.

(** [.sort({ createdAt: -1 })] *)
Definition newest_first (a b : ObjectId * t) : Prop := (createdAt b.2 ≤ createdAt a.2)%Z.

#[global] Instance newest_first_dec : RelDecision newest_first.
Proof. intros a b. unfold newest_first. apply _. Defined.

(** [Math.ceil(total / limit)] on counts. *)
Definition ceil_div (total limit : nat) : nat := (total + limit - 1) / limit.

Record Pagination := {
  currentPage : nat;
  totalPages : nat;
  totalRequests : nat;
  hasNextPage : bool;
  hasPrevPage : bool;
  limit : nat
}.

Definition pagination (page limit : option nat) (total : nat) : Pagination :=
  let page := default 1 page in
  let limit := default 20 limit in
  let totalPages := ceil_div total limit in
  {| currentPage := page; totalPages := totalPages; totalRequests := total;
     hasNextPage := (page <? totalPages)%nat; hasPrevPage := (1 <? page)%nat;
     limit := limit |}.

(** [GET /api/swaps] *)
Definition listSwaps (status : option Status) (type : option Direction)
    (page limit : option nat) (caller : ObjectId) (db : Db)
    : Http.Response + list (ObjectId * t) * Pagination :=
  if negb (Users.validPage page limit 50) then inl (Http.json 400 false "Validation error")
  else
    let query := listQuery caller status type in
    let found :=
      Users.paginate page limit
        (merge_sort newest_first (SwapRequestStatics.find query (swapRequests db))) in
    let total := SwapRequestStatics.countDocuments query (swapRequests db) in
    inr (found, pagination page limit total).

Record Overview := {
  stats : list (Status * nat);
  totalSwaps : nat;
  completedSwaps : nat;
  pendingRequests : nat
}.

(** [{ $or: [{ fromUserId: userId }, { toUserId: userId }] }] *)
Definition involves (userId : ObjectId) (doc : ObjectId * t) : bool :=
  (fromUserId doc.2 =? userId)%N || (toUserId doc.2 =? userId)%N.

(** [GET /api/swaps/stats/overview] *)
Definition statsOverview (caller : ObjectId) (db : Db) : Overview :=
  let userId := caller in
  {| stats := SwapRequestStatics.groupByStatus
                (SwapRequestStatics.find (involves userId) (swapRequests db));
     totalSwaps := SwapRequestStatics.countDocuments (involves userId) (swapRequests db);
     completedSwaps :=
       SwapRequestStatics.countDocuments (SwapRequestStatics.forUser completed userId)
         (swapRequests db);
     pendingRequests :=
       SwapRequestStatics.countDocuments
         (λ doc, (toUserId doc.2 =? userId)%N && bool_decide (status doc.2 = pending))
         (swapRequests db) |}.

End SwapsRead.

(** ** routes/feedback.js: a count of the statistics route *)
Module FeedbackStats.
Import SwapRequest.

(** The filters of [GET /api/feedback/stats/overview] range over these
    values and conditions. *)
Inductive Value := Null | Id (i : ObjectId) | Status (s : SwapRequest.Status) | Number (n : Z).

#[global] Instance Value_eq_dec : EqDecision Value.
Proof. solve_decision. Defined.

(** [{ field: v }] and [{ field: { $ne: v } }] *)
Inductive Cond := Is (v : Value) | Ne (v : Value).

Inductive Entry :=
| Field (c : Cond)
| Clauses (cs : list (list (string * Cond))).

Definition holds (c : Cond) (field : Value) : bool :=
  match c with
  | Is v => bool_decide (field = v)
  | Ne v => bool_decide (field ≠ v)
  end.

Definition get (this : t) (k : string) : Value :=
  if decide (k = "fromUserId") then Id (fromUserId this)
  else if decide (k = "toUserId") then Id (toUserId this)
  else if decide (k = "status") then Status (status this)
  else if decide (k = "feedback.fromUserRating")
  then from_option Number Null (fromUserRating (feedback this))
  else if decide (k = "feedback.toUserRating")
  then from_option Number Null (toUserRating (feedback this))
  else Null.

Definition clause (doc : t) (cl : list (string * Cond)) : bool :=
  forallb (λ kc : string * Cond, holds kc.2 (get doc kc.1)) cl.

Definition entry (doc : t) (k : string) (e : Entry) : bool :=
  match e with
  | Field c => holds c (get doc k)
  | Clauses cs => bool_decide (k = "$or") && existsb (clause doc) cs
  end.

Definition matches (q : gmap string Entry) (doc : t) : bool :=
  bool_decide (map_Forall (λ k e, entry doc k e = true) q).

(** The filter of the count [swapsWithFeedback]; the object literal names
    [$or] twice. *)
Definition swapsWithFeedback_filter (userId : ObjectId) : gmap string Entry :=
  Filter.object
    [ ("$or", Clauses [ [("fromUserId", Is (Id userId))];
                        [("toUserId", Is (Id userId))] ]);
      ("status", Field (Is (Status completed)));
      ("$or", Clauses [ [("feedback.fromUserRating", Ne Null)];
                        [("feedback.toUserRating", Ne Null)] ]) ].

Definition swapsWithFeedback (userId : ObjectId) (coll : gmap N t) : nat :=
  SwapRequestStatics.countDocuments (λ d, matches (swapsWithFeedback_filter userId) d.2)
    coll.

(** The two [$project] stages of the pipeline [ratingStats]: the rating in
    the other party's slot. *)
Definition receivedRating (userId : ObjectId) (doc : t) : option Z :=
  let isFromUser := (fromUserId doc =? userId)%N in
  if isFromUser then toUserRating (feedback doc) else fromUserRating (feedback doc).

(** The documents that reach the [$group] stage: the received ratings,
    [null] apart, of the user's completed requests. *)
Definition ratingsReceived (userId : ObjectId) (coll : gmap N t) : list Z :=
  omap (λ d : ObjectId * t, receivedRating userId d.2)
    (SwapRequestStatics.find (SwapRequestStatics.forUser completed userId) coll).

(** [{ $avg: '$receivedRating' }]; without a group the route answers [0]. *)
Definition average (l : list Z) : float :=
  match l with
  | [] => 0%float
  | _ => (Number_ofZ (foldr Z.add 0%Z l)
          / Number_ofZ (Z.of_nat (length l)))%float
  end.

Record Stats := {
  userRating : float;
  reviewCount : Z;
  completedSwaps : nat;
  withFeedback : nat;
  averageRatingReceived : float;
  totalRatingsReceived : nat
}.

(** [GET /api/feedback/stats/overview].  Reading [user.rating] of a user
    that is no longer stored throws, and the handler's [catch] answers
    500. *)
Definition statsOverview (caller : ObjectId) (db : Db) : Http.Response + Stats :=
  let userId := caller in
  match users db !! userId with
  | None => inl (Http.json 500 false "Server error")
  | Some user =>
      let ratingStats := ratingsReceived userId (swapRequests db) in
      inr {| userRating := User.rating user;
             reviewCount := User.reviewCount user;
             completedSwaps :=
               SwapRequestStatics.countDocuments
                 (SwapRequestStatics.forUser completed userId) (swapRequests db);
             withFeedback := swapsWithFeedback userId (swapRequests db);
             averageRatingReceived := average ratingStats;
             totalRatingsReceived := length ratingStats |}
  end.

End FeedbackStats.

(** ** routes/users.js: one profile *)
Module UsersRead.
Import User.

(** [GET /api/users/:id] behind [optionalAuth]: [viewer] is [req.user._id]
    when the request carries a valid token. *)
Definition getUser (viewer : option ObjectId) (id : ObjectId) (db : Db)
    : Http.Response + t :=
  match users db !! id with
  | None => inl (Http.json 404 false "User not found")
  | Some user =>
      if negb (isPublic user)
         && from_option (λ v, negb (v =? id)%N) true viewer then
        inl (Http.json 403 false "Profile is private")
      else inr user
  end.

End UsersRead.

(** ** Popular skills: routes/users.js and the dashboard of routes/admin.js *)
Module PopularSkills.

(** [{ $unwind: '$skillsOffered' }]: one document per element of the
    array, of every stored user. *)
Definition unwind (field : User.t → list string) (coll : gmap N User.t) : list string :=
  mjoin (field <$> (map_to_list coll).*2).

Definition occurrences (s : string) (l : list string) : nat :=
  length (List.filter (λ t, bool_decide (t = s)) l).

(** [{ $group: { _id: '$skillsOffered', count: { $sum: 1 } } }] *)
Definition group (l : list string) : list (string * nat) :=
  (λ s, (s, occurrences s l)) <$> remove_dups l.

(** [{ $sort: { count: -1 } }] *)
Definition most_frequent_first (a b : string * nat) : Prop := b.2 ≤ a.2.

#[global] Instance most_frequent_first_dec : RelDecision most_frequent_first.
Proof. intros a b. unfold most_frequent_first. apply _. Defined.

(** The pipeline, ended by [{ $limit: k }].  Mongo leaves the order of
    groups of the same count open; the sort here keeps that of [group]. *)
Definition popular (field : User.t → list string) (k : nat) (coll : gmap N User.t)
    : list (string * nat) :=
  take k (merge_sort most_frequent_first (group (unwind field coll))).

(** [GET /api/users/stats/popular-skills]: offered and wanted skills. *)
Definition popularSkills (db : Db) : list (string * nat) * list (string * nat) :=
  (popular User.skillsOffered 10 (users db), popular User.skillsWanted 10 (users db)).

(** The part [popularSkills] of [GET /api/admin/dashboard]. *)
Definition dashboardSkills (db : Db) : list (string * nat) * list (string * nat) :=
  (popular User.skillsOffered 5 (users db), popular User.skillsWanted 5 (users db)).

End PopularSkills.

(** ** models/Notification.js: statics and methods *)
Module NotificationStatics.
Import Notification.

Definition set_isRead (b : bool) (this : t) : t :=
  {| userId := userId this; type := type this; title := title this;
     message := message this; isRead := b; relatedId := relatedId this;
     relatedModel := relatedModel this; metadata := metadata this |}.

(** [countDocuments({ userId, isRead: false })] *)
Definition getUnreadCount (userId : ObjectId) (coll : list t) : nat :=
  length (List.filter (λ n, (Notification.userId n =? userId)%N && negb (isRead n)) coll).

(** [updateMany({ userId, isRead: false }, { isRead: true })] *)
Definition markAllAsRead (userId : ObjectId) (coll : list t) : list t :=
  (λ n, if (Notification.userId n =? userId)%N && negb (isRead n)
        then set_isRead true n else n) <$> coll.

(** The methods [markAsRead] and [markAsUnread] of the document at
    position [i] of the collection. *)
Definition markAsRead (i : nat) (coll : list t) : list t :=
  alter (set_isRead true) i coll.

Definition markAsUnread (i : nat) (coll : list t) : list t :=
  alter (set_isRead false) i coll.

(** The schema's validators on a document: [title] and [message] are
    required, of at most 100 and 500 characters. *)
Definition valid (doc : t) : bool :=
  isLength 1 100 (title doc) && isLength 1 500 (message doc).

(** [insertMany(docs)]: every document is validated first, and none is
    inserted (the call throws) unless all are valid. *)
Definition insertMany (docs : list t) (coll : list t) : option (list t) :=
  if forallb valid docs then Some (coll ++ docs) else None.

(** Virtual [age] of a notification created at [createdAt], read at [now]. *)
Definition age (now createdAt : Z) : string :=
  let diff := (now - createdAt)%Z in
  let minutes := (diff / 60000)%Z in
  let hours := (minutes / 60)%Z in
  let days := (hours / 24)%Z in
  if (0 <? days)%Z
  then pretty.pretty days +:+ " day" +:+ (if (1 <? days)%Z then "s" else "") +:+ " ago"
  else if (0 <? hours)%Z
  then pretty.pretty hours +:+ " hour" +:+ (if (1 <? hours)%Z then "s" else "") +:+ " ago"
  else if (0 <? minutes)%Z
  then pretty.pretty minutes +:+ " minute" +:+ (if (1 <? minutes)%Z then "s" else "") +:+ " ago"
  else "Just now".

End NotificationStatics.

(** ** models/AdminMessage.js: methods and statics *)
Module AdminMessageStatics.
Import AdminMessage.

Definition set_isActive (b : bool) (this : t) : t :=
  {| title := title this; message := message this; type := type this;
     isActive := b; isGlobal := isGlobal this; targetUsers := targetUsers this;
     expiresAt := expiresAt this; createdBy := createdBy this;
     createdAt := createdAt this |}.

Definition set_expiresAt (e : option Z) (this : t) : t :=
  {| title := title this; message := message this; type := type this;
     isActive := isActive this; isGlobal := isGlobal this;
     targetUsers := targetUsers this; expiresAt := e; createdBy := createdBy this;
     createdAt := createdAt this |}.

Definition save (id : ObjectId) (this : t) (coll : gmap N t) : t * gmap N t :=
  (this, <[id := this]> coll).

Definition deactivate (id : ObjectId) (this : t) := save id (set_isActive false this).

Definition activate (id : ObjectId) (this : t) := save id (set_isActive true this).

(** [new Date(ms)] is a date when [ms] is within 8.64e15 milliseconds of
    the epoch, and an invalid date otherwise. *)
Definition validDate (ms : Z) : bool :=
  (-8640000000000000 <=? ms)%Z && (ms <=? 8640000000000000)%Z.

(** [extendExpiration(days)], for a whole number of days: the new expiry
    is [days * 24 * 60 * 60 * 1000] milliseconds after the present one, or
    after [now] when there is none.  Mongoose does not store an invalid
    date: [save()] then rejects ([None]) and the collection stays as it
    is. *)
Definition extendExpiration (now : Z) (days : Z) (id : ObjectId) (this : t)
    (coll : gmap N t) : option (t * gmap N t) :=
  let ms := match expiresAt this with
            | Some e => e + days * 24 * 60 * 60 * 1000
            | None => now + days * 24 * 60 * 60 * 1000
            end%Z in
  if validDate ms then Some (save id (set_expiresAt (Some ms) this) coll) else None.

(** [updateMany({ expiresAt: { $lt: now }, isActive: true }, { isActive: false })] *)
Definition cleanupExpired (now : Z) (coll : gmap N t) : gmap N t :=
  (λ m, if from_option (λ e, (e <? now)%Z) false (expiresAt m) && isActive m
        then set_isActive false m else m) <$> coll.

Definition types : list Type_ := [info; warning; announcement; maintenance].

#[global] Instance Type_eq_dec : EqDecision Type_.
Proof. solve_decision. Defined.

(** The [$cond] of [getStats]: active, and no expiry or one after [now]. *)
Definition counts_as_active (now : Z) (m : t) : bool :=
  isActive m && from_option (λ e, (now <? e)%Z) true (expiresAt m).

(** [getStats]: per type that occurs, the number of messages and the
    number of those that count as active. *)
Definition getStats (now : Z) (coll : gmap N t) : list (Type_ * nat * nat) :=
  List.filter (λ g : Type_ * nat * nat, (0 <? g.1.2)%nat)
    ((λ ty,
        let docs := List.filter (λ d : ObjectId * t, bool_decide (type d.2 = ty))
                      (map_to_list coll) in
        (ty, length docs, length (List.filter (λ d, counts_as_active now d.2) docs)))
       <$> types).

End AdminMessageStatics.

(** ** routes/admin.js: roles and messages *)
Module AdminMessages.

Definition set_isAdmin (b : bool) (this : User.t) : User.t :=
  {| User.email := User.email this; User.name := User.name this;
     User.location := User.location this;
     User.skillsOffered := User.skillsOffered this;
     User.skillsWanted := User.skillsWanted this;
     User.availability := User.availability this; User.isPublic := User.isPublic this;
     User.isAdmin := b; User.isBanned := User.isBanned this;
     User.rating := User.rating this; User.reviewCount := User.reviewCount this |}.

(** [PUT /api/admin/users/:id/role] *)
Definition changeRole (isAdmin : bool) (userId : ObjectId) (db : Db)
    : Http.Response * Db :=
  match users db !! userId with
  | None => (Http.json 404 false "User not found", db)
  | Some user =>
      (Http.json 200 true
         ("User role updated to " +:+ (if isAdmin then "admin" else "user")
          +:+ " successfully"),
       set_users (User.save userId (set_isAdmin isAdmin user) (users db)) db)
  end.

Definition set_adminMessages (m : gmap N AdminMessage.t) (db : Db) : Db :=
  {| users := users db; swapRequests := swapRequests db;
     notifications := notifications db; adminMessages := m |}.

(** The notification the message route builds for one recipient. *)
Definition notify (title message : string) (messageId userId : ObjectId)
    : Notification.t :=
  {| Notification.userId := userId; Notification.type := Notification.admin_message;
     Notification.title := title; Notification.message := message;
     Notification.isRead := false; Notification.relatedId := Some messageId;
     Notification.relatedModel := Some Notification.AdminMessage;
     Notification.metadata := None |}.

(** [POST /api/admin/messages].  The message is stored before the
    notifications are inserted; when [insertMany] throws, the handler's
    [catch] answers 500. *)
Definition createMessage (now : Z) (caller : ObjectId) (title message : string)
    (type : AdminMessage.Type_) (isGlobal : option bool)
    (targetUsers : option (list ObjectId)) (expiresAt : option Z) (db : Db)
    : Http.Response * Db :=
  let title := trim title in
  let message := trim message in
  if negb (isLength 1 100 title && isLength 1 1000 message) then
    (Http.json 400 false "Validation error", db)
  else
    let isGlobal := default false isGlobal in
    let targetUsers := default [] targetUsers in
    let id := fresh (dom (adminMessages db)) in
    let adminMessage :=
      {| AdminMessage.title := title; AdminMessage.message := message;
         AdminMessage.type := type; AdminMessage.isActive := true;
         AdminMessage.isGlobal := isGlobal; AdminMessage.targetUsers := targetUsers;
         AdminMessage.expiresAt := expiresAt; AdminMessage.createdBy := caller;
         AdminMessage.createdAt := now |} in
    let db := set_adminMessages (<[id := adminMessage]> (adminMessages db)) db in
    let recipients :=
      if isGlobal
      then (List.filter (λ d : ObjectId * User.t, bool_decide (User.isBanned d.2 = false))
              (map_to_list (users db))).*1
      else targetUsers in
    match NotificationStatics.insertMany (notify title message id <$> recipients)
            (notifications db) with
    | None => (Http.json 500 false "Server error", db)
    | Some notes =>
        (Http.json 201 true "Admin message created successfully",
         set_notifications notes db)
    end.

(** [DELETE /api/admin/messages/:id] *)
Definition deleteMessage (id : ObjectId) (db : Db) : Http.Response * Db :=
  match adminMessages db !! id with
  | None => (Http.json 404 false "Admin message not found", db)
  | Some message =>
      (Http.json 200 true "Admin message deleted successfully",
       set_adminMessages (delete id (adminMessages db)) db)
  end.

End AdminMessages.

(** ** What one request does to the collection of swap requests *)

(** The arrows of the lifecycle. *)
Inductive edge : SwapRequest.Status → SwapRequest.Status → Prop :=
| edge_accept : edge SwapRequest.pending SwapRequest.accepted
| edge_reject : edge SwapRequest.pending SwapRequest.rejected
| edge_cancel : edge SwapRequest.pending SwapRequest.cancelled
| edge_complete : edge SwapRequest.accepted SwapRequest.completed.

(** The fields no route writes after creation. *)
Definition same_parties (s s' : SwapRequest.t) : Prop :=
  SwapRequest.fromUserId s' = SwapRequest.fromUserId s
  ∧ SwapRequest.toUserId s' = SwapRequest.toUserId s
  ∧ SwapRequest.skillOffered s' = SwapRequest.skillOffered s
  ∧ SwapRequest.skillWanted s' = SwapRequest.skillWanted s
  ∧ SwapRequest.message s' = SwapRequest.message s
  ∧ SwapRequest.createdAt s' = SwapRequest.createdAt s.

(** The two requests are between the same two users, in either direction. *)
Definition same_pair (s s' : SwapRequest.t) : Prop :=
  (SwapRequest.fromUserId s' = SwapRequest.fromUserId s
   ∧ SwapRequest.toUserId s' = SwapRequest.toUserId s)
  ∨ (SwapRequest.fromUserId s' = SwapRequest.toUserId s
     ∧ SwapRequest.toUserId s' = SwapRequest.fromUserId s).

Definition no_feedback (s : SwapRequest.t) : Prop :=
  SwapRequest.fromUserRating (SwapRequest.feedback s) = None
  ∧ SwapRequest.toUserRating (SwapRequest.feedback s) = None.

(** [f'] is [f] with one empty rating slot filled by [r]. *)
Definition fills_slot (r : Z) (f f' : SwapRequest.Feedback) : Prop :=
  (SwapRequest.fromUserRating f = None
   ∧ SwapRequest.fromUserRating f' = Some r
   ∧ SwapRequest.toUserRating f' = SwapRequest.toUserRating f
   ∧ SwapRequest.toUserComment f' = SwapRequest.toUserComment f)
  ∨ (SwapRequest.toUserRating f = None
     ∧ SwapRequest.toUserRating f' = Some r
     ∧ SwapRequest.fromUserRating f' = SwapRequest.fromUserRating f
     ∧ SwapRequest.fromUserComment f' = SwapRequest.fromUserComment f).

Inductive swap_step (coll : gmap N SwapRequest.t) : gmap N SwapRequest.t → Prop :=
| step_none : swap_step coll coll
| step_created id s :
    coll !! id = None →
    SwapRequest.status s = SwapRequest.pending →
    no_feedback s →
    (∀ id' s', coll !! id' = Some s' →
               SwapRequest.status s' = SwapRequest.pending → ¬ same_pair s s') →
    swap_step coll (<[id := s]> coll)
| step_moved id s s' :
    coll !! id = Some s →
    edge (SwapRequest.status s) (SwapRequest.status s') →
    same_parties s s' →
    SwapRequest.feedback s' = SwapRequest.feedback s →
    swap_step coll (<[id := s']> coll)
| step_rated id s s' r :
    coll !! id = Some s →
    SwapRequest.status s = SwapRequest.completed →
    SwapRequest.status s' = SwapRequest.completed →
    same_parties s s' →
    (1 ≤ r ≤ 5)%Z →
    fills_slot r (SwapRequest.feedback s) (SwapRequest.feedback s') →
    swap_step coll (<[id := s']> coll).

(** The properties of a stored request that every request to the server
    keeps. *)
Definition well_formed (s : SwapRequest.t) : Prop :=
  ∀ r, SwapRequest.fromUserRating (SwapRequest.feedback s) = Some r
       ∨ SwapRequest.toUserRating (SwapRequest.feedback s) = Some r →
       SwapRequest.status s = SwapRequest.completed ∧ (1 ≤ r ≤ 5)%Z.

(** No two pending requests between the same two users. *)
Definition pending_unique (coll : gmap N SwapRequest.t) : Prop :=
  ∀ id1 id2 s1 s2,
    coll !! id1 = Some s1 → coll !! id2 = Some s2 →
    SwapRequest.status s1 = SwapRequest.pending →
    SwapRequest.status s2 = SwapRequest.pending →
    same_pair s1 s2 → id1 = id2.

(** The notifications a successful lifecycle call addresses to [u]. *)
Definition notified (a : Action) (s : SwapRequest.t) (u : ObjectId) : nat :=
  match a with
  | Accept | Reject => if decide (u = SwapRequest.fromUserId s) then 1 else 0
  | Complete => (if decide (u = SwapRequest.fromUserId s) then 1 else 0)
                + (if decide (u = SwapRequest.toUserId s) then 1 else 0)
  | Cancel => 0
  end.

(** The number of times [s] is named in the [field] of a stored user,
    whatever the user's flags. *)
Definition uses (field : User.t → list string) (coll : gmap N User.t) (s : string) : nat :=
  sum_list ((λ d : ObjectId * User.t, PopularSkills.occurrences s (field d.2))
              <$> map_to_list coll).

(** [res] lists the [k] most used skills of [field], or all when there are
    fewer, each with its number of uses. *)
Definition top_skills (k : nat) (field : User.t → list string) (coll : gmap N User.t)
    (res : list (string * nat)) : Prop :=
  length res ≤ k
  ∧ NoDup res.*1
  ∧ StronglySorted PopularSkills.most_frequent_first res
  ∧ (∀ s n, (s, n) ∈ res → 0 < n ∧ n = uses field coll s)
  ∧ (∀ s n t, (s, n) ∈ res → t ∉ res.*1 → uses field coll t ≤ n)
  ∧ (∀ t, 0 < uses field coll t → t ∉ res.*1 → length res = k).

(** ** Notions for the statements about the message route *)

(** The body of a create-message call passes validation. *)
Definition valid_message (title message : string) : Prop :=
  isLength 1 100 (trim title) = true ∧ isLength 1 1000 (trim message) = true.

(** The users a message is fanned out to, with repetitions. *)
Definition fan_out (isGlobal : option bool) (targetUsers : option (list ObjectId))
    (db : Db) (u : ObjectId) : nat :=
  if default false isGlobal
  then match users db !! u with
       | Some user => if User.isBanned user then 0 else 1
       | None => 0
       end
  else length (List.filter (λ t, (t =? u)%N) (default [] targetUsers)).

(** A text of 1000 characters, the longest the message route admits; the
    scenario's request once accepted; and the id [10] of a user, written
    with an upper-case digit. *)
Module Example2.
Definition long_text : string :=
  foldr String EmptyString (replicate 1000 (Ascii.ascii_of_nat 120)).

Definition swap2 : SwapRequest.t :=
  SwapRequest.set_updatedAt 2000
    (SwapRequest.set_status SwapRequest.accepted Example.swap1).

End Example2.
(** * Properties *)

(** ** Swap-request lifecycle *)

Lemma N_eqb_false_iff (a b : N) : negb (a =? b)%N = true ↔ a ≠ b.
Proof. rewrite negb_true_iff. apply N.eqb_neq. Qed.






(** ** Feedback *)

(** C3.  A feedback submission on a stored swap is rejected, and the store
    is left as it was, when the swap is not completed, when the caller is
    neither its requester nor its recipient, and when the caller's own slot
    already holds a rating; in the last case the slot still holds the first
    rating and comment. *)
Theorem feedback_rejections (now : Z) (caller swapId : ObjectId) (rating : Z)
    (comment : option string) (db : Db) (s : SwapRequest.t) :
  swapRequests db !! swapId = Some s →
  let res := (Feedback.submitFeedback now caller swapId rating comment db).1 in
  let db' := (Feedback.submitFeedback now caller swapId rating comment db).2 in
  (SwapRequest.status s ≠ SwapRequest.completed →
     Http.success res = false ∧ db' = db)
  ∧ (caller ≠ SwapRequest.fromUserId s → caller ≠ SwapRequest.toUserId s →
     Http.success res = false ∧ db' = db)
  ∧ (∀ r c, own_slot s caller = Some (Some r, c) →
     Http.success res = false ∧ db' = db
     ∧ ∃ s', swapRequests db' !! swapId = Some s'
             ∧ own_slot s' caller = Some (Some r, c)).
Proof.
  intros Hs. unfold Feedback.submitFeedback.
  destruct (negb _); cbn; [|rewrite Hs].
  { repeat split; eauto. }
  unfold own_slot.
  destruct (N.eqb_spec (SwapRequest.fromUserId s) caller) as [Hf|Hf];
    destruct (N.eqb_spec (SwapRequest.toUserId s) caller) as [Ht|Ht];
    destruct (bool_decide_reflect (SwapRequest.status s = SwapRequest.completed))
      as [Hc|Hc]; cbn [negb andb fst snd Http.success].
  all: split; [|split]; try (intros; split; congruence).
  all: try (intros; congruence).
  all: intros r0 c0; repeat case_decide; try congruence.
  all: intros [= Hr Hcm]; rewrite ?Hr; cbn.
  all: split; [reflexivity|split; [reflexivity|]].
  all: exists s; split; [assumption|]; repeat case_decide; congruence.
Qed.

(** A, whose slot holds 5 and "Great", submits again. *)
Lemma feedback_rejections_witness :
  swapRequests Example.db4 !! 0%N = Some Example.swap4
  ∧ own_slot Example.swap4 1 = Some (Some 5%Z, Some "Great")
  ∧ Http.success (Feedback.submitFeedback 6000 1 0 1 (Some "Changed") Example.db4).1 = false
  ∧ (Feedback.submitFeedback 6000 1 0 1 (Some "Changed") Example.db4).2 = Example.db4.
Proof.
  assert (H : swapRequests Example.db4 !! 0%N = Some Example.swap4)
    by (vm_compute; reflexivity).
  split; [exact H|]. split; [reflexivity|].
  destruct (feedback_rejections 6000 1 0 1 (Some "Changed") Example.db4
              Example.swap4 H) as (_ & _ & Hdup).
  destruct (Hdup 5%Z (Some "Great") eq_refl) as (Hres & Hdb & _).
  split; [exact Hres | exact Hdb].
Defined.

(** The second submission on the scenario's swap: B rates after A.  Both
    slots are then populated, A holds a "feedback received" notification
    and B holds none. *)
Lemma feedback_notified_both_counterexample :
  Http.success (Feedback.submitFeedback 5000 2 0 4 None Example.db4).1 = true
  ∧ (SwapRequest.feedback
       <$> swapRequests (Feedback.submitFeedback 5000 2 0 4 None Example.db4).2 !! 0%N)
    = Some {| SwapRequest.fromUserRating := Some 5%Z;
              SwapRequest.fromUserComment := Some "Great";
              SwapRequest.toUserRating := Some 4%Z;
              SwapRequest.toUserComment := None |}
  ∧ ¬ (feedback_notified (Feedback.submitFeedback 5000 2 0 4 None Example.db4).2 0 1
       ∧ feedback_notified (Feedback.submitFeedback 5000 2 0 4 None Example.db4).2 0 2).
Proof.
  split; [vm_compute; reflexivity|]. split; [vm_compute; reflexivity|].
  intros [_ H]. revert H. apply (bool_decide_eq_false_1 _). vm_compute. reflexivity.
Qed.

(** C2 (amended).  When a successful submission fills the second slot of a
    swap, the other slot holding a rating the schema admits, exactly one
    notification is created: a "feedback received" notification for the
    counterparty of the submitter, the user whose aggregate the submission
    updates.  When the other slot is still empty, none is created. *)
Theorem feedback_complete_notifies_counterparty (now : Z) (caller swapId : ObjectId)
    (rating : Z) (comment : option string) (db : Db) (s : SwapRequest.t) :
  swapRequests db !! swapId = Some s →
  let res := (Feedback.submitFeedback now caller swapId rating comment db).1 in
  let db' := (Feedback.submitFeedback now caller swapId rating comment db).2 in
  Http.success res = true →
  (∀ r0, other_rating s caller = Some r0 → (1 ≤ r0 ≤ 5)%Z →
     notifications db'
     = Notification.createFeedbackReceivedNotification (counterparty s caller) swapId
         (notifications db))
  ∧ (other_rating s caller = None → notifications db' = notifications db).
Proof.
  intros Hs. unfold Feedback.submitFeedback, other_rating, counterparty.
  destruct (Feedback.validRating rating) eqn:Hv; cbn; [|discriminate].
  destruct (Feedback.validComment _); cbn; [|discriminate].
  rewrite Hs.
  assert (Hr : (rating =? 0)%Z = false).
  { unfold Feedback.validRating in Hv. lia. }
  destruct (N.eqb_spec (SwapRequest.fromUserId s) caller) as [Hf|Hf];
    destruct (N.eqb_spec (SwapRequest.toUserId s) caller) as [Ht|Ht];
    cbn [negb andb]; try discriminate.
  all: destruct (bool_decide_reflect (SwapRequest.status s = SwapRequest.completed));
    cbn [negb]; try discriminate.
  all: destruct (bool_decide _); try discriminate.
  all: unfold SwapRequest.addFeedback, SwapRequest.save; cbn.
  all: rewrite ?(proj2 (N.eqb_eq _ _) Hf), ?(proj2 (N.eqb_neq _ _) Hf),
         ?(proj2 (N.eqb_eq _ _) Ht), ?(proj2 (N.eqb_neq _ _) Ht); cbn.
  all: destruct (users db !! _); cbn; try discriminate.
  all: intros _; unfold SwapRequest.isFeedbackComplete; cbn; rewrite Hr; cbn.
  all: repeat case_decide; try congruence.
  all: split; [intros r0 Hr0 Hb; rewrite Hr0; cbn;
               replace (r0 =? 0)%Z with false by lia; reflexivity
              |intros Hn; try rewrite Hn; cbn; try reflexivity; try congruence].
Qed.

(** B rates after A on the scenario's swap: A is notified. *)
Lemma feedback_complete_notifies_counterparty_witness :
  swapRequests Example.db4 !! 0%N = Some Example.swap4
  ∧ Http.success (Feedback.submitFeedback 5000 2 0 4 None Example.db4).1 = true
  ∧ other_rating Example.swap4 2 = Some 5%Z
  ∧ notifications (Feedback.submitFeedback 5000 2 0 4 None Example.db4).2
    = Notification.createFeedbackReceivedNotification 1 0 (notifications Example.db4).
Proof.
  assert (H : swapRequests Example.db4 !! 0%N = Some Example.swap4)
    by (vm_compute; reflexivity).
  assert (Hok : Http.success (Feedback.submitFeedback 5000 2 0 4 None Example.db4).1 = true)
    by (vm_compute; reflexivity).
  split; [exact H|]. split; [exact Hok|]. split; [reflexivity|].
  apply (proj1 (feedback_complete_notifies_counterparty 5000 2 0 4 None Example.db4
                  Example.swap4 H Hok) 5%Z); [reflexivity | lia].
Defined.

(** ** Rating aggregate *)

Lemma rate_all_fold (u : User.t) (l : list Z) :
  (User.rating (rate_all u l), User.reviewCount (rate_all u l))
  = foldl (λ a r, (User.newAvg a.1 a.2 r, (a.2 + 1)%Z))
          (User.rating u, User.reviewCount u) l.
Proof.
  revert u. induction l as [|r l IH]; intros u; [reflexivity|].
  cbn [rate_all foldl]. apply (IH (User.rated r u)).
Qed.

Lemma total_Permutation (l l' : list Z) : l ≡ₚ l' → total l = total l'.
Proof. unfold total. induction 1; cbn [foldr]; lia. Qed.

Lemma exact_mean_fold (l : list Z) (a : Q) (c : Z) :
  (0 ≤ c)%Z →
  let r := foldl (λ a r, (exact_newAvg a.1 a.2 r, (a.2 + 1)%Z)) (a, c) l in
  r.2 = (c + Z.of_nat (length l))%Z
  ∧ (r.1 * inject_Z r.2 == a * inject_Z c + inject_Z (total l))%Q.
Proof.
  revert a c. induction l as [|x l IH]; intros a c Hc;
    cbn [foldl length total foldr fst snd].
  - split; [lia|]. change (inject_Z 0) with 0%Q. ring.
  - destruct (IH (exact_newAvg a c x) (c + 1)%Z ltac:(lia)) as [IH1 IH2].
    cbn [fst snd] in *. split; [lia|]. rewrite IH2. unfold exact_newAvg.
    rewrite !inject_Z_plus. change (inject_Z 1) with 1%Q.
    assert (¬ (inject_Z c + 1 == 0)%Q) as Hnz.
    { intros H. assert (inject_Z (c + 1) == inject_Z 0)%Q as H0
        by (rewrite inject_Z_plus; exact H).
      apply (proj1 (inject_Z_injective (c + 1) 0)) in H0. lia. }
    fold (total l). field. exact Hnz.
Qed.

(** Computed exactly, the aggregate after any ratings is their count and
    their arithmetic mean, so two orders of the same ratings agree. *)
Lemma exact_mean_order (l l' : list Z) :
  l ≡ₚ l' →
  ((exact_mean l).1 == (exact_mean l').1)%Q ∧ (exact_mean l).2 = (exact_mean l').2.
Proof.
  intros Hp. unfold exact_mean.
  destruct (exact_mean_fold l 0%Q 0%Z ltac:(lia)) as [H1 H2].
  destruct (exact_mean_fold l' 0%Q 0%Z ltac:(lia)) as [H1' H2'].
  cbv zeta in *.
  assert (Hlen : length l = length l') by (by apply Permutation_length).
  split; [|rewrite H1, H1'; lia].
  destruct l as [|x l0].
  { apply Permutation_nil_l in Hp. subst. reflexivity. }
  rewrite (total_Permutation _ _ Hp) in H2. rewrite <- H2' in H2.
  rewrite H1, H1', <- Hlen in H2.
  apply Qmult_inj_r in H2; [exact H2|].
  intros H0. apply (proj1 (inject_Z_injective _ 0)) in H0. cbn [length] in H0. lia.
Qed.

(** In double precision the running mean depends on the order of eight
    ratings: moving the final 5 before the 1 changes the last bit. *)
Lemma mean_order_counterexample :
  [1; 3; 5; 5; 5; 5; 1; 5]%Z ≡ₚ [1; 3; 5; 5; 5; 5; 5; 1]%Z
  ∧ unrated Example.userA
  ∧ User.rating (rate_all Example.userA [1; 3; 5; 5; 5; 5; 1; 5]%Z)
    ≠ User.rating (rate_all Example.userA [1; 3; 5; 5; 5; 5; 5; 1]%Z).
Proof.
  split; [do 6 apply perm_skip; apply perm_swap|].
  split; [split; reflexivity|].
  intros H.
  apply (f_equal (λ x, PrimFloat.eqb x 3.75%float)) in H.
  vm_compute in H. discriminate H.
Qed.

(** *** The stored double against the exact mean *)

Lemma same_aggregate_eq (a b : float * Z * Z) : same_aggregate a b = true → a = b.
Proof.
  destruct a as [[a1 a2] a3], b as [[b1 b2] b3]. unfold same_aggregate. cbn [fst snd].
  rewrite !andb_true_iff, !Z.eqb_eq, Leibniz.eqb_spec.
  intros [[H1 H2] H3]. by subst.
Qed.

Lemma add_aggregate_elem (a b : float * Z * Z) (l : list (float * Z * Z)) :
  a = b ∨ a ∈ l → a ∈ add_aggregate b l.
Proof.
  unfold add_aggregate. destruct (existsb (same_aggregate b) l) eqn:He.
  - intros [->|Hin]; [|done].
    apply existsb_exists in He as (c & Hc & Hbc).
    apply same_aggregate_eq in Hbc as ->. by apply list_elem_of_In.
  - intros [->|Hin]; [left|by right].
Qed.

Lemma after_one_more_elem (a : float * Z * Z) (r : Z) (l : list (float * Z * Z)) :
  a ∈ l → (1 ≤ r ≤ 5)%Z → rate a r ∈ after_one_more l.
Proof.
  intros Hin Hr. unfold after_one_more.
  induction l as [|b l IH]; [by apply elem_of_nil in Hin|].
  cbn [foldr]. apply elem_of_cons in Hin as [->|Hin].
  - assert (r = 1 ∨ r = 2 ∨ r = 3 ∨ r = 4 ∨ r = 5)%Z as Hcase by lia.
    destruct Hcase as [ -> | [ -> | [ -> | [ -> | -> ] ] ] ];
      repeat first [apply add_aggregate_elem; left; reflexivity
                   |apply add_aggregate_elem; right].
  - do 5 (apply add_aggregate_elem; right). by apply IH.
Qed.

Lemma after_reaches (l : list Z) :
  Forall (λ r, 1 ≤ r ≤ 5)%Z l → foldl rate (0%float, 0%Z, 0%Z) l ∈ after (length l).
Proof.
  induction l as [|r l IH] using rev_ind; intros Hl.
  - left.
  - apply Forall_app in Hl as [Hl Hr]. apply Forall_cons_1 in Hr as [Hr _].
    rewrite foldl_app, length_app. cbn [foldl length].
    replace (length l + 1)%nat with (S (length l)) by lia. cbn [after].
    apply after_one_more_elem; [by apply IH|done].
Qed.

Lemma foldl_rate (l : list Z) (a : float) (c s : Z) :
  foldl rate (a, c, s) l
  = ((foldl (λ a r, (User.newAvg a.1 a.2 r, (a.2 + 1)%Z)) (a, c) l).1,
     (c + Z.of_nat (length l))%Z, (s + total l)%Z).
Proof.
  revert a c s. induction l as [|r l IH]; intros a c s.
  - cbn. f_equal; [f_equal|]; lia.
  - cbn [foldl length total foldr]. unfold rate at 2. cbn [fst snd].
    rewrite IH. fold (total l). f_equal; [f_equal|]; lia.
Qed.

Lemma after_accurate (k : nat) (a : float * Z * Z) :
  1 ≤ k ≤ 20 → a ∈ after k → accurate (Qpower 2 (-48)) a = true.
Proof.
  intros Hk Ha.
  assert (forallb (λ k, forallb (accurate (Qpower 2 (-48))) (after k)) (seq 1 20) = true)
    as Hall by (vm_compute; reflexivity).
  rewrite forallb_forall in Hall. specialize (Hall k).
  rewrite forallb_forall in Hall. apply Hall.
  - apply in_seq. lia.
  - by apply list_elem_of_In.
Qed.

(** With at most twenty ratings between 1 and 5, in whatever order, the
    stored mean is within [2^-48] of the quotient of their sum and their
    number. *)
Lemma rating_accurate (fresh : User.t) (l : list Z) :
  unrated fresh → Forall (λ r, 1 ≤ r ≤ 5)%Z l → 1 ≤ length l ≤ 20 →
  within (Qpower 2 (-48)) (User.rating (rate_all fresh l))
    (inject_Z (total l) / inject_Z (Z.of_nat (length l))).
Proof.
  intros [Hr Hc] Hl Hlen.
  pose proof (after_accurate _ _ Hlen (after_reaches l Hl)) as Hacc.
  rewrite foldl_rate in Hacc.
  pose proof (rate_all_fold fresh l) as Hfold. rewrite Hr, Hc in Hfold.
  rewrite <- Hfold in Hacc. unfold accurate in Hacc. cbn [fst snd] in Hacc.
  unfold within.
  destruct (float_to_Q (User.rating (rate_all fresh l))) as [x|]; [|discriminate].
  exists x. split; [done|]. apply Qle_bool_iff in Hacc.
  by rewrite !Z.add_0_l in Hacc.
Qed.

Lemma exact_mean_quotient (l : list Z) :
  l ≠ [] → ((exact_mean l).1 == inject_Z (total l) / inject_Z (Z.of_nat (length l)))%Q.
Proof.
  intros Hne. unfold exact_mean.
  destruct (exact_mean_fold l 0%Q 0%Z ltac:(lia)) as [H1 H2]. cbv zeta in *.
  rewrite H1, Z.add_0_l in H2.
  assert (¬ (inject_Z (Z.of_nat (length l)) == 0)%Q) as Hnz.
  { intros H0. apply (proj1 (inject_Z_injective _ 0)) in H0.
    destruct l; [done|cbn [length] in H0; lia]. }
  apply (Qmult_inj_r _ _ _ Hnz). rewrite H2. field. exact Hnz.
Qed.

(** C6 (amended).  A successful submission with rating [r] replaces the
    counterparty's aggregate by [(oldAvg * oldCount + r) / (oldCount + 1)],
    computed in double precision, and adds one to the review count.  The
    ratings 5, 3 and 4 given to an unrated user in any order leave rating
    4.0 and count 3.  Computed exactly, the recurrence gives the same mean
    and count for any two orders of the same ratings.  The stored double
    does not; but after at most twenty ratings between 1 and 5, in whatever
    order, it is within [2^-48] of the exact mean, so that two orders of
    the same ratings leave doubles at most [2^-47] apart. *)
Theorem rating_aggregate (now : Z) (caller swapId : ObjectId) (rating : Z)
    (comment : option string) (db : Db) (s : SwapRequest.t) (u : User.t) :
  swapRequests db !! swapId = Some s →
  users db !! counterparty s caller = Some u →
  let res := (Feedback.submitFeedback now caller swapId rating comment db).1 in
  let db' := (Feedback.submitFeedback now caller swapId rating comment db).2 in
  Http.success res = true →
  (∃ u', users db' !! counterparty s caller = Some u'
         ∧ User.rating u'
           = ((User.rating u * Number_ofZ (User.reviewCount u) + Number_ofZ rating)
              / (Number_ofZ (User.reviewCount u) + 1))%float
         ∧ User.reviewCount u' = (User.reviewCount u + 1)%Z)
  ∧ (∀ (fresh : User.t) (l : list Z), unrated fresh → l ≡ₚ [5; 3; 4]%Z →
       User.rating (rate_all fresh l) = 4%float
       ∧ User.reviewCount (rate_all fresh l) = 3%Z)
  ∧ (∀ l l' : list Z, l ≡ₚ l' →
       ((exact_mean l).1 == (exact_mean l').1)%Q
       ∧ (exact_mean l).2 = (exact_mean l').2)
  ∧ (∀ (fresh : User.t) (l : list Z),
       unrated fresh → Forall (λ r, 1 ≤ r ≤ 5)%Z l → 1 ≤ length l ≤ 20 →
       within (Qpower 2 (-48)) (User.rating (rate_all fresh l)) (exact_mean l).1)
  ∧ (∀ (fresh : User.t) (l l' : list Z),
       unrated fresh → Forall (λ r, 1 ≤ r ≤ 5)%Z l → 1 ≤ length l ≤ 20 → l ≡ₚ l' →
       ∃ x x', float_to_Q (User.rating (rate_all fresh l)) = Some x
               ∧ float_to_Q (User.rating (rate_all fresh l')) = Some x'
               ∧ (Qabs (x - x') <= Qpower 2 (-47))%Q).
Proof.
  intros Hs Hu. cbv zeta. intros Hok.
  assert (∀ (fresh : User.t) (l : list Z),
            unrated fresh → Forall (λ r, 1 ≤ r ≤ 5)%Z l → 1 ≤ length l ≤ 20 →
            within (Qpower 2 (-48)) (User.rating (rate_all fresh l)) (exact_mean l).1)
    as Hwithin.
  { intros fresh l Hf Hl Hlen.
    destruct (rating_accurate fresh l Hf Hl Hlen) as (x & Hx & Hle).
    exists x. split; [done|]. rewrite exact_mean_quotient; [done|].
    intros ->. cbn in Hlen. lia. }
  split; [|split; [|split; [exact exact_mean_order|split; [exact Hwithin|]]]].
  3: { intros fresh l l' Hf Hl Hlen Hp.
       assert (Forall (λ r, 1 ≤ r ≤ 5)%Z l') as Hl' by (by rewrite <- Hp).
       assert (1 ≤ length l' ≤ 20) as Hlen' by (by rewrite <- Hp).
       destruct (Hwithin fresh l Hf Hl Hlen) as (x & Hx & Hle).
       destruct (Hwithin fresh l' Hf Hl' Hlen') as (x' & Hx' & Hle').
       exists x, x'. split; [done|]. split; [done|].
       destruct (exact_mean_order l l' Hp) as [Heq _]. rewrite <- Heq in Hle'.
       assert (x - x' == (x - (exact_mean l).1) + - (x' - (exact_mean l).1))%Q
         as -> by ring.
       eapply Qle_trans; [apply Qabs_triangle|]. rewrite Qabs_opp.
       assert (Qpower 2 (-47) == Qpower 2 (-48) + Qpower 2 (-48))%Q
         as -> by (vm_compute; reflexivity).
       by apply Qplus_le_compat. }
  - revert Hok Hu. unfold Feedback.submitFeedback, counterparty.
    destruct (negb _); cbn; [discriminate|]. rewrite Hs.
    destruct (N.eqb_spec (SwapRequest.fromUserId s) caller) as [Hf|Hf];
      destruct (N.eqb_spec (SwapRequest.toUserId s) caller) as [Ht|Ht];
      cbn [negb andb]; try discriminate.
    all: destruct (negb _); try discriminate.
    all: destruct (bool_decide _); try discriminate.
    all: unfold SwapRequest.addFeedback, SwapRequest.save; cbn.
    all: rewrite ?(proj2 (N.eqb_eq _ _) Hf), ?(proj2 (N.eqb_neq _ _) Hf),
           ?(proj2 (N.eqb_eq _ _) Ht), ?(proj2 (N.eqb_neq _ _) Ht); cbn.
    all: case_decide; try congruence.
    all: intros Hok Hu; rewrite Hu in Hok |- *; cbn.
    all: exists (User.rated rating u).
    all: (split; [|split; reflexivity]).
    all: destruct (SwapRequest.isFeedbackComplete _); cbn;
      unfold User.updateRating, User.save; apply lookup_insert_eq.
  - intros fresh l [Hr Hc] Hl.
    symmetry in Hl. apply permutations_Permutation in Hl.
    pose proof (rate_all_fold fresh l) as Hfold. rewrite Hr, Hc in Hfold.
    assert (foldl (λ a r, (User.newAvg a.1 a.2 r, (a.2 + 1)%Z)) (0%float, 0%Z) l
            = (4%float, 3%Z)) as Hval.
    { clear Hfold.
      let p := eval vm_compute in (permutations [5; 3; 4]%Z) in
      change (permutations [5; 3; 4]%Z) with p in Hl.
      repeat match goal with
        | H : _ ∈ _ :: _ |- _ => apply elem_of_cons in H; destruct H as [->|H]
        | H : _ ∈ [] |- _ => apply elem_of_nil in H; destruct H
        end; vm_compute; reflexivity. }
    rewrite Hval in Hfold. by injection Hfold.
Qed.

(** A's rating of 5 reaches B; and B rated 4, 5, 3 from scratch. *)
Lemma rating_aggregate_witness :
  swapRequests Example.db3 !! 0%N = Some Example.swap3
  ∧ users Example.db3 !! counterparty Example.swap3 1 = Some Example.userB
  ∧ Http.success (Feedback.submitFeedback 4000 1 0 5 (Some "Great") Example.db3).1 = true
  ∧ unrated Example.userB
  ∧ User.rating (rate_all Example.userB [4; 5; 3]%Z) = 4%float
  ∧ User.reviewCount (rate_all Example.userB [4; 5; 3]%Z) = 3%Z.
Proof.
  assert (H1 : swapRequests Example.db3 !! 0%N = Some Example.swap3)
    by (vm_compute; reflexivity).
  assert (H2 : users Example.db3 !! counterparty Example.swap3 1 = Some Example.userB)
    by (vm_compute; reflexivity).
  assert (H3 : Http.success
                 (Feedback.submitFeedback 4000 1 0 5 (Some "Great") Example.db3).1 = true)
    by (vm_compute; reflexivity).
  assert (H4 : unrated Example.userB) by (split; reflexivity).
  split; [exact H1|]. split; [exact H2|]. split; [exact H3|]. split; [exact H4|].
  apply (proj1 (proj2 (rating_aggregate 4000 1 0 5 (Some "Great") Example.db3
                         Example.swap3 Example.userB H1 H2 H3))
           Example.userB [4; 5; 3]%Z H4).
  etransitivity; [apply perm_swap|]. apply perm_skip, perm_swap.
Defined.

(** ** Swap creation *)

Lemma findOne_Some (q : ObjectId * SwapRequest.t → bool) (coll : gmap N SwapRequest.t)
    (d : ObjectId * SwapRequest.t) :
  Swaps.findOne q coll = Some d → coll !! d.1 = Some d.2 ∧ q d = true.
Proof.
  unfold Swaps.findOne. intros [Hin Hq]%find_some. split; [|exact Hq].
  apply list_elem_of_In in Hin. destruct d. by apply elem_of_map_to_list.
Qed.

Lemma findOne_None (q : ObjectId * SwapRequest.t → bool) (coll : gmap N SwapRequest.t) :
  Swaps.findOne q coll = None → ∀ id s, coll !! id = Some s → q (id, s) = false.
Proof.
  unfold Swaps.findOne. intros Hnone id s Hs.
  apply (find_none _ _ Hnone). apply list_elem_of_In. by apply elem_of_map_to_list.
Qed.

Lemma pendingBetween_spec (a b : ObjectId) (d : ObjectId * SwapRequest.t) :
  Swaps.pendingBetween a b d = true
  ↔ SwapRequest.status d.2 = SwapRequest.pending
    ∧ ((SwapRequest.fromUserId d.2 = a ∧ SwapRequest.toUserId d.2 = b)
       ∨ (SwapRequest.fromUserId d.2 = b ∧ SwapRequest.toUserId d.2 = a)).
Proof.
  unfold Swaps.pendingBetween.
  rewrite orb_true_iff, !andb_true_iff, !N.eqb_eq, !bool_decide_eq_true. tauto.
Qed.





Lemma castObjectId_isMongoId (s : string) (id : ObjectId) :
  castObjectId s = Some id → isMongoId s = true.
Proof.
  unfold castObjectId, isMongoId, isHexadecimal.
  destruct (String.length s =? 24)%nat eqn:Hlen; [|discriminate]. intros Hp.
  rewrite andb_true_r. apply orb_true_iff. left. apply andb_true_iff. split.
  - destruct s; [discriminate Hlen|done].
  - apply bool_decide_eq_true. by rewrite Hp.
Qed.

(** C4.  A create call with valid fields, whose [toUserId] is the 24
    digits of a recipient's id and is not the caller's own id string, is
    answered with the conflict error, the store unchanged, exactly when a
    pending request between the two users exists in either direction;
    otherwise (whatever requests in other statuses exist) it is answered
    201 and stores, under a fresh id, a new request from the caller to the
    recipient in status [pending]. *)
Theorem create_conflict_iff_pending (now : Z) (caller : ObjectId) (toUserId : string)
    (to : ObjectId) (skillOffered skillWanted message : string) (db : Db) :
  castObjectId toUserId = Some to →
  toUserId ≠ ObjectId_toString caller →
  valid_fields skillOffered skillWanted message →
  let res := (Swaps.createSwap now caller toUserId skillOffered skillWanted message db).1 in
  let db' := (Swaps.createSwap now caller toUserId skillOffered skillWanted message db).2 in
  (res = conflict ↔ pending_between db caller to)
  ∧ (pending_between db caller to → Http.success res = false ∧ db' = db)
  ∧ (¬ pending_between db caller to →
       Http.success res = true ∧ Http.status res = 201%Z
       ∧ ∃ id s, swapRequests db !! id = None
                 ∧ swapRequests db' = <[id := s]> (swapRequests db)
                 ∧ SwapRequest.status s = SwapRequest.pending
                 ∧ SwapRequest.fromUserId s = caller
                 ∧ SwapRequest.toUserId s = to
                 ∧ SwapRequest.completedAt s = None).
Proof.
  intros Hto Hne (Ho & Hw & Hm). unfold Swaps.createSwap.
  rewrite (castObjectId_isMongoId _ _ Hto), Ho, Hw, Hm. cbn [andb negb].
  rewrite (proj2 (String.eqb_neq _ _)) by congruence. rewrite Hto.
  destruct (Swaps.findOne _ _) as [d|] eqn:Hfind.
  - apply findOne_Some in Hfind as [Hd Hq]. apply pendingBetween_spec in Hq.
    assert (pending_between db caller to) as HP.
    { exists d.1, d.2. tauto. }
    cbn. split; [split; [intros _; exact HP | reflexivity]|].
    split; [intros _; split; reflexivity|]. intros HnP. by destruct HnP.
  - assert (¬ pending_between db caller to) as HnP.
    { intros (id & s & Hs & Hp). pose proof (findOne_None _ _ Hfind id s Hs) as Hq.
      apply not_true_iff_false in Hq. apply Hq. apply pendingBetween_spec. tauto. }
    cbn. split; [split; [discriminate | intros HP; by destruct HnP]|].
    split; [intros HP; by destruct HnP|].
    intros _. split; [reflexivity|]. split; [reflexivity|].
    eexists _, _. split; [|split; [reflexivity|cbn; auto]].
    apply not_elem_of_dom, is_fresh.
Qed.

(** B asks A for a swap while A's request to B is pending. *)
Lemma create_conflict_iff_pending_witness :
  castObjectId (ObjectId_toString 1) = Some 1%N
  ∧ ObjectId_toString 1 ≠ ObjectId_toString 2
  ∧ valid_fields "Python" "JavaScript" "And back?"
  ∧ ((Swaps.createSwap 1500 2 (ObjectId_toString 1) "Python" "JavaScript" "And back?"
        Example.db1).1 = conflict
     ↔ pending_between Example.db1 2 1).
Proof.
  assert (H0 : castObjectId (ObjectId_toString 1) = Some 1%N) by (vm_compute; reflexivity).
  assert (H1 : ObjectId_toString 1 ≠ ObjectId_toString 2) by (vm_compute; discriminate).
  assert (H2 : valid_fields "Python" "JavaScript" "And back?")
    by (repeat split; reflexivity).
  split; [exact H0|]. split; [exact H1|]. split; [exact H2|].
  apply (create_conflict_iff_pending 1500 2 (ObjectId_toString 1) 1 "Python" "JavaScript"
           "And back?" Example.db1 H0 H1 H2).
Defined.

(** ** Completion time *)

Ltac untouched := left; reflexivity.

Ltac moved id s Hp :=
  right; exists id; eexists; (split; [reflexivity|]); right; exists s;
  (split; [done|]); left; cbn; rewrite Hp; done.

Lemma createSwap_touched now caller to offered wanted msg db :
  touched now (PostSwap caller to offered wanted msg) db
    (Swaps.createSwap now caller to offered wanted msg db).1
    (Swaps.createSwap now caller to offered wanted msg db).2.
Proof.
  unfold Swaps.createSwap.
  destruct (negb _); [untouched|].
  destruct (String.eqb _ _); [untouched|].
  destruct (castObjectId to) as [toUserId|]; [|untouched].
  destruct (Swaps.findOne _ _); [untouched|].
  right. eexists _, _. split; [reflexivity|]. left.
  split; [apply not_elem_of_dom, is_fresh | split; reflexivity].
Qed.

Lemma acceptSwap_touched now caller id db :
  touched now (PutAccept caller id) db
    (Swaps.acceptSwap now caller id db).1 (Swaps.acceptSwap now caller id db).2.
Proof.
  unfold Swaps.acceptSwap, Swaps.populate.
  destruct (swapRequests db !! id) as [s|] eqn:Hs; [|untouched].
  destruct (SwapRequest.toUserId s =? caller)%N; cbn [negb]; [|untouched].
  destruct (bool_decide_reflect (SwapRequest.status s = SwapRequest.pending)) as [Hp|Hp];
    cbn [negb]; [|untouched].
  cbn [SwapRequest.accept SwapRequest.reject SwapRequest.save fst snd users
       set_swapRequests].
  destruct (users db !! _); moved id s Hp.
Qed.

Lemma rejectSwap_touched now caller id db :
  touched now (PutReject caller id) db
    (Swaps.rejectSwap now caller id db).1 (Swaps.rejectSwap now caller id db).2.
Proof.
  unfold Swaps.rejectSwap, Swaps.populate.
  destruct (swapRequests db !! id) as [s|] eqn:Hs; [|untouched].
  destruct (SwapRequest.toUserId s =? caller)%N; cbn [negb]; [|untouched].
  destruct (bool_decide_reflect (SwapRequest.status s = SwapRequest.pending)) as [Hp|Hp];
    cbn [negb]; [|untouched].
  cbn [SwapRequest.accept SwapRequest.reject SwapRequest.save fst snd users
       set_swapRequests].
  destruct (users db !! _); moved id s Hp.
Qed.

Lemma cancelSwap_touched now caller id db :
  touched now (DeleteSwap caller id) db
    (Swaps.cancelSwap now caller id db).1 (Swaps.cancelSwap now caller id db).2.
Proof.
  unfold Swaps.cancelSwap.
  destruct (swapRequests db !! id) as [s|] eqn:Hs; [|untouched].
  destruct (SwapRequest.fromUserId s =? caller)%N; cbn [negb]; [|untouched].
  destruct (bool_decide_reflect (SwapRequest.status s = SwapRequest.pending)) as [Hp|Hp];
    cbn [negb]; [|untouched].
  moved id s Hp.
Qed.

Lemma completeSwap_touched now caller id db :
  touched now (PutComplete caller id) db
    (Swaps.completeSwap now caller id db).1 (Swaps.completeSwap now caller id db).2.
Proof.
  unfold Swaps.completeSwap, Swaps.populate.
  destruct (swapRequests db !! id) as [s|] eqn:Hs; [|untouched].
  destruct (N.eqb_spec (SwapRequest.fromUserId s) caller) as [Hf|Hf];
    destruct (N.eqb_spec (SwapRequest.toUserId s) caller) as [Ht|Ht];
    cbn [negb andb]; try untouched.
  all: destruct (bool_decide_reflect (SwapRequest.status s = SwapRequest.accepted))
         as [Hp|Hp]; cbn [negb]; [|untouched].
  all: cbn [SwapRequest.complete SwapRequest.save fst snd users set_swapRequests
            set_notifications].
  all: destruct (users db !! SwapRequest.fromUserId _);
         [destruct (users db !! SwapRequest.toUserId _)|].
  all: right; exists id; eexists; (split; [reflexivity|]); right; exists s;
         (split; [done|]); right; right; exists caller; cbn; auto 10.
Qed.

Lemma submitFeedback_touched now caller id rating comment db :
  touched now (PostFeedback caller id rating comment) db
    (Feedback.submitFeedback now caller id rating comment db).1
    (Feedback.submitFeedback now caller id rating comment db).2.
Proof.
  unfold Feedback.submitFeedback.
  destruct (negb _); [untouched|].
  destruct (swapRequests db !! id) as [s|] eqn:Hs; [|untouched].
  destruct (negb (SwapRequest.fromUserId s =? caller)%N
            && negb (SwapRequest.toUserId s =? caller)%N); [untouched|].
  destruct (bool_decide (SwapRequest.status s = SwapRequest.completed));
    cbn [negb]; [|untouched].
  match goal with |- context [if ?b then (_, db) else _] => destruct b end; [untouched|].
  unfold SwapRequest.addFeedback, SwapRequest.save.
  assert (∀ s' res db',
    SwapRequest.status s' = SwapRequest.status s →
    SwapRequest.completedAt s' = SwapRequest.completedAt s →
    swapRequests db' = <[id := s']> (swapRequests db) →
    touched now (PostFeedback caller id rating comment) db res db') as Hkeep.
  { intros s' res db' Hst Hc Hdb. right. exists id, s'. split; [done|].
    right. exists s. split; [done|]. right. left. done. }
  cbv zeta.
  destruct (SwapRequest.fromUserId s =? caller)%N;
    [|destruct (SwapRequest.toUserId s =? caller)%N].
  all: cbn [fst snd set_swapRequests users swapRequests].
  all: destruct (users db !! _);
    [destruct (SwapRequest.isFeedbackComplete _)|]; cbn [fst snd].
  all: eapply Hkeep; [| |reflexivity]; reflexivity.
Qed.

Lemma banUser_touched now reason id db :
  touched now (PutBan reason id) db (Admin.banUser reason id db).1 (Admin.banUser reason id db).2.
Proof.
  unfold Admin.banUser.
  destruct (negb _); [untouched|].
  destruct (users db !! id) as [u|]; [|untouched].
  destruct (User.isBanned u); [untouched|].
  destruct (User.isAdmin u); untouched.
Qed.

Lemma unbanUser_touched now id db :
  touched now (PutUnban id) db (Admin.unbanUser id db).1 (Admin.unbanUser id db).2.
Proof.
  unfold Admin.unbanUser.
  destruct (users db !! id) as [u|]; [|untouched].
  destruct (negb _); untouched.
Qed.

Lemma handle_touched (now : Z) (r : Request) (db : Db) :
  touched now r db (handle now r db).1 (handle now r db).2.
Proof.
  destruct r; cbn [handle].
  - apply createSwap_touched.
  - apply acceptSwap_touched.
  - apply rejectSwap_touched.
  - apply completeSwap_touched.
  - apply cancelSwap_touched.
  - apply submitFeedback_touched.
  - apply banUser_touched.
  - apply unbanUser_touched.
Qed.

Lemma handle_invariant (now : Z) (r : Request) (db : Db) :
  map_Forall (λ _, completedAt_set_iff_completed) (swapRequests db) →
  map_Forall (λ _, completedAt_set_iff_completed) (swapRequests (handle now r db).2).
Proof.
  intros Hinv.
  destruct (handle_touched now r db) as [->|(id & s' & -> & Hcase)]; [exact Hinv|].
  apply map_Forall_insert_2; [|exact Hinv]. unfold completedAt_set_iff_completed.
  destruct Hcase as [(_ & Hst & Hc)|(s & Hs & Hcase)].
  { rewrite Hst, Hc. split; [congruence | discriminate]. }
  pose proof (Hinv id s Hs) as His. unfold completedAt_set_iff_completed in His.
  destruct Hcase as [(Hn & Hn' & Hc)|[(Hst & Hc)|(caller & _ & _ & _ & Hst & Hc)]].
  - rewrite Hc. tauto.
  - rewrite Hc, Hst. exact His.
  - rewrite Hc, Hst. split; [reflexivity | discriminate].
Qed.

Lemma reachable_invariant (db : Db) :
  reachable db → map_Forall (λ _, completedAt_set_iff_completed) (swapRequests db).
Proof.
  induction 1 as [us|db us _ IH|db now r _ IH].
  - apply map_Forall_empty.
  - exact IH.
  - by apply handle_invariant.
Qed.

(** C5.  In every store the server can reach, each swap request has
    [completedAt] set exactly when its status is [completed].  A successful
    complete call leaves the request completed with [completedAt] the
    current time; and a [completedAt] value stored after any call was
    either stored before it or has just been written, together with the
    status [completed], by a complete call of one of the two participants
    on that request while it was accepted (create, accept, reject, cancel
    and feedback never write it). *)
Theorem completedAt_iff_completed (db : Db) :
  reachable db →
  (∀ id s, swapRequests db !! id = Some s →
     SwapRequest.completedAt s ≠ None ↔ SwapRequest.status s = SwapRequest.completed)
  ∧ (∀ now caller id,
       Http.success (Swaps.completeSwap now caller id db).1 = true →
       ∃ s', swapRequests (Swaps.completeSwap now caller id db).2 !! id = Some s'
             ∧ SwapRequest.status s' = SwapRequest.completed
             ∧ SwapRequest.completedAt s' = Some now)
  ∧ (∀ now r id s' d,
       swapRequests (handle now r db).2 !! id = Some s' →
       SwapRequest.completedAt s' = Some d →
       (∃ s, swapRequests db !! id = Some s ∧ SwapRequest.completedAt s = Some d)
       ∨ (∃ caller s, r = PutComplete caller id ∧ d = now
                      ∧ swapRequests db !! id = Some s
                      ∧ actor_allowed Complete s caller
                      ∧ SwapRequest.status s = SwapRequest.accepted
                      ∧ SwapRequest.status s' = SwapRequest.completed)).
Proof.
  intros Hreach. split; [|split].
  - intros id s Hs. exact (reachable_invariant db Hreach id s Hs).
  - intros now caller id. unfold Swaps.completeSwap, Swaps.populate.
    destruct (swapRequests db !! id) as [s|]; [|discriminate].
    destruct (negb (SwapRequest.fromUserId s =? caller)%N
              && negb (SwapRequest.toUserId s =? caller)%N); [discriminate|].
    destruct (bool_decide (SwapRequest.status s = SwapRequest.accepted));
      cbn [negb]; [|discriminate].
    cbn [SwapRequest.complete SwapRequest.save fst snd users set_swapRequests
         set_notifications].
    destruct (users db !! SwapRequest.fromUserId _); [|discriminate].
    destruct (users db !! SwapRequest.toUserId _); [|discriminate].
    intros _. eexists. split; [apply lookup_insert_eq|]. split; reflexivity.
  - intros now r id s' d Hs' Hd.
    destruct (handle_touched now r db) as [Heq|(id0 & s0 & Heq & Hcase)];
      rewrite Heq in Hs'.
    { left. eauto. }
    destruct (decide (id0 = id)) as [->|Hne].
    2: { rewrite lookup_insert_ne in Hs' by done. left. eauto. }
    rewrite lookup_insert_eq in Hs'. injection Hs' as ->.
    destruct Hcase as [(_ & _ & Hc)|(s & Hs & Hcase)]; [congruence|].
    destruct Hcase
      as [(_ & _ & Hc)|[(_ & Hc)|(caller & Hr & Hpart & Hacc & Hst & Hc)]].
    + left. exists s. split; [done|congruence].
    + left. exists s. split; [done|congruence].
    + right. exists caller, s. cbn [actor_allowed].
      repeat split; [done|congruence|done|done|done|done].
Qed.

(** The scenario up to the completion is a run of the server. *)
Lemma reachable_db3 : reachable Example.db3.
Proof.
  exact (reachable_handle Example.db2 3000 (PutComplete 1 0)
           (reachable_handle Example.db1 2000 (PutAccept 2 0)
              (reachable_handle Example.db0 1000
                 (PostSwap 1 (ObjectId_toString 2) "JavaScript" "Python" "Swap?")
                 (reachable_init Example.members)))).
Defined.

(** The completed request of the scenario. *)
Lemma completedAt_iff_completed_witness :
  reachable Example.db3
  ∧ swapRequests Example.db3 !! 0%N = Some Example.swap3
  ∧ (SwapRequest.completedAt Example.swap3 ≠ None
     ↔ SwapRequest.status Example.swap3 = SwapRequest.completed).
Proof.
  assert (H1 : swapRequests Example.db3 !! 0%N = Some Example.swap3)
    by (vm_compute; reflexivity).
  split; [exact reachable_db3|]. split; [exact H1|].
  exact (proj1 (completedAt_iff_completed Example.db3 reachable_db3) 0%N Example.swap3 H1).
Defined.

(** ** Skill matching *)

Lemma array_in_spec (field values : list string) :
  User.array_in field values = true ↔ ∃ k, k ∈ field ∧ k ∈ values.
Proof.
  unfold User.array_in. rewrite existsb_exists. split.
  - intros (k & Hin & Hk). exists k. split; [by apply list_elem_of_In|].
    by apply bool_decide_eq_true in Hk.
  - intros (k & Hin & Hk). exists k. split; [by apply list_elem_of_In|].
    by apply bool_decide_eq_true.
Qed.

Lemma intersects_spec (a b : list string) :
  User.intersects a b ↔ ∃ k, k ∈ a ∧ k ∈ b.
Proof.
  unfold User.intersects. split.
  - intros (k & Hk)%set_choose_L. exists k. set_solver.
  - intros (k & Ha & Hb). set_solver.
Qed.

Lemma skillMatchQuery_spec (id : ObjectId) (u : User.t) (d : ObjectId * User.t) :
  User.skillMatchQuery id u d = true ↔ skill_match id u d.1 d.2.
Proof.
  unfold User.skillMatchQuery, skill_match.
  rewrite !andb_true_iff, orb_true_iff, N_eqb_false_iff, !bool_decide_eq_true,
    !array_in_spec. tauto.
Qed.

Lemma findSkillMatches_spec (id : ObjectId) (coll : gmap N User.t) (u : User.t)
    (d : ObjectId * User.t) :
  coll !! id = Some u →
  d ∈ User.findSkillMatches id coll ↔ coll !! d.1 = Some d.2 ∧ skill_match id u d.1 d.2.
Proof.
  intros Hu. unfold User.findSkillMatches, skill_match. rewrite Hu.
  rewrite list_elem_of_In, filter_In, <- list_elem_of_In, bool_decide_eq_true,
    !intersects_spec.
  destruct d as [V v]. rewrite elem_of_map_to_list. tauto.
Qed.

(** C7 (the query is modelled from the specification, its count is the
    route's).  For a stored user [id], the skill-match query returns exactly
    the stored users other than [id] that are public, not banned, and offer
    a skill [id] wants or want a skill [id] offers, by equality of names;
    the route's count filter selects the same users; and the route answers
    with a page of the sorted result, the whole result when it fits the
    first page. *)
Theorem skill_matches_exact (page limit : option nat) (id : ObjectId) (db : Db)
    (u : User.t) :
  users db !! id = Some u →
  Users.validPage page limit 50 = true →
  (∀ V v, (V, v) ∈ User.findSkillMatches id (users db)
          ↔ users db !! V = Some v ∧ skill_match id u V v)
  ∧ (∀ V v, User.skillMatchQuery id u (V, v) = true ↔ skill_match id u V v)
  ∧ ∃ r, Users.skillMatches page limit id db = inr r
         ∧ Users.totalMatches r = length (User.findSkillMatches id (users db))
         ∧ (∀ V v, (V, v) ∈ Users.matches r →
                   users db !! V = Some v ∧ skill_match id u V v)
         ∧ (default 1 page = 1 → Users.totalMatches r ≤ default 20 limit →
            Users.matches r ≡ₚ User.findSkillMatches id (users db)).
Proof.
  intros Hu Hv.
  split; [intros V v; apply (findSkillMatches_spec id (users db) u (V, v) Hu)|].
  split; [intros V v; apply (skillMatchQuery_spec id u (V, v))|].
  unfold Users.skillMatches. rewrite Hv, Hu. cbn [negb].
  eexists. split; [reflexivity|]. cbn [Users.totalMatches Users.matches].
  assert (User.countDocuments (User.skillMatchQuery id u) (users db)
          = length (User.findSkillMatches id (users db))) as Hcount.
  { unfold User.countDocuments, User.find, User.findSkillMatches. rewrite Hu.
    f_equal. apply filter_ext. intros d. apply eq_true_iff_eq.
    rewrite skillMatchQuery_spec, bool_decide_eq_true. unfold skill_match.
    rewrite !intersects_spec. tauto. }
  split; [exact Hcount|]. split.
  - intros V v Hin. apply (findSkillMatches_spec id (users db) u (V, v) Hu).
    unfold Users.paginate in Hin.
    apply subseteq_take, subseteq_drop in Hin.
    by rewrite merge_sort_Permutation in Hin.
  - intros Hp Hl. unfold Users.paginate. rewrite Hp.
    change ((1 - 1) * default 20 limit) with 0. rewrite drop_0.
    rewrite take_ge; [apply merge_sort_Permutation|].
    rewrite merge_sort_Permutation. by rewrite <- Hcount.
Qed.

(** B matches A in the example store. *)
Lemma skill_matches_exact_witness :
  users Example.db0 !! 1%N = Some Example.userA
  ∧ Users.validPage None None 50 = true
  ∧ ((2%N, Example.userB) ∈ User.findSkillMatches 1 (users Example.db0)
     ↔ users Example.db0 !! 2%N = Some Example.userB
       ∧ skill_match 1 Example.userA 2 Example.userB).
Proof.
  assert (H1 : users Example.db0 !! 1%N = Some Example.userA) by (vm_compute; reflexivity).
  assert (H2 : Users.validPage None None 50 = true) by reflexivity.
  split; [exact H1|]. split; [exact H2|].
  exact (proj1 (skill_matches_exact None None 1 Example.db0 Example.userA H1 H2)
           2%N Example.userB).
Defined.

(** ** Moderation *)

(** A member who is not an administrator and is already banned: the ban
    call is refused. *)
Lemma ban_non_admin_counterexample :
  users Example.db0 !! 3%N = Some Example.userC
  ∧ User.isAdmin Example.userC = false
  ∧ Http.success (Admin.banUser None 3 Example.db0).1 = false
  ∧ Http.message (Admin.banUser None 3 Example.db0).1 = "User is already banned".
Proof. repeat split; vm_compute; reflexivity. Qed.

(** C8 (amended).  A ban call on a stored user fails, the store unchanged,
    when the user is an administrator, and also when the user is already
    banned; on a user who is neither it succeeds and sets the banned flag,
    after which neither the user listing nor the skill-match query and its
    count return that user.  The profile route [GET /api/users/:id] does
    not read the flag: it goes on serving the banned user's profile to
    whoever could see it before. *)
Theorem ban_user (reason : option string) (userId : ObjectId) (db : Db) (user : User.t) :
  users db !! userId = Some user →
  valid_reason reason →
  let res := (Admin.banUser reason userId db).1 in
  let db' := (Admin.banUser reason userId db).2 in
  (User.isAdmin user = true → Http.success res = false ∧ db' = db)
  ∧ (User.isBanned user = true → Http.success res = false ∧ db' = db)
  ∧ (User.isAdmin user = false → User.isBanned user = false →
       Http.success res = true
       ∧ users db' !! userId = Some (User.set_isBanned true user)
       ∧ (∀ text_search regex_i search skill avail loc v,
            (userId, v) ∉ User.find
                            (Users.listQuery text_search regex_i search skill avail loc)
                            (users db'))
       ∧ (∀ U v, (userId, v) ∉ User.findSkillMatches U (users db'))
       ∧ (∀ U u v, (userId, v) ∉ User.find (User.skillMatchQuery U u) (users db'))
       ∧ (∀ viewer, UsersRead.getUser viewer userId db = inr user →
                    UsersRead.getUser viewer userId db'
                    = inr (User.set_isBanned true user))).
Proof.
  intros Hu Hr. unfold Admin.banUser. unfold valid_reason in Hr. rewrite Hr, Hu.
  cbn [negb]. destruct (User.isBanned user) eqn:Hb, (User.isAdmin user) eqn:Ha;
    cbn [fst snd]; (split; [|split]); try done.
  intros _ _. split; [reflexivity|]. cbn [users set_users]. unfold User.save.
  split; [apply lookup_insert_eq|].
  assert (∀ (q : ObjectId * User.t → bool) v,
    (∀ d, q d = true → User.isBanned d.2 = false) →
    (userId, v) ∉ User.find q (<[userId := User.set_isBanned true user]> (users db)))
    as Hout.
  { intros q v Hq Hin. unfold User.find in Hin.
    apply list_elem_of_In, filter_In in Hin as [Hin Hqv].
    apply list_elem_of_In, elem_of_map_to_list in Hin.
    rewrite lookup_insert_eq in Hin. injection Hin as <-.
    by apply Hq in Hqv. }
  split; [|split; [|split]].
  4: { intros viewer. unfold UsersRead.getUser. cbn [users set_users].
       rewrite Hu, lookup_insert_eq. cbn [User.isPublic User.set_isBanned].
       by destruct (negb (User.isPublic user) && _). }
  - intros. apply Hout. intros d. unfold Users.listQuery.
    rewrite !andb_true_iff, !bool_decide_eq_true. tauto.
  - intros U v Hin. unfold User.findSkillMatches in Hin.
    destruct (_ !! U) as [u|]; [|by apply elem_of_nil in Hin].
    apply list_elem_of_In, filter_In in Hin as [Hin Hqv].
    apply list_elem_of_In, elem_of_map_to_list in Hin.
    rewrite lookup_insert_eq in Hin. injection Hin as <-.
    apply bool_decide_eq_true in Hqv. destruct Hqv as (_ & _ & Hb' & _).
    cbn in Hb'. discriminate Hb'.
  - intros U u v. apply Hout. intros d Hd.
    apply skillMatchQuery_spec in Hd. unfold skill_match in Hd. tauto.
Qed.

(** Banning B, a member in good standing. *)
Lemma ban_user_witness :
  users Example.db0 !! 2%N = Some Example.userB
  ∧ valid_reason (Some "spam")
  ∧ Http.success (Admin.banUser (Some "spam") 2 Example.db0).1 = true
  ∧ users (Admin.banUser (Some "spam") 2 Example.db0).2 !! 2%N
    = Some (User.set_isBanned true Example.userB)
  ∧ UsersRead.getUser None 2 (Admin.banUser (Some "spam") 2 Example.db0).2
    = inr (User.set_isBanned true Example.userB).
Proof.
  assert (H1 : users Example.db0 !! 2%N = Some Example.userB) by (vm_compute; reflexivity).
  assert (H2 : valid_reason (Some "spam")) by reflexivity.
  split; [exact H1|]. split; [exact H2|].
  destruct (ban_user (Some "spam") 2 Example.db0 Example.userB H1 H2)
    as (_ & _ & Hok).
  destruct (Hok eq_refl eq_refl) as (Hs & Hl & _ & _ & _ & Hp).
  split; [exact Hs|]. split; [exact Hl|]. apply Hp. vm_compute. reflexivity.
Defined.

(** ** Admin messages *)

(** An active message read at the very instant of its expiry is shown,
    although its expiry is not in the future. *)
Lemma shouldShow_future_counterexample :
  AdminMessage.shouldShow 1000 Example.notice = true
  ∧ ¬ visible_future 1000 Example.notice.
Proof.
  split; [reflexivity|]. intros [_ [Hnone|(e & He & Hlt)]]; [discriminate Hnone|].
  injection He as <-. lia.
Qed.

(** C9 (amended).  [shouldShow] at time [now] holds exactly when the message
    is active and has no expiry or an expiry that is not in the past, the
    instant [now] included. *)
Theorem shouldShow_iff (now : Z) (m : AdminMessage.t) :
  AdminMessage.shouldShow now m = true ↔ visible_not_past now m.
Proof.
  unfold AdminMessage.shouldShow, AdminMessage.isExpired, visible_not_past.
  rewrite andb_true_iff, negb_true_iff.
  destruct (AdminMessage.expiresAt m) as [e|].
  - rewrite Z.ltb_ge. split.
    + intros [Ha He]. split; [done|]. right. by exists e.
    + intros [Ha [Hn|(e' & [= <-] & He)]]; [discriminate Hn|done].
  - split; [intros [Ha _]; split; [done|by left] | intros [Ha _]; done].
Qed.

Lemma getActiveMessagesForUser_filter_eq (now : Z) (userId : ObjectId) :
  AdminMessage.getActiveMessagesForUser_filter now userId
  = Filter.object
      [ ("isActive", Filter.Field (Filter.Is (Filter.Bool true)));
        ("$or", Filter.Clauses [ [("expiresAt", Filter.Is Filter.Null)];
                                 [("expiresAt", Filter.Gt (Filter.Date now))] ]) ].
Proof.
  unfold AdminMessage.getActiveMessagesForUser_filter, Filter.object.
  cbn [foldl fst snd]. apply insert_insert_eq.
Qed.

Lemma matches_active_unexpired (now : Z) (m : AdminMessage.t) :
  Filter.matches AdminMessage.get
    (Filter.object
       [ ("isActive", Filter.Field (Filter.Is (Filter.Bool true)));
         ("$or", Filter.Clauses [ [("expiresAt", Filter.Is Filter.Null)];
                                  [("expiresAt", Filter.Gt (Filter.Date now))] ]) ]) m
  = true
  ↔ visible_future now m.
Proof.
  unfold Filter.matches, Filter.object, visible_future. cbn [foldl fst snd].
  rewrite bool_decide_eq_true.
  rewrite map_Forall_insert by (by rewrite lookup_insert_ne, lookup_empty).
  rewrite map_Forall_insert by apply lookup_empty.
  assert (Filter.entry AdminMessage.get m "isActive"
            (Filter.Field (Filter.Is (Filter.Bool true))) = true
          ↔ AdminMessage.isActive m = true) as ->.
  { unfold Filter.entry.
    change (AdminMessage.get m "isActive") with (Filter.Bool (AdminMessage.isActive m)).
    destruct (AdminMessage.isActive m); split; intros H; (reflexivity || discriminate H). }
  assert (Filter.entry AdminMessage.get m "$or"
            (Filter.Clauses [ [("expiresAt", Filter.Is Filter.Null)];
                              [("expiresAt", Filter.Gt (Filter.Date now))] ]) = true
          ↔ (AdminMessage.expiresAt m = None
             ∨ ∃ e, AdminMessage.expiresAt m = Some e ∧ (now < e)%Z)) as ->.
  { unfold Filter.entry.
    change (bool_decide ("$or" = "$or")) with true.
    cbn [andb existsb Filter.clause forallb fst snd].
    change (AdminMessage.get m "expiresAt")
      with (from_option Filter.Date Filter.Null (AdminMessage.expiresAt m)).
    destruct (AdminMessage.expiresAt m) as [e|]; cbn.
    - rewrite bool_decide_eq_false_2 by discriminate.
      rewrite orb_false_r, !andb_true_r, orb_false_l, Z.ltb_lt. split.
      + intros He. right. by exists e.
      + intros [Hn|(e' & [= <-] & He)]; [discriminate Hn|done].
    - split; [by left|done]. }
  split; [intros (Ho & Ha & _); done | intros [Ha Ho]; split; [done|split; [done|]]].
  apply map_Forall_empty.
Qed.

(** C10.  The filter of [getActiveMessagesForUser] holds two properties
    only, [isActive] and the later [$or] on the expiry, so it does not
    depend on the user; and the query returns exactly the stored messages
    that are active and have no expiry or an expiry after [now], whether or
    not they are global or list the user among their targets. *)
Theorem getActiveMessagesForUser_ignores_user (now : Z) (userId : ObjectId)
    (coll : gmap N AdminMessage.t) :
  dom (AdminMessage.getActiveMessagesForUser_filter now userId)
    = ({["isActive"; "$or"]} : gset string)
  ∧ (∀ other, AdminMessage.getActiveMessagesForUser now userId coll
              = AdminMessage.getActiveMessagesForUser now other coll)
  ∧ (∀ id m, (id, m) ∈ AdminMessage.getActiveMessagesForUser now userId coll
             ↔ coll !! id = Some m ∧ visible_future now m).
Proof.
  split; [|split].
  - rewrite getActiveMessagesForUser_filter_eq. unfold Filter.object.
    cbn [foldl fst snd]. rewrite !dom_insert_L, dom_empty_L. set_solver.
  - intros other. unfold AdminMessage.getActiveMessagesForUser.
    by rewrite !getActiveMessagesForUser_filter_eq.
  - intros id m. unfold AdminMessage.getActiveMessagesForUser, AdminMessage.find.
    rewrite merge_sort_Permutation, getActiveMessagesForUser_filter_eq.
    rewrite list_elem_of_In, filter_In, <- list_elem_of_In, elem_of_map_to_list.
    cbn [snd]. by rewrite matches_active_unexpired.
Qed.

(** The targeted message of the example board is returned to a user it
    does not target. *)
Example getActiveMessagesForUser_untargeted :
  AdminMessage.getActiveMessagesForUser 500 1 Example.board
  = [(1%N, Example.welcome); (0%N, Example.notice)].
Proof. vm_compute. reflexivity. Qed.

(** * Further properties *)

(** ** Every request is a step of the lifecycle *)

Lemma createSwap_step now caller to offered wanted msg db :
  swap_step (swapRequests db)
    (swapRequests (Swaps.createSwap now caller to offered wanted msg db).2).
Proof.
  unfold Swaps.createSwap.
  destruct (negb _); [apply step_none|].
  destruct (String.eqb _ _); [apply step_none|].
  destruct (castObjectId to) as [toUserId|]; [|apply step_none].
  destruct (Swaps.findOne _ _) eqn:Hfind; [apply step_none|].
  cbn [snd swapRequests set_notifications set_swapRequests SwapRequest.create].
  apply step_created; cbn; try done.
  - apply not_elem_of_dom, is_fresh.
  - intros id' s' Hs' Hp Hpair.
    pose proof (findOne_None _ _ Hfind id' s' Hs') as Hq.
    apply not_true_iff_false in Hq. apply Hq, pendingBetween_spec.
    split; [done|]. unfold same_pair in Hpair. cbn in Hpair |- *. tauto.
Qed.

Ltac step_moved_by s :=
  cbn [snd swapRequests set_notifications set_swapRequests];
  eapply (step_moved _ _ s); [eassumption | cbn; try constructor ..];
  repeat split.

Lemma acceptSwap_step now caller id db :
  swap_step (swapRequests db) (swapRequests (Swaps.acceptSwap now caller id db).2).
Proof.
  unfold Swaps.acceptSwap, Swaps.populate.
  destruct (swapRequests db !! id) as [s|] eqn:Hs; [|apply step_none].
  destruct (SwapRequest.toUserId s =? caller)%N; cbn [negb]; [|apply step_none].
  destruct (bool_decide_reflect (SwapRequest.status s = SwapRequest.pending)) as [Hp|Hp];
    cbn [negb]; [|apply step_none].
  cbn [SwapRequest.accept SwapRequest.reject SwapRequest.save fst snd users
       set_swapRequests].
  destruct (users db !! _); step_moved_by s; rewrite Hp; constructor.
Qed.

Lemma rejectSwap_step now caller id db :
  swap_step (swapRequests db) (swapRequests (Swaps.rejectSwap now caller id db).2).
Proof.
  unfold Swaps.rejectSwap, Swaps.populate.
  destruct (swapRequests db !! id) as [s|] eqn:Hs; [|apply step_none].
  destruct (SwapRequest.toUserId s =? caller)%N; cbn [negb]; [|apply step_none].
  destruct (bool_decide_reflect (SwapRequest.status s = SwapRequest.pending)) as [Hp|Hp];
    cbn [negb]; [|apply step_none].
  cbn [SwapRequest.accept SwapRequest.reject SwapRequest.save fst snd users
       set_swapRequests].
  destruct (users db !! _); step_moved_by s; rewrite Hp; constructor.
Qed.

Lemma cancelSwap_step now caller id db :
  swap_step (swapRequests db) (swapRequests (Swaps.cancelSwap now caller id db).2).
Proof.
  unfold Swaps.cancelSwap.
  destruct (swapRequests db !! id) as [s|] eqn:Hs; [|apply step_none].
  destruct (SwapRequest.fromUserId s =? caller)%N; cbn [negb]; [|apply step_none].
  destruct (bool_decide_reflect (SwapRequest.status s = SwapRequest.pending)) as [Hp|Hp];
    cbn [negb]; [|apply step_none].
  step_moved_by s. rewrite Hp. constructor.
Qed.

Lemma completeSwap_step now caller id db :
  swap_step (swapRequests db) (swapRequests (Swaps.completeSwap now caller id db).2).
Proof.
  unfold Swaps.completeSwap, Swaps.populate.
  destruct (swapRequests db !! id) as [s|] eqn:Hs; [|apply step_none].
  destruct (negb (SwapRequest.fromUserId s =? caller)%N
            && negb (SwapRequest.toUserId s =? caller)%N); [apply step_none|].
  destruct (bool_decide_reflect (SwapRequest.status s = SwapRequest.accepted)) as [Hp|Hp];
    cbn [negb]; [|apply step_none].
  cbn [SwapRequest.complete SwapRequest.save fst snd users set_swapRequests
       set_notifications].
  destruct (users db !! SwapRequest.fromUserId _);
    [destruct (users db !! SwapRequest.toUserId _)|];
    step_moved_by s; rewrite Hp; constructor.
Qed.

Lemma submitFeedback_step now caller id rating comment db :
  swap_step (swapRequests db)
    (swapRequests (Feedback.submitFeedback now caller id rating comment db).2).
Proof.
  unfold Feedback.submitFeedback.
  destruct (Feedback.validRating rating) eqn:Hv; cbn [andb negb]; [|apply step_none].
  destruct (Feedback.validComment _); cbn [negb]; [|apply step_none].
  destruct (swapRequests db !! id) as [s|] eqn:Hs; [|apply step_none].
  assert (1 ≤ rating ≤ 5)%Z as Hr by (unfold Feedback.validRating in Hv; lia).
  destruct (N.eqb_spec (SwapRequest.fromUserId s) caller) as [Hf|Hf];
    destruct (N.eqb_spec (SwapRequest.toUserId s) caller) as [Ht|Ht];
    cbn [negb andb]; try apply step_none.
  all: destruct (bool_decide_reflect (SwapRequest.status s = SwapRequest.completed))
         as [Hc|Hc]; cbn [negb]; [|apply step_none].
  all: match goal with
       | |- context [bool_decide (?x ≠ None)] =>
           destruct (bool_decide_reflect (x ≠ None)) as [Hn|Hn]; [apply step_none|]
       end.
  all: assert (∀ db' s',
         swapRequests db' = <[id := s']> (swapRequests db) →
         SwapRequest.status s' = SwapRequest.completed →
         same_parties s s' →
         fills_slot rating (SwapRequest.feedback s) (SwapRequest.feedback s') →
         swap_step (swapRequests db) (swapRequests db')) as Hstep
       by (intros db' s' Heq ? ? ?; rewrite Heq;
           by apply (step_rated _ id s s' rating Hs)).
  all: unfold SwapRequest.addFeedback, SwapRequest.save; cbv zeta.
  all: rewrite ?(proj2 (N.eqb_eq _ _) Hf), ?(proj2 (N.eqb_neq _ _) Hf),
         ?(proj2 (N.eqb_eq _ _) Ht).
  all: cbn [fst snd set_swapRequests users swapRequests].
  all: destruct (users db !! _);
         [destruct (SwapRequest.isFeedbackComplete _)|]; cbn [snd].
  all: eapply Hstep; [reflexivity | exact Hc | repeat split |].
  all: unfold fills_slot; cbn.
  all: destruct (SwapRequest.fromUserRating (SwapRequest.feedback s)),
         (SwapRequest.toUserRating (SwapRequest.feedback s));
       try (exfalso; apply Hn; discriminate); tauto.
Qed.

Lemma banUser_step reason id db :
  swap_step (swapRequests db) (swapRequests (Admin.banUser reason id db).2).
Proof.
  unfold Admin.banUser.
  destruct (negb _); [apply step_none|].
  destruct (users db !! id) as [u|]; [|apply step_none].
  destruct (User.isBanned u); [apply step_none|].
  destruct (User.isAdmin u); apply step_none.
Qed.

Lemma unbanUser_step id db :
  swap_step (swapRequests db) (swapRequests (Admin.unbanUser id db).2).
Proof.
  unfold Admin.unbanUser.
  destruct (users db !! id) as [u|]; [|apply step_none].
  destruct (negb _); apply step_none.
Qed.

Lemma handle_step (now : Z) (r : Request) (db : Db) :
  swap_step (swapRequests db) (swapRequests (handle now r db).2).
Proof.
  destruct r; cbn [handle].
  - apply createSwap_step.
  - apply acceptSwap_step.
  - apply rejectSwap_step.
  - apply completeSwap_step.
  - apply cancelSwap_step.
  - apply submitFeedback_step.
  - apply banUser_step.
  - apply unbanUser_step.
Qed.

Lemma swap_step_lookup coll coll' id s :
  swap_step coll coll' → coll !! id = Some s →
  ∃ s', coll' !! id = Some s' ∧ same_parties s s'
        ∧ (SwapRequest.status s' = SwapRequest.status s
           ∨ edge (SwapRequest.status s) (SwapRequest.status s')).
Proof.
  assert (same_parties s s) as Hrefl by (by repeat split).
  intros Hstep Hs. destruct Hstep as [|id0 s0 Hnone|id0 s0 s0' Hs0 He Hp|id0 s0 s0' r Hs0 Hc Hc' Hp].
  - exists s. auto.
  - exists s. rewrite lookup_insert_ne by congruence. auto.
  - destruct (decide (id0 = id)) as [->|Hne].
    + rewrite Hs in Hs0. injection Hs0 as <-. exists s0'.
      rewrite lookup_insert_eq. auto.
    + exists s. rewrite lookup_insert_ne by done. auto.
  - destruct (decide (id0 = id)) as [->|Hne].
    + rewrite Hs in Hs0. injection Hs0 as <-. exists s0'.
      rewrite lookup_insert_eq. split; [done|]. split; [done|]. left. congruence.
    + exists s. rewrite lookup_insert_ne by done. auto.
Qed.

(** X1.  No request to the server removes a stored swap request or changes
    who its requester and recipient are, which skills it names, its message
    or its creation time; the cancel route, a DELETE, keeps the document. *)
Theorem swap_requests_persist (now : Z) (r : Request) (db : Db) (id : ObjectId)
    (s : SwapRequest.t) :
  swapRequests db !! id = Some s →
  ∃ s', swapRequests (handle now r db).2 !! id = Some s' ∧ same_parties s s'.
Proof.
  intros Hs. destruct (swap_step_lookup _ _ id s (handle_step now r db) Hs)
    as (s' & Hs' & Hp & _). eauto.
Qed.

(** The scenario's request survives its cancellation by A. *)
Lemma swap_requests_persist_witness :
  swapRequests Example.db1 !! 0%N = Some Example.swap1
  ∧ ∃ s', swapRequests (handle 1500 (DeleteSwap 1 0) Example.db1).2 !! 0%N = Some s'
          ∧ same_parties Example.swap1 s'.
Proof.
  assert (H : swapRequests Example.db1 !! 0%N = Some Example.swap1)
    by (vm_compute; reflexivity).
  split; [exact H|].
  exact (swap_requests_persist 1500 (DeleteSwap 1 0) Example.db1 0 Example.swap1 H).
Defined.

(** X2.  Whatever the request, the status of a stored swap request either
    stays or moves along one arrow of the lifecycle (pending to accepted,
    rejected or cancelled; accepted to completed); so a rejected, completed
    or cancelled request keeps its status for ever, and nothing returns to
    pending. *)
Theorem status_moves_along_lifecycle (now : Z) (r : Request) (db : Db) (id : ObjectId)
    (s s' : SwapRequest.t) :
  swapRequests db !! id = Some s →
  swapRequests (handle now r db).2 !! id = Some s' →
  (SwapRequest.status s' = SwapRequest.status s
   ∨ edge (SwapRequest.status s) (SwapRequest.status s'))
  ∧ (SwapRequest.status s ∈ [SwapRequest.rejected; SwapRequest.completed;
                              SwapRequest.cancelled] →
     SwapRequest.status s' = SwapRequest.status s)
  ∧ (SwapRequest.status s' = SwapRequest.pending →
     SwapRequest.status s = SwapRequest.pending).
Proof.
  intros Hs Hs'. destruct (swap_step_lookup _ _ id s (handle_step now r db) Hs)
    as (s'' & Hs'' & _ & Hst).
  rewrite Hs' in Hs''. injection Hs'' as <-. split; [exact Hst|]. split.
  - intros Hterm. destruct Hst as [|He]; [done|]. exfalso.
    destruct He;
      repeat (apply elem_of_cons in Hterm as [Hterm|Hterm]; [discriminate Hterm|]);
      by apply elem_of_nil in Hterm.
  - intros Hp. destruct Hst as [Heq|He]; [congruence|].
    rewrite Hp in He. inversion He.
Qed.

(** B accepts the scenario's pending request. *)
Lemma status_moves_along_lifecycle_witness :
  swapRequests Example.db1 !! 0%N = Some Example.swap1
  ∧ swapRequests (handle 2000 (PutAccept 2 0) Example.db1).2 !! 0%N
    = Some (SwapRequest.set_updatedAt 2000
              (SwapRequest.set_status SwapRequest.accepted Example.swap1))
  ∧ (SwapRequest.accepted = SwapRequest.status Example.swap1
     ∨ edge (SwapRequest.status Example.swap1) SwapRequest.accepted).
Proof.
  assert (H : swapRequests Example.db1 !! 0%N = Some Example.swap1)
    by (vm_compute; reflexivity).
  assert (H' : swapRequests (handle 2000 (PutAccept 2 0) Example.db1).2 !! 0%N
               = Some (SwapRequest.set_updatedAt 2000
                         (SwapRequest.set_status SwapRequest.accepted Example.swap1)))
    by (vm_compute; reflexivity).
  split; [exact H|]. split; [exact H'|].
  exact (proj1 (status_moves_along_lifecycle 2000 (PutAccept 2 0) Example.db1 0
                  Example.swap1 _ H H')).
Defined.

(** ** Invariants of the reachable stores *)

Lemma swap_step_well_formed coll coll' :
  swap_step coll coll' →
  map_Forall (λ _, well_formed) coll → map_Forall (λ _, well_formed) coll'.
Proof.
  intros Hstep Hwf.
  destruct Hstep as [|id s Hnone Hst [Hf Ht] _|id s s' Hs He Hp Hfb
                    |id s s' r Hs Hc Hc' Hp Hr Hfill]; [done|..];
    (apply map_Forall_insert_2; [|done]).
  - intros r [Hr|Hr]; congruence.
  - pose proof (Hwf id s Hs) as Hrat. unfold well_formed. rewrite Hfb. intros r Hr.
    destruct (Hrat r Hr) as [Hc _]. rewrite Hc in He. inversion He.
  - pose proof (Hwf id s Hs) as Hrat. intros r' Hr'. split; [done|].
    destruct Hfill as [(_ & Hnew & Hsame & _)|(_ & Hnew & Hsame & _)];
      destruct Hr' as [Hr'|Hr'].
    + congruence.
    + rewrite Hsame in Hr'. by apply (Hrat r'); right.
    + rewrite Hsame in Hr'. by apply (Hrat r'); left.
    + congruence.
Qed.

Lemma reachable_well_formed (db : Db) :
  reachable db → map_Forall (λ _, well_formed) (swapRequests db).
Proof.
  induction 1 as [us|db us _ IH|db now r _ IH].
  - apply map_Forall_empty.
  - exact IH.
  - exact (swap_step_well_formed _ _ (handle_step now r db) IH).
Qed.



(** X4.  In every reachable store a populated feedback slot holds a rating
    between 1 and 5 and belongs to a completed swap: feedback is never
    attached to a request in another status. *)
Theorem stored_ratings_are_valid (db : Db) (id : ObjectId) (s : SwapRequest.t) (r : Z) :
  reachable db → swapRequests db !! id = Some s →
  SwapRequest.fromUserRating (SwapRequest.feedback s) = Some r
  ∨ SwapRequest.toUserRating (SwapRequest.feedback s) = Some r →
  SwapRequest.status s = SwapRequest.completed ∧ (1 ≤ r ≤ 5)%Z.
Proof. intros Hr Hs. exact (reachable_well_formed db Hr id s Hs r). Qed.

(** The scenario after A's feedback is a run of the server. *)
Lemma reachable_db4 : reachable Example.db4.
Proof.
  exact (reachable_handle Example.db3 4000 (PostFeedback 1 0 5 (Some "Great"))
           reachable_db3).
Defined.

(** A's rating of 5 on the scenario's swap. *)
Lemma stored_ratings_are_valid_witness :
  reachable Example.db4
  ∧ swapRequests Example.db4 !! 0%N = Some Example.swap4
  ∧ SwapRequest.status Example.swap4 = SwapRequest.completed ∧ (1 ≤ 5 ≤ 5)%Z.
Proof.
  assert (H : swapRequests Example.db4 !! 0%N = Some Example.swap4)
    by (vm_compute; reflexivity).
  split; [exact reachable_db4|]. split; [exact H|].
  exact (stored_ratings_are_valid Example.db4 0 Example.swap4 5 reachable_db4 H
           (or_introl eq_refl)).
Defined.

Lemma same_pair_sym (s s' : SwapRequest.t) : same_pair s s' → same_pair s' s.
Proof. unfold same_pair. intros [[-> ->]|[-> ->]]; auto. Qed.

Lemma swap_step_pending_unique coll coll' :
  swap_step coll coll' → pending_unique coll → pending_unique coll'.
Proof.
  intros Hstep Huniq.
  destruct Hstep as [|id s Hnone Hst Hnf Hfree|id s s' Hs He Hp Hfb
                    |id s s' r Hs Hc Hc' Hp Hr Hfill]; [done|..];
    intros id1 id2 s1 s2 H1 H2 Hp1 Hp2 Hpair;
    destruct (decide (id1 = id)) as [->|Hn1]; destruct (decide (id2 = id)) as [->|Hn2];
    try done.
  all: try (rewrite lookup_insert_eq in H1; injection H1 as <-).
  all: try (rewrite lookup_insert_eq in H2; injection H2 as <-).
  all: try (rewrite lookup_insert_ne in H1 by congruence).
  all: try (rewrite lookup_insert_ne in H2 by congruence).
  - by destruct (Hfree id2 s2 H2 Hp2).
  - by destruct (Hfree id1 s1 H1 Hp1 (same_pair_sym _ _ Hpair)).
  - by apply (Huniq id1 id2 s1 s2).
  - rewrite Hp1 in He. inversion He.
  - rewrite Hp2 in He. inversion He.
  - by apply (Huniq id1 id2 s1 s2).
  - congruence.
  - congruence.
  - by apply (Huniq id1 id2 s1 s2).
Qed.

Lemma reachable_pending_unique (db : Db) :
  reachable db → pending_unique (swapRequests db).
Proof.
  induction 1 as [us|db us _ IH|db now r _ IH].
  - intros id1 id2 s1 s2 H1. cbn in H1. by rewrite lookup_empty in H1.
  - exact IH.
  - exact (swap_step_pending_unique _ _ (handle_step now r db) IH).
Qed.

(** X5.  In every reachable store there is at most one pending swap request
    between two users, whichever of them sent it. *)
Theorem one_pending_request_per_pair (db : Db) :
  reachable db → pending_unique (swapRequests db).
Proof. exact (reachable_pending_unique db). Qed.

(** The scenario after A's request is a run of the server. *)
Lemma reachable_db1 : reachable Example.db1.
Proof.
  exact (reachable_handle Example.db0 1000
           (PostSwap 1 (ObjectId_toString 2) "JavaScript" "Python" "Swap?")
           (reachable_init Example.members)).
Defined.

Lemma one_pending_request_per_pair_witness :
  reachable Example.db1 ∧ pending_unique (swapRequests Example.db1).
Proof.
  split; [exact reachable_db1|].
  exact (one_pending_request_per_pair Example.db1 reachable_db1).
Defined.

(** X6.  On a reachable store the virtual [isFeedbackComplete] is truthy
    exactly when both feedback slots are populated, and its JavaScript
    value is then the recipient's rating (not [true]), else [null]. *)
Theorem isFeedbackComplete_iff_both_slots (db : Db) (id : ObjectId) (s : SwapRequest.t) :
  reachable db → swapRequests db !! id = Some s →
  (SwapRequest.isFeedbackComplete s = true
   ↔ SwapRequest.fromUserRating (SwapRequest.feedback s) ≠ None
     ∧ SwapRequest.toUserRating (SwapRequest.feedback s) ≠ None)
  ∧ SwapRequestStatics.isFeedbackComplete_value s
    = (if SwapRequest.isFeedbackComplete s
       then SwapRequest.toUserRating (SwapRequest.feedback s) else None).
Proof.
  intros Hr Hs. pose proof (reachable_well_formed db Hr id s Hs) as Hrat.
  unfold well_formed in Hrat. cbv beta in Hrat.
  unfold SwapRequest.isFeedbackComplete, SwapRequestStatics.isFeedbackComplete_value,
    SwapRequest.truthy.
  destruct (SwapRequest.fromUserRating _) as [a|] eqn:Ha,
           (SwapRequest.toUserRating _) as [b|] eqn:Hb; cbn.
  - destruct (Hrat a (or_introl eq_refl)) as [_ Ha'].
    destruct (Hrat b (or_intror eq_refl)) as [_ Hb'].
    replace (a =? 0)%Z with false by lia. replace (b =? 0)%Z with false by lia.
    cbn. split; [split; [done|]|done]. by intros _.
  - destruct (Hrat a (or_introl eq_refl)) as [_ Ha'].
    replace (a =? 0)%Z with false by lia. cbn. split; [|done].
    split; [done|]. by intros [_ ?].
  - split; [|done]. split; [done|]. by intros [? _].
  - split; [|done]. split; [done|]. by intros [? _].
Qed.

(** After A's feedback only, the scenario's swap is not yet complete. *)
Lemma isFeedbackComplete_iff_both_slots_witness :
  reachable Example.db4
  ∧ swapRequests Example.db4 !! 0%N = Some Example.swap4
  ∧ SwapRequestStatics.isFeedbackComplete_value Example.swap4
    = (if SwapRequest.isFeedbackComplete Example.swap4
       then SwapRequest.toUserRating (SwapRequest.feedback Example.swap4) else None).
Proof.
  assert (H : swapRequests Example.db4 !! 0%N = Some Example.swap4)
    by (vm_compute; reflexivity).
  split; [exact reachable_db4|]. split; [exact H|].
  exact (proj2 (isFeedbackComplete_iff_both_slots Example.db4 0 Example.swap4
                  reachable_db4 H)).
Defined.

(** X7.  On a reachable store the virtual [isReadyForCompletion] is never
    truthy: its value is [false] for a request that is not accepted and
    [null] for an accepted one, whose feedback slots are both empty, since
    feedback exists on completed requests only. *)
Theorem isReadyForCompletion_never (db : Db) (id : ObjectId) (s : SwapRequest.t) :
  reachable db → swapRequests db !! id = Some s →
  SwapRequestStatics.isReadyForCompletion s
  = (if bool_decide (SwapRequest.status s = SwapRequest.accepted)
     then inr None else inl false)
  ∧ SwapRequestStatics.truthy_value (SwapRequestStatics.isReadyForCompletion s) = false.
Proof.
  intros Hr Hs. pose proof (reachable_well_formed db Hr id s Hs) as Hrat.
  unfold well_formed in Hrat. cbv beta in Hrat.
  unfold SwapRequestStatics.isReadyForCompletion,
    SwapRequestStatics.isFeedbackComplete_value, SwapRequest.truthy.
  destruct (bool_decide_reflect (SwapRequest.status s = SwapRequest.accepted)) as [Ha|Ha];
    [|done].
  destruct (SwapRequest.fromUserRating _) as [a|] eqn:Hfa; [|done].
  destruct (Hrat a (or_introl eq_refl)) as [Hc _]. congruence.
Qed.

(** The scenario up to B's acceptance is a run of the server. *)
Lemma reachable_db2 : reachable Example.db2.
Proof. exact (reachable_handle Example.db1 2000 (PutAccept 2 0) reachable_db1). Defined.

(** The accepted request of the scenario: the value is [null]. *)
Lemma isReadyForCompletion_never_witness :
  reachable Example.db2
  ∧ swapRequests Example.db2 !! 0%N = Some Example2.swap2
  ∧ SwapRequestStatics.isReadyForCompletion Example2.swap2 = inr None.
Proof.
  assert (H : swapRequests Example.db2 !! 0%N = Some Example2.swap2)
    by (vm_compute; reflexivity).
  split; [exact reachable_db2|]. split; [exact H|].
  exact (proj1 (isReadyForCompletion_never Example.db2 0 Example2.swap2 reachable_db2 H)).
Defined.

(** ** Notifications *)

Lemma getUnreadCount_create (u : ObjectId) (n : Notification.t) (coll : list Notification.t) :
  Notification.isRead n = false →
  NotificationStatics.getUnreadCount u (Notification.create n coll)
  = NotificationStatics.getUnreadCount u coll
    + (if decide (u = Notification.userId n) then 1 else 0).
Proof.
  intros Hn. unfold NotificationStatics.getUnreadCount, Notification.create.
  rewrite List.filter_app, length_app. f_equal. cbn. rewrite Hn.
  destruct (N.eqb_spec (Notification.userId n) u), (decide (u = Notification.userId n));
    cbn; congruence.
Qed.

(** X8.  A successful accept or reject adds exactly one unread notification,
    for the requester; a successful complete adds one for the requester and
    one for the recipient; a successful cancel adds none.  Nobody else's
    unread count changes. *)
Theorem lifecycle_notifications (a : Action) (now : Z) (caller id : ObjectId) (db : Db)
    (s : SwapRequest.t) (u : ObjectId) :
  swapRequests db !! id = Some s →
  Http.success (run a now caller id db).1 = true →
  NotificationStatics.getUnreadCount u (notifications (run a now caller id db).2)
  = NotificationStatics.getUnreadCount u (notifications db) + notified a s u.
Proof.
  intros Hs. destruct a; cbn [run notified];
    unfold Swaps.acceptSwap, Swaps.rejectSwap, Swaps.completeSwap, Swaps.cancelSwap,
      Swaps.populate;
    rewrite Hs.
  all: repeat match goal with
       | |- context [negb (?x =? ?y)%N] => destruct (x =? y)%N; cbn [negb andb]
       | |- context [negb (bool_decide ?P)] => destruct (bool_decide P); cbn [negb]
       end; try (cbn; discriminate).
  all: cbn [snd notifications set_notifications set_swapRequests fst users
            SwapRequest.accept SwapRequest.reject SwapRequest.complete
            SwapRequest.cancel SwapRequest.save SwapRequest.fromUserId
            SwapRequest.toUserId SwapRequest.set_updatedAt SwapRequest.set_status
            SwapRequest.set_completedAt].
  all: repeat match goal with
       | |- context [users ?d !! ?x] => destruct (users d !! x)
       end; try (cbn; discriminate).
  all: intros _; cbn [snd notifications set_notifications set_swapRequests fst].
  all: unfold Notification.createSwapAcceptedNotification,
         Notification.createSwapRejectedNotification,
         Notification.createSwapCompletedNotification.
  all: rewrite ?getUnreadCount_create by reflexivity; cbn; lia.
Qed.

(** A completes the scenario's swap: one more unread notification for B. *)
Lemma lifecycle_notifications_witness :
  swapRequests Example.db2 !! 0%N
  = Some (SwapRequest.set_updatedAt 2000
            (SwapRequest.set_status SwapRequest.accepted Example.swap1))
  ∧ Http.success (run Complete 3000 1 0 Example.db2).1 = true
  ∧ NotificationStatics.getUnreadCount 2 (notifications (run Complete 3000 1 0 Example.db2).2)
    = NotificationStatics.getUnreadCount 2 (notifications Example.db2)
      + notified Complete (SwapRequest.set_updatedAt 2000
                             (SwapRequest.set_status SwapRequest.accepted Example.swap1)) 2.
Proof.
  assert (H : swapRequests Example.db2 !! 0%N
              = Some (SwapRequest.set_updatedAt 2000
                        (SwapRequest.set_status SwapRequest.accepted Example.swap1)))
    by (vm_compute; reflexivity).
  assert (H' : Http.success (run Complete 3000 1 0 Example.db2).1 = true)
    by (vm_compute; reflexivity).
  split; [exact H|]. split; [exact H'|].
  exact (lifecycle_notifications Complete 3000 1 0 Example.db2 _ 2 H H').
Defined.

Lemma markAllAsRead_one (u : ObjectId) (n : Notification.t) :
  let n' := if (Notification.userId n =? u)%N && negb (Notification.isRead n)
            then NotificationStatics.set_isRead true n else n in
  Notification.userId n' = Notification.userId n
  ∧ Notification.isRead n' = Notification.isRead n || (Notification.userId n =? u)%N
  ∧ NotificationStatics.set_isRead true n' = NotificationStatics.set_isRead true n.
Proof.
  destruct (Notification.userId n =? u)%N, (Notification.isRead n) eqn:Hr; cbn;
    rewrite ?Hr; done.
Qed.

Lemma getUnreadCount_fmap (v : ObjectId) (f : Notification.t → Notification.t)
    (coll : list Notification.t) :
  NotificationStatics.getUnreadCount v (f <$> coll)
  = length (List.filter (λ n, (Notification.userId (f n) =? v)%N
                              && negb (Notification.isRead (f n))) coll).
Proof.
  unfold NotificationStatics.getUnreadCount.
  induction coll as [|n coll IH]; [done|]. cbn.
  destruct (_ && _); cbn; by rewrite IH.
Qed.

(** X9.  [markAllAsRead] for a user leaves that user without unread
    notifications, changes no other user's unread count, keeps every
    notification (only the read flag of that user's changes), and doing it
    twice is the same as once. *)
Theorem markAllAsRead_clears (u : ObjectId) (coll : list Notification.t) :
  NotificationStatics.getUnreadCount u (NotificationStatics.markAllAsRead u coll) = 0
  ∧ (∀ v, v ≠ u →
       NotificationStatics.getUnreadCount v (NotificationStatics.markAllAsRead u coll)
       = NotificationStatics.getUnreadCount v coll)
  ∧ NotificationStatics.set_isRead true <$> NotificationStatics.markAllAsRead u coll
    = NotificationStatics.set_isRead true <$> coll
  ∧ NotificationStatics.markAllAsRead u (NotificationStatics.markAllAsRead u coll)
    = NotificationStatics.markAllAsRead u coll.
Proof.
  unfold NotificationStatics.markAllAsRead. repeat split.
  - rewrite getUnreadCount_fmap.
    rewrite (filter_ext _ (λ _, false)); [by induction coll|].
    intros n. destruct (markAllAsRead_one u n) as (-> & -> & _).
    destruct (Notification.userId n =? u)%N, (Notification.isRead n); done.
  - intros v Hv. rewrite getUnreadCount_fmap. unfold NotificationStatics.getUnreadCount.
    f_equal. apply filter_ext. intros n.
    destruct (markAllAsRead_one u n) as (-> & -> & _).
    destruct (N.eqb_spec (Notification.userId n) v), (N.eqb_spec (Notification.userId n) u),
      (Notification.isRead n); cbn; congruence.
  - rewrite <- list_fmap_compose. apply list_fmap_ext. intros i n _. cbn.
    by destruct (markAllAsRead_one u n) as (_ & _ & ->).
  - rewrite <- list_fmap_compose. apply list_fmap_ext. intros i n _. cbn.
    destruct (markAllAsRead_one u n) as (-> & -> & _).
    destruct (Notification.userId n =? u)%N eqn:Hu, (Notification.isRead n) eqn:Hr;
      cbn; rewrite ?Hu, ?Hr; done.
Qed.

(** X10.  The [age] of a notification names the largest unit that has
    elapsed, rounded down: whole days from 24 hours on, else whole hours
    from 60 minutes on, else whole minutes from 60 seconds on, with a
    plural "s" from two units on; under a minute, and for a notification
    dated in the future, it reads "Just now". *)
Theorem age_units (now createdAt : Z) :
  let diff := (now - createdAt)%Z in
  let unit (n : Z) (name : string) : string :=
    pretty.pretty n +:+ name +:+ (if (1 <? n)%Z then "s" else "") +:+ " ago" in
  ((diff < 60000)%Z → NotificationStatics.age now createdAt = "Just now")
  ∧ ((60000 ≤ diff < 3600000)%Z →
     NotificationStatics.age now createdAt = unit (diff / 60000)%Z " minute")
  ∧ ((3600000 ≤ diff < 86400000)%Z →
     NotificationStatics.age now createdAt = unit (diff / 3600000)%Z " hour")
  ∧ ((86400000 ≤ diff)%Z →
     NotificationStatics.age now createdAt = unit (diff / 86400000)%Z " day").
Proof.
  cbv zeta. unfold NotificationStatics.age. cbv zeta.
  set (diff := (now - createdAt)%Z).
  assert (diff / 60000 / 60 = diff / 3600000)%Z as Hh
    by (rewrite Z.div_div by lia; reflexivity).
  assert (diff / 60000 / 60 / 24 = diff / 86400000)%Z as Hd
    by (rewrite Hh, Z.div_div by lia; reflexivity).
  rewrite Hd, Hh.
  repeat split; intros Hdiff.
  - replace (0 <? diff / 86400000)%Z with false
      by (symmetry; apply Z.ltb_ge; Z.to_euclidean_division_equations; lia).
    replace (0 <? diff / 3600000)%Z with false
      by (symmetry; apply Z.ltb_ge; Z.to_euclidean_division_equations; lia).
    replace (0 <? diff / 60000)%Z with false
      by (symmetry; apply Z.ltb_ge; Z.to_euclidean_division_equations; lia).
    reflexivity.
  - replace (0 <? diff / 86400000)%Z with false
      by (symmetry; apply Z.ltb_ge; Z.to_euclidean_division_equations; lia).
    replace (0 <? diff / 3600000)%Z with false
      by (symmetry; apply Z.ltb_ge; Z.to_euclidean_division_equations; lia).
    replace (0 <? diff / 60000)%Z with true
      by (symmetry; apply Z.ltb_lt; Z.to_euclidean_division_equations; lia).
    reflexivity.
  - replace (0 <? diff / 86400000)%Z with false
      by (symmetry; apply Z.ltb_ge; Z.to_euclidean_division_equations; lia).
    replace (0 <? diff / 3600000)%Z with true
      by (symmetry; apply Z.ltb_lt; Z.to_euclidean_division_equations; lia).
    reflexivity.
  - replace (0 <? diff / 86400000)%Z with true
      by (symmetry; apply Z.ltb_lt; Z.to_euclidean_division_equations; lia).
    reflexivity.
Qed.


(** A notification two hours and a half old. *)
Lemma age_units_witness :
  (3600000 ≤ 9000000 - 0 < 86400000)%Z
  ∧ NotificationStatics.age 9000000 0 = "2 hours ago".
Proof.
  assert (H : (3600000 ≤ 9000000 - 0 < 86400000)%Z) by lia.
  split; [exact H|].
  exact (proj1 (proj2 (proj2 (age_units 9000000 0))) H).
Defined.

(** ** Listing one's swap requests *)

#[local] Instance newest_first_trans : Transitive SwapsRead.newest_first.
Proof. unfold SwapsRead.newest_first. intros a b c. lia. Qed.

#[local] Instance newest_first_total : Total SwapsRead.newest_first.
Proof. unfold SwapsRead.newest_first. intros a b. lia. Qed.

Lemma StronglySorted_paginate {A} (R : relation A) (page limit : option nat) (l : list A) :
  StronglySorted R l → StronglySorted R (Users.paginate page limit l).
Proof.
  intros Hl. unfold Users.paginate.
  set (n := (default 1 page - 1) * default 20 limit).
  rewrite <- (take_drop n l) in Hl. apply StronglySorted_app_1_r in Hl.
  rewrite <- (take_drop (default 20 limit) (drop n l)) in Hl.
  by apply StronglySorted_app_1_l in Hl.
Qed.

Lemma listQuery_spec (caller : ObjectId) (status : option SwapRequest.Status)
    (type : option SwapsRead.Direction) (d : ObjectId * SwapRequest.t) :
  SwapsRead.listQuery caller status type d = true
  ↔ match type with
    | Some SwapsRead.sent => SwapRequest.fromUserId d.2 = caller
    | Some SwapsRead.received => SwapRequest.toUserId d.2 = caller
    | None => SwapRequest.fromUserId d.2 = caller ∨ SwapRequest.toUserId d.2 = caller
    end
    ∧ (∀ st, status = Some st → SwapRequest.status d.2 = st).
Proof.
  unfold SwapsRead.listQuery. rewrite andb_true_iff.
  assert (from_option (λ st, bool_decide (SwapRequest.status d.2 = st)) true status = true
          ↔ ∀ st, status = Some st → SwapRequest.status d.2 = st) as ->.
  { destruct status as [st|]; cbn; [|by split].
    rewrite bool_decide_eq_true. split; [by intros ? ? [= <-]|auto]. }
  destruct type as [[]|]; rewrite ?orb_true_iff, ?N.eqb_eq; tauto.
Qed.

(** X11.  [GET /api/swaps] shows a user their own swap requests only: every
    request returned is stored, has the caller as requester (type sent), as
    recipient (type received) or as either (no type), and has the status
    asked for; the page is ordered newest first, and when the first page
    is asked for and the matches fit in it, it holds all of them. *)
Theorem listSwaps_own_requests (status : option SwapRequest.Status)
    (type : option SwapsRead.Direction) (page limit : option nat)
    (caller : ObjectId) (db : Db) :
  Users.validPage page limit 50 = true →
  ∃ found pg,
    SwapsRead.listSwaps status type page limit caller db = inr (found, pg)
    ∧ (∀ id s, (id, s) ∈ found →
         swapRequests db !! id = Some s
         ∧ (SwapRequest.fromUserId s = caller ∨ SwapRequest.toUserId s = caller)
         ∧ (type = Some SwapsRead.sent → SwapRequest.fromUserId s = caller)
         ∧ (type = Some SwapsRead.received → SwapRequest.toUserId s = caller)
         ∧ (∀ st, status = Some st → SwapRequest.status s = st))
    ∧ StronglySorted SwapsRead.newest_first found
    ∧ (default 1 page = 1 → SwapsRead.totalRequests pg ≤ default 20 limit →
       ∀ id s, swapRequests db !! id = Some s →
               SwapsRead.listQuery caller status type (id, s) = true →
               (id, s) ∈ found).
Proof.
  intros Hv. unfold SwapsRead.listSwaps. rewrite Hv. cbn [negb].
  eexists _, _. split; [reflexivity|]. split; [|split].
  - intros id s Hin. apply subseteq_take, subseteq_drop in Hin.
    rewrite merge_sort_Permutation in Hin. unfold SwapRequestStatics.find in Hin.
    apply list_elem_of_In, filter_In in Hin as [Hin Hq].
    apply list_elem_of_In, elem_of_map_to_list in Hin.
    apply listQuery_spec in Hq as [Hty Hst]. cbn [snd] in *.
    split; [done|]. destruct type as [[]|]; repeat split; auto; discriminate.
  - apply StronglySorted_paginate, StronglySorted_merge_sort; apply _.
  - intros Hp Hfit id s Hs Hq. cbn [SwapsRead.totalRequests SwapsRead.pagination] in Hfit.
    unfold Users.paginate. rewrite Hp.
    change ((1 - 1) * default 20 limit) with 0. rewrite drop_0.
    rewrite take_ge.
    + rewrite merge_sort_Permutation. unfold SwapRequestStatics.find.
      apply list_elem_of_In, filter_In. split; [|done].
      by apply list_elem_of_In, elem_of_map_to_list.
    + by rewrite merge_sort_Permutation.
Qed.

(** B lists the requests received in the scenario. *)
Lemma listSwaps_own_requests_witness :
  Users.validPage None None 50 = true
  ∧ ∃ found pg,
      SwapsRead.listSwaps None (Some SwapsRead.received) None None 2 Example.db1
      = inr (found, pg)
      ∧ StronglySorted SwapsRead.newest_first found.
Proof.
  assert (H : Users.validPage None None 50 = true) by reflexivity.
  split; [exact H|].
  destruct (listSwaps_own_requests None (Some SwapsRead.received) None None 2
              Example.db1 H) as (found & pg & Heq & _ & Hsorted & _).
  exists found, pg. split; [exact Heq | exact Hsorted].
Defined.

Lemma ceil_div_gt (p total limit : nat) :
  1 ≤ limit → p < SwapsRead.ceil_div total limit ↔ p * limit < total.
Proof.
  intros Hl. unfold SwapsRead.ceil_div.
  pose proof (Nat.div_mod_eq (total + limit - 1) limit) as Hdm.
  pose proof (Nat.mod_upper_bound (total + limit - 1) limit ltac:(lia)) as Hm.
  split; intros Hp; nia.
Qed.

(** X12.  The page information of [GET /api/swaps] is accurate: the total
    counts all the caller's matching requests, a page never holds more than
    [limit] of them, [hasNextPage] is true exactly when the following page
    holds a request, [hasPrevPage] exactly from page two on, and a page
    past the last one is empty. *)
Theorem listSwaps_pagination (status : option SwapRequest.Status)
    (type : option SwapsRead.Direction) (page limit : option nat)
    (caller : ObjectId) (db : Db) :
  Users.validPage page limit 50 = true →
  ∃ found pg,
    SwapsRead.listSwaps status type page limit caller db = inr (found, pg)
    ∧ SwapsRead.totalRequests pg
      = length (SwapRequestStatics.find (SwapsRead.listQuery caller status type)
                  (swapRequests db))
    ∧ length found ≤ default 20 limit
    ∧ (SwapsRead.hasNextPage pg = true
       ↔ ∃ next pg', SwapsRead.listSwaps status type (Some (S (default 1 page))) limit
                       caller db = inr (next, pg')
                     ∧ next ≠ [])
    ∧ (SwapsRead.hasPrevPage pg = true ↔ 1 < default 1 page)
    ∧ (SwapsRead.totalPages pg < default 1 page → found = []).
Proof.
  intros Hv. unfold SwapsRead.listSwaps. rewrite Hv. cbn [negb].
  assert (1 ≤ default 1 page ∧ 1 ≤ default 20 limit) as [Hp Hl].
  { unfold Users.validPage in Hv. apply andb_true_iff in Hv as [Hp Hl].
    destruct page, limit; cbn [from_option id] in *;
      try rewrite Nat.leb_le in Hp;
      try rewrite andb_true_iff, !Nat.leb_le in Hl; lia. }
  assert (Users.validPage (Some (S (default 1 page))) limit 50 = true) as Hv'.
  { unfold Users.validPage in *. apply andb_true_iff in Hv as [_ ->]. done. }
  rewrite Hv'. cbn [negb].
  set (all := merge_sort SwapsRead.newest_first
                (SwapRequestStatics.find (SwapsRead.listQuery caller status type)
                   (swapRequests db))).
  assert (length all = SwapRequestStatics.countDocuments
                         (SwapsRead.listQuery caller status type) (swapRequests db))
    as Hall by (unfold all; by rewrite merge_sort_Permutation).
  eexists _, _. split; [reflexivity|].
  cbn [SwapsRead.totalRequests SwapsRead.hasNextPage SwapsRead.hasPrevPage
       SwapsRead.totalPages SwapsRead.pagination].
  split; [done|]. split; [|split; [|split]].
  - unfold Users.paginate. rewrite length_take. lia.
  - rewrite Nat.ltb_lt, ceil_div_gt by done. rewrite <- Hall. split.
    + intros Hlt. eexists _, _. split; [reflexivity|].
      unfold Users.paginate. cbn [from_option id]. rewrite Nat.sub_succ, Nat.sub_0_r.
      intros Hnil. apply (f_equal length) in Hnil.
      rewrite length_take, length_drop in Hnil. cbn in Hnil. lia.
    + intros (next & pg' & [= <- _] & Hne). apply Nat.lt_nge. intros Hle.
      apply Hne. unfold Users.paginate. cbn [from_option id].
      rewrite Nat.sub_succ, Nat.sub_0_r. rewrite drop_ge by lia. apply take_nil.
  - by rewrite Nat.ltb_lt.
  - intros Hlt. unfold Users.paginate. rewrite drop_ge; [apply take_nil|].
    rewrite Hall. destruct (decide ((default 1 page - 1) * default 20 limit
                                   < SwapRequestStatics.countDocuments
                                       (SwapsRead.listQuery caller status type)
                                       (swapRequests db))) as [Hin|]; [|lia].
    apply ceil_div_gt in Hin; [lia|done].
Qed.

(** A's first page in the scenario. *)
Lemma listSwaps_pagination_witness :
  Users.validPage (Some 1) (Some 10) 50 = true
  ∧ ∃ found pg,
      SwapsRead.listSwaps None None (Some 1) (Some 10) 1 Example.db1 = inr (found, pg)
      ∧ length found ≤ 10.
Proof.
  assert (H : Users.validPage (Some 1) (Some 10) 50 = true) by reflexivity.
  split; [exact H|].
  destruct (listSwaps_pagination None None (Some 1) (Some 10) 1 Example.db1 H)
    as (found & pg & Heq & _ & Hlen & _).
  exists found, pg. split; [exact Heq | exact Hlen].
Defined.

(** ** Statistics *)

Lemma sum_list_nonzero {A} (l : list (A * nat)) :
  sum_list (List.filter (λ g : A * nat, (0 <? g.2)%nat) l).*2 = sum_list l.*2.
Proof.
  induction l as [|[a n] l IH]; [done|].
  cbn [List.filter]. change ((a, n).2) with n.
  destruct n as [|n];
    [change (0 <? 0)%nat with false | change (0 <? S n)%nat with true];
    rewrite !fmap_cons; cbn [sum_list id]; rewrite IH; reflexivity.
Qed.

Lemma NoDup_fst_nonzero {A} (l : list (A * nat)) :
  NoDup l.*1 → NoDup (List.filter (λ g : A * nat, (0 <? g.2)%nat) l).*1.
Proof.
  induction l as [|[a n] l IH]; [done|].
  rewrite fmap_cons. intros [Hnot Hl]%NoDup_cons.
  cbn [List.filter]. destruct (0 <? (a, n).2)%nat; [|by apply IH].
  rewrite fmap_cons. apply NoDup_cons. split; [|by apply IH].
  intros Hin. apply Hnot.
  apply list_elem_of_fmap in Hin as ([a' k'] & -> & Hin).
  apply list_elem_of_In, filter_In in Hin as [Hin _].
  apply list_elem_of_fmap. exists (a', k'). split; [done|].
  by apply list_elem_of_In.
Qed.

Lemma count_by_status (docs : list (ObjectId * SwapRequest.t)) :
  let count st :=
    length (List.filter (λ d : ObjectId * SwapRequest.t,
                           bool_decide (SwapRequest.status d.2 = st)) docs) in
  count SwapRequest.pending + count SwapRequest.accepted + count SwapRequest.rejected
  + count SwapRequest.completed + count SwapRequest.cancelled = length docs.
Proof.
  cbv zeta. induction docs as [|d docs IH]; [done|].
  cbn [List.filter]. destruct (SwapRequest.status d.2);
    repeat (first [rewrite bool_decide_eq_true_2 by reflexivity
                  |rewrite bool_decide_eq_false_2 by discriminate]);
    cbn [length]; lia.
Qed.

Lemma groupByStatus_sum (docs : list (ObjectId * SwapRequest.t)) :
  sum_list (SwapRequestStatics.groupByStatus docs).*2 = length docs.
Proof.
  unfold SwapRequestStatics.groupByStatus. rewrite sum_list_nonzero.
  rewrite <- (count_by_status docs). unfold SwapRequestStatics.statuses.
  rewrite !fmap_cons, !fmap_nil. cbn [sum_list snd id]. lia.
Qed.

Lemma groupByStatus_elem (docs : list (ObjectId * SwapRequest.t))
    (st : SwapRequest.Status) (n : nat) :
  (st, n) ∈ SwapRequestStatics.groupByStatus docs
  ↔ 0 < n
    ∧ n = length (List.filter (λ d : ObjectId * SwapRequest.t,
                                 bool_decide (SwapRequest.status d.2 = st)) docs).
Proof.
  unfold SwapRequestStatics.groupByStatus.
  rewrite list_elem_of_In, filter_In, <- list_elem_of_In, list_elem_of_fmap.
  cbn [snd]. rewrite Nat.ltb_lt. split.
  - intros [(st' & [= -> ->] & _) Hpos]. done.
  - intros [Hpos ->]. split; [|done]. exists st. split; [done|].
    unfold SwapRequestStatics.statuses. destruct st; set_solver.
Qed.

Lemma filter_filter_bool {A} (p q : A → bool) (l : list A) :
  List.filter p (List.filter q l) = List.filter (λ x, q x && p x) l.
Proof.
  induction l as [|x l IH]; [done|]. cbn.
  destruct (q x); cbn; [destruct (p x)|]; by rewrite ?IH.
Qed.

(** X13.  [SwapRequest.getStats] lists each status that occurs once, with
    the number of stored requests in that status; statuses without requests
    are absent, and the counts add up to the size of the collection. *)
Theorem getStats_counts (coll : gmap N SwapRequest.t) :
  sum_list (SwapRequestStatics.getStats coll).*2 = size coll
  ∧ NoDup (SwapRequestStatics.getStats coll).*1
  ∧ ∀ st n, (st, n) ∈ SwapRequestStatics.getStats coll
            ↔ 0 < n
              ∧ n = SwapRequestStatics.countDocuments
                      (λ d, bool_decide (SwapRequest.status d.2 = st)) coll.
Proof.
  unfold SwapRequestStatics.getStats. split; [|split].
  - rewrite groupByStatus_sum. apply length_map_to_list.
  - unfold SwapRequestStatics.groupByStatus. apply NoDup_fst_nonzero.
    rewrite <- list_fmap_compose. unfold SwapRequestStatics.statuses.
    rewrite !fmap_cons, fmap_nil. cbn [compose fst].
    repeat (apply NoDup_cons; split;
            [rewrite ?elem_of_cons, elem_of_nil; intuition discriminate|]).
    apply NoDup_nil_2.
  - intros st n. apply groupByStatus_elem.
Qed.

(** X14.  The overview of [GET /api/swaps/stats/overview] is consistent:
    the per-status counts of the caller's requests add up to [totalSwaps];
    a status is listed exactly with the positive number of the caller's
    requests in it; [completedSwaps] is the completed count; and
    [pendingRequests], which counts received requests only, is at most the
    pending count. *)
Theorem statsOverview_consistent (caller : ObjectId) (db : Db) :
  let ov := SwapsRead.statsOverview caller db in
  let count st :=
    SwapRequestStatics.countDocuments (SwapRequestStatics.forUser st caller)
      (swapRequests db) in
  sum_list (SwapsRead.stats ov).*2 = SwapsRead.totalSwaps ov
  ∧ (∀ st n, (st, n) ∈ SwapsRead.stats ov ↔ 0 < n ∧ n = count st)
  ∧ SwapsRead.completedSwaps ov = count SwapRequest.completed
  ∧ SwapsRead.pendingRequests ov ≤ count SwapRequest.pending.
Proof.
  cbv zeta. unfold SwapsRead.statsOverview.
  cbn [SwapsRead.stats SwapsRead.totalSwaps SwapsRead.completedSwaps
       SwapsRead.pendingRequests].
  split; [apply groupByStatus_sum|]. split; [|split; [done|]].
  - intros st n. rewrite groupByStatus_elem.
    unfold SwapRequestStatics.countDocuments, SwapRequestStatics.find.
    by rewrite filter_filter_bool.
  - unfold SwapRequestStatics.countDocuments, SwapRequestStatics.find.
    induction (map_to_list (swapRequests db)) as [|d l IH]; [done|]. cbn.
    unfold SwapRequestStatics.forUser at 1.
    destruct (SwapRequest.toUserId d.2 =? caller)%N,
      (bool_decide (SwapRequest.status d.2 = SwapRequest.pending));
      rewrite ?orb_true_r, ?orb_false_r; cbn [andb length];
      try destruct (SwapRequest.fromUserId d.2 =? caller)%N; cbn [andb length]; lia.
Qed.

Lemma swapsWithFeedback_filter_eq (userId : ObjectId) :
  FeedbackStats.swapsWithFeedback_filter userId
  = <["$or" := FeedbackStats.Clauses
                 [ [("feedback.fromUserRating", FeedbackStats.Ne FeedbackStats.Null)];
                   [("feedback.toUserRating", FeedbackStats.Ne FeedbackStats.Null)] ]]>
      (<["status" := FeedbackStats.Field
                       (FeedbackStats.Is (FeedbackStats.Status SwapRequest.completed))]> ∅).
Proof.
  unfold FeedbackStats.swapsWithFeedback_filter, Filter.object. cbn [foldl fst snd].
  rewrite (insert_insert_ne _ "status" "$or") by done. apply insert_insert_eq.
Qed.

Lemma swapsWithFeedback_matches (userId : ObjectId) (s : SwapRequest.t) :
  FeedbackStats.matches (FeedbackStats.swapsWithFeedback_filter userId) s = true
  ↔ SwapRequest.status s = SwapRequest.completed
    ∧ (SwapRequest.fromUserRating (SwapRequest.feedback s) ≠ None
       ∨ SwapRequest.toUserRating (SwapRequest.feedback s) ≠ None).
Proof.
  rewrite swapsWithFeedback_filter_eq. unfold FeedbackStats.matches.
  rewrite bool_decide_eq_true.
  rewrite map_Forall_insert by (by rewrite lookup_insert_ne, lookup_empty).
  rewrite map_Forall_insert by apply lookup_empty.
  unfold FeedbackStats.entry.
  change (bool_decide ("$or" = "$or")) with true.
  cbn [andb existsb FeedbackStats.clause forallb fst snd FeedbackStats.holds].
  change (FeedbackStats.get s "status") with (FeedbackStats.Status (SwapRequest.status s)).
  change (FeedbackStats.get s "feedback.fromUserRating")
    with (from_option FeedbackStats.Number FeedbackStats.Null
            (SwapRequest.fromUserRating (SwapRequest.feedback s))).
  change (FeedbackStats.get s "feedback.toUserRating")
    with (from_option FeedbackStats.Number FeedbackStats.Null
            (SwapRequest.toUserRating (SwapRequest.feedback s))).
  rewrite !andb_true_r, orb_false_r, orb_true_iff, !bool_decide_eq_true.
  assert (∀ o : option Z,
            from_option FeedbackStats.Number FeedbackStats.Null o ≠ FeedbackStats.Null
            ↔ o ≠ None) as Hne
    by (intros [z|]; cbn; split; congruence).
  rewrite !Hne. split.
  - intros (Hor & Hst & _). split; [congruence|done].
  - intros [Hst Hor]. split; [done|]. split; [congruence|apply map_Forall_empty].
Qed.

(** X15.  The count [swapsWithFeedback] of [GET /api/feedback/stats/overview]
    does not depend on the user: its filter names [$or] twice, the later
    one (on the feedback slots) replaces the one on the participants, and
    the count is the number of completed swaps of all users that carry a
    rating. *)
Theorem swapsWithFeedback_counts_everyone (userId : ObjectId)
    (coll : gmap N SwapRequest.t) :
  dom (FeedbackStats.swapsWithFeedback_filter userId) = ({["$or"; "status"]} : gset string)
  ∧ (∀ other, FeedbackStats.swapsWithFeedback userId coll
              = FeedbackStats.swapsWithFeedback other coll)
  ∧ FeedbackStats.swapsWithFeedback userId coll
    = SwapRequestStatics.countDocuments
        (λ d, bool_decide (SwapRequest.status d.2 = SwapRequest.completed)
              && (bool_decide (SwapRequest.fromUserRating (SwapRequest.feedback d.2) ≠ None)
                  || bool_decide (SwapRequest.toUserRating (SwapRequest.feedback d.2)
                                  ≠ None)))
        coll.
Proof.
  split; [|split].
  - rewrite swapsWithFeedback_filter_eq, !dom_insert_L, dom_empty_L. set_solver.
  - intros other. unfold FeedbackStats.swapsWithFeedback.
    by rewrite !swapsWithFeedback_filter_eq.
  - unfold FeedbackStats.swapsWithFeedback, SwapRequestStatics.countDocuments,
      SwapRequestStatics.find.
    f_equal. apply filter_ext. intros d. apply eq_true_iff_eq.
    rewrite swapsWithFeedback_matches, andb_true_iff, orb_true_iff,
      !bool_decide_eq_true. tauto.
Qed.

(** C, who took no part in the scenario's swap, is told of one swap with
    feedback. *)
Example swapsWithFeedback_of_a_stranger :
  FeedbackStats.swapsWithFeedback 3 (swapRequests Example.db5) = 1.
Proof. vm_compute. reflexivity. Qed.

(** ** Profiles and moderation *)

(** X16.  [GET /api/users/:id] serves a stored profile exactly when it is
    public or the viewer is its owner, and answers 403 otherwise; an
    anonymous viewer never sees a private profile, and the banned flag
    plays no part: the profile of a banned public user is still served. *)
Theorem getUser_visibility (viewer : option ObjectId) (id : ObjectId) (db : Db)
    (u : User.t) :
  users db !! id = Some u →
  (UsersRead.getUser viewer id db = inr u
   ↔ User.isPublic u = true ∨ viewer = Some id)
  ∧ (User.isPublic u = false → viewer ≠ Some id →
     UsersRead.getUser viewer id db = inl (Http.json 403 false "Profile is private"))
  ∧ (User.isPublic u = true →
     ∀ reason, UsersRead.getUser viewer id (Admin.banUser reason id db).2
               = inr (if (Admin.banUser reason id db).1.(Http.success)
                      then User.set_isBanned true u else u)).
Proof.
  intros Hu. unfold UsersRead.getUser. rewrite Hu.
  split; [|split].
  - destruct (User.isPublic u), viewer as [v|]; cbn [negb andb from_option];
      try destruct (N.eqb_spec v id) as [->|Hne]; cbn [negb];
      (split; [intros H|intros [H|H]]); try done; try auto; congruence.
  - intros -> Hne. destruct viewer as [v|]; cbn [negb andb from_option]; [|done].
    destruct (N.eqb_spec v id) as [->|Hne']; cbn [negb]; [congruence|done].
  - intros Hpub reason. unfold Admin.banUser.
    destruct (negb _); cbn [fst snd]; [by rewrite Hu, Hpub|]. rewrite Hu.
    destruct (User.isBanned u); cbn [fst snd Http.success]; [by rewrite Hu, Hpub|].
    destruct (User.isAdmin u); cbn [fst snd Http.success users set_users];
      [by rewrite Hu, Hpub|].
    unfold User.save. rewrite lookup_insert_eq. cbn. by rewrite Hpub.
Qed.

(** B's profile is public; the administrator bans B. *)
Lemma getUser_visibility_witness :
  users Example.db0 !! 2%N = Some Example.userB
  ∧ User.isPublic Example.userB = true
  ∧ UsersRead.getUser None 2 (Admin.banUser None 2 Example.db0).2
    = inr (if (Admin.banUser None 2 Example.db0).1.(Http.success)
           then User.set_isBanned true Example.userB else Example.userB).
Proof.
  assert (H : users Example.db0 !! 2%N = Some Example.userB) by (vm_compute; reflexivity).
  split; [exact H|]. split; [reflexivity|].
  exact (proj2 (proj2 (getUser_visibility None 2 Example.db0 Example.userB H))
           eq_refl None).
Defined.

(** X17.  Banning a user and then unbanning them leaves the store as it
    was before the ban, in every field the model records (it records no
    timestamps of users); unbanning fails, the store unchanged, unless the
    user is banned; and an administrator who is banned can be unbanned. *)
Theorem ban_unban_round_trip (reason : option string) (userId : ObjectId) (db : Db)
    (user : User.t) :
  users db !! userId = Some user →
  (Http.success (Admin.banUser reason userId db).1 = true →
     Admin.unbanUser userId (Admin.banUser reason userId db).2
     = (Http.json 200 true "User unbanned successfully", db))
  ∧ (User.isBanned user = false →
     Admin.unbanUser userId db = (Http.json 400 false "User is not banned", db))
  ∧ (User.isBanned user = true →
     Http.success (Admin.unbanUser userId db).1 = true
     ∧ users (Admin.unbanUser userId db).2 !! userId
       = Some (User.set_isBanned false user)).
Proof.
  intros Hu. split; [|split].
  - unfold Admin.banUser. destruct (negb _); [discriminate|]. rewrite Hu.
    destruct (User.isBanned user) eqn:Hb; [discriminate|].
    destruct (User.isAdmin user); [discriminate|]. intros _.
    unfold Admin.unbanUser, User.save. cbn [snd users set_users].
    rewrite lookup_insert_eq. cbn [User.isBanned User.set_isBanned negb].
    f_equal. destruct db as [us sw nt am]. unfold set_users.
    cbn [users swapRequests notifications adminMessages] in *. f_equal.
    rewrite insert_insert_eq. apply insert_id.
    rewrite Hu. f_equal. destruct user; cbn in *; by subst.
  - intros Hb. unfold Admin.unbanUser. by rewrite Hu, Hb.
  - intros Hb. unfold Admin.unbanUser. rewrite Hu, Hb. cbn.
    split; [done|]. apply lookup_insert_eq.
Qed.

(** B is banned and unbanned. *)
Lemma ban_unban_round_trip_witness :
  users Example.db0 !! 2%N = Some Example.userB
  ∧ Http.success (Admin.banUser None 2 Example.db0).1 = true
  ∧ Admin.unbanUser 2 (Admin.banUser None 2 Example.db0).2
    = (Http.json 200 true "User unbanned successfully", Example.db0).
Proof.
  assert (H : users Example.db0 !! 2%N = Some Example.userB) by (vm_compute; reflexivity).
  assert (H' : Http.success (Admin.banUser None 2 Example.db0).1 = true)
    by (vm_compute; reflexivity).
  split; [exact H|]. split; [exact H'|].
  exact (proj1 (ban_unban_round_trip None 2 Example.db0 Example.userB H) H').
Defined.

(** X18.  The role route always succeeds on a stored user and writes the
    admin flag only; in particular it promotes a banned user, so that,
    although a ban on an administrator is refused, banning a member and
    then promoting them leaves a banned administrator in the store. *)
Theorem promote_after_ban (reason : option string) (userId : ObjectId) (db : Db)
    (user : User.t) :
  users db !! userId = Some user →
  (∀ b, Http.success (AdminMessages.changeRole b userId db).1 = true
        ∧ (AdminMessages.changeRole b userId db).2
          = set_users (<[userId := AdminMessages.set_isAdmin b user]> (users db)) db)
  ∧ (Http.success (Admin.banUser reason userId db).1 = true →
     ∃ u', users (AdminMessages.changeRole true userId
                    (Admin.banUser reason userId db).2).2 !! userId = Some u'
           ∧ User.isAdmin u' = true ∧ User.isBanned u' = true).
Proof.
  intros Hu. split.
  - intros b. unfold AdminMessages.changeRole. rewrite Hu. by cbn.
  - unfold Admin.banUser. destruct (negb _); [discriminate|]. rewrite Hu.
    destruct (User.isBanned user); [discriminate|].
    destruct (User.isAdmin user); [discriminate|]. intros _.
    unfold AdminMessages.changeRole, User.save. cbn [snd users set_users].
    rewrite lookup_insert_eq. cbn [snd users set_users].
    eexists. split; [apply lookup_insert_eq|]. by cbn.
Qed.

(** B is banned, then made an administrator. *)
Lemma promote_after_ban_witness :
  users Example.db0 !! 2%N = Some Example.userB
  ∧ Http.success (Admin.banUser None 2 Example.db0).1 = true
  ∧ ∃ u', users (AdminMessages.changeRole true 2
                   (Admin.banUser None 2 Example.db0).2).2 !! 2%N = Some u'
          ∧ User.isAdmin u' = true ∧ User.isBanned u' = true.
Proof.
  assert (H : users Example.db0 !! 2%N = Some Example.userB) by (vm_compute; reflexivity).
  assert (H' : Http.success (Admin.banUser None 2 Example.db0).1 = true)
    by (vm_compute; reflexivity).
  split; [exact H|]. split; [exact H'|].
  exact (proj2 (promote_after_ban None 2 Example.db0 Example.userB H) H').
Defined.

(** ** Admin messages: creation and deletion *)

Lemma getUnreadCount_notify (u : ObjectId) (title message : string) (id : ObjectId)
    (rs : list ObjectId) (coll : list Notification.t) :
  NotificationStatics.getUnreadCount u (coll ++ (AdminMessages.notify title message id <$> rs))
  = NotificationStatics.getUnreadCount u coll + length (List.filter (λ t, (t =? u)%N) rs).
Proof.
  unfold NotificationStatics.getUnreadCount. rewrite List.filter_app, length_app.
  f_equal. induction rs as [|r rs IH]; [done|]. cbn.
  destruct (r =? u)%N; cbn; by rewrite IH.
Qed.

Lemma count_NoDup (u : ObjectId) (rs : list ObjectId) :
  NoDup rs →
  length (List.filter (λ t, (t =? u)%N) rs) = if decide (u ∈ rs) then 1 else 0.
Proof.
  induction 1 as [|r rs Hnot Hnd IH]; [done|]. cbn [List.filter].
  destruct (N.eqb_spec r u) as [->|Hne]; cbn [length]; rewrite IH;
    destruct (decide (u ∈ rs)) as [Hin|Hin], (decide (u ∈ _ :: rs)) as [Hin'|Hin'];
    try done.
  - destruct Hin'. by left.
  - destruct Hin'. by right.
  - apply elem_of_cons in Hin' as [->|?]; done.
Qed.

Lemma insertMany_notify (title message : string) (id : ObjectId) (rs : list ObjectId)
    (coll : list Notification.t) :
  isLength 1 100 title = true → isLength 1 500 message = true →
  NotificationStatics.insertMany (AdminMessages.notify title message id <$> rs) coll
  = Some (coll ++ (AdminMessages.notify title message id <$> rs)).
Proof.
  intros Ht Hm. unfold NotificationStatics.insertMany.
  rewrite (proj2 (forallb_forall _ _)); [done|].
  intros n (r & -> & _)%list_elem_of_In%list_elem_of_fmap.
  unfold NotificationStatics.valid. cbn. by rewrite Ht, Hm.
Qed.

Lemma fan_out_global (db : Db) (u : ObjectId) :
  length (List.filter (λ t, (t =? u)%N)
            (List.filter (λ d : ObjectId * User.t, bool_decide (User.isBanned d.2 = false))
               (map_to_list (users db))).*1)
  = match users db !! u with
    | Some user => if User.isBanned user then 0 else 1
    | None => 0
    end.
Proof.
  rewrite count_NoDup.
  2: { eapply (sublist_NoDup _ (map_to_list (users db)).*1);
         [apply NoDup_fst_map_to_list|apply fmap_sublist].
       induction (map_to_list (users db)) as [|d l IH]; [done|]. cbn.
       destruct (bool_decide _); by constructor. }
  assert (u ∈ (List.filter (λ d : ObjectId * User.t,
                              bool_decide (User.isBanned d.2 = false))
                 (map_to_list (users db))).*1
          ↔ ∃ user, users db !! u = Some user ∧ User.isBanned user = false) as Hin.
  { rewrite list_elem_of_fmap. split.
    - intros ([u' user] & -> & Hin). exists user.
      apply list_elem_of_In, filter_In in Hin as [Hin Hb].
      apply list_elem_of_In, elem_of_map_to_list in Hin.
      by apply bool_decide_eq_true in Hb.
    - intros (user & Hu & Hb). exists (u, user). split; [done|].
      apply list_elem_of_In, filter_In. split.
      + by apply list_elem_of_In, elem_of_map_to_list.
      + by apply bool_decide_eq_true. }
  destruct (users db !! u) as [user|] eqn:Hu.
  - destruct (User.isBanned user) eqn:Hb.
    + rewrite decide_False; [done|]. rewrite Hin. intros (? & [= <-] & ?). congruence.
    + rewrite decide_True; [done|]. rewrite Hin. eauto.
  - rewrite decide_False; [done|]. rewrite Hin. by intros (? & ? & _).
Qed.

(** X19.  A valid create-message call whose trimmed text has at most 500
    characters is answered 201, stores the message, trimmed and active,
    under a fresh id, and appends notifications that are unread, of type
    [admin_message], carry the message's title and text and point to the
    message: for a global message one for every user who is not banned
    (the target list is ignored), otherwise one per entry of the target
    list, whether or not that entry is a stored or an unbanned user. *)
Theorem createMessage_fan_out (now : Z) (caller : ObjectId) (title message : string)
    (type : AdminMessage.Type_) (isGlobal : option bool)
    (targetUsers : option (list ObjectId)) (expiresAt : option Z) (db : Db) :
  valid_message title message →
  String.length (trim message) ≤ 500 →
  let res := (AdminMessages.createMessage now caller title message type isGlobal
                targetUsers expiresAt db).1 in
  let db' := (AdminMessages.createMessage now caller title message type isGlobal
                targetUsers expiresAt db).2 in
  Http.status res = 201%Z
  ∧ (∃ id m added,
       adminMessages db !! id = None
       ∧ adminMessages db' = <[id := m]> (adminMessages db)
       ∧ AdminMessage.title m = trim title
       ∧ AdminMessage.message m = trim message
       ∧ AdminMessage.isActive m = true
       ∧ AdminMessage.expiresAt m = expiresAt
       ∧ notifications db' = notifications db ++ added
       ∧ Forall (λ n, Notification.type n = Notification.admin_message
                      ∧ Notification.title n = trim title
                      ∧ Notification.message n = trim message
                      ∧ Notification.isRead n = false
                      ∧ Notification.relatedId n = Some id
                      ∧ Notification.relatedModel n = Some Notification.AdminMessage)
           added
       ∧ ∀ u, length (List.filter (λ n, (Notification.userId n =? u)%N) added)
              = fan_out isGlobal targetUsers db u)
  ∧ ∀ u, NotificationStatics.getUnreadCount u (notifications db')
         = NotificationStatics.getUnreadCount u (notifications db)
           + fan_out isGlobal targetUsers db u.
Proof.
  intros [Ht Hm] Hlen. cbv zeta. unfold AdminMessages.createMessage.
  rewrite Ht, Hm. cbn [andb negb]. cbv zeta.
  assert (isLength 1 500 (trim message) = true) as Hm'.
  { unfold isLength in *. apply andb_true_iff in Hm as [Hm1 _].
    rewrite Hm1. by apply Nat.leb_le. }
  rewrite (insertMany_notify _ _ _ _ _ Ht Hm'). cbn [fst snd Http.status].
  split; [done|]. split.
  - eexists _, _, _. split; [apply not_elem_of_dom, is_fresh|].
    split; [reflexivity|].
    cbn [notifications AdminMessages.set_adminMessages set_notifications users
         AdminMessage.title AdminMessage.message AdminMessage.isActive
         AdminMessage.expiresAt].
    do 5 (split; [reflexivity|]). split.
    + apply Forall_fmap, Forall_forall. intros r _. by cbn.
    + intros u. unfold fan_out.
      match goal with
      | |- context [AdminMessages.notify ?a ?b ?c <$> ?rs] =>
          assert (∀ l, length (List.filter (λ n, (Notification.userId n =? u)%N)
                                 (AdminMessages.notify a b c <$> l))
                       = length (List.filter (λ t, (t =? u)%N) l)) as ->
      end.
      { induction l as [|r l IH]; [done|]. cbn.
        destruct (r =? u)%N; cbn; by rewrite IH. }
      destruct (default false isGlobal); [apply fan_out_global|done].
  - intros u. cbn [notifications AdminMessages.set_adminMessages set_notifications users].
    rewrite getUnreadCount_notify. f_equal. unfold fan_out.
    destruct (default false isGlobal); [apply fan_out_global|done].
Qed.

(** The administrator D posts a global welcome with target list [3]: A, B
    and D are notified; C, who is banned, is not. *)
Lemma createMessage_fan_out_witness :
  valid_message "Welcome" "Hello"
  ∧ String.length (trim "Hello") ≤ 500
  ∧ NotificationStatics.getUnreadCount 3
      (notifications (AdminMessages.createMessage 100 4 "Welcome" "Hello"
                        AdminMessage.announcement (Some true) (Some [3%N]) None
                        Example.db0).2)
    = NotificationStatics.getUnreadCount 3 (notifications Example.db0)
      + fan_out (Some true) (Some [3%N]) Example.db0 3.
Proof.
  assert (H : valid_message "Welcome" "Hello") by (split; reflexivity).
  assert (H' : String.length (trim "Hello") ≤ 500) by (vm_compute; lia).
  split; [exact H|]. split; [exact H'|].
  exact (proj2 (proj2 (createMessage_fan_out 100 4 "Welcome" "Hello"
                         AdminMessage.announcement (Some true) (Some [3%N]) None
                         Example.db0 H H')) 3%N).
Defined.

(** X20.  A valid create-message call whose trimmed text is longer than
    500 characters (up to 1000 pass the route's validation) and which has at
    least one recipient is answered 500, although the message has been
    stored: the notification schema admits 500 characters, so no
    notification is inserted. *)
Theorem createMessage_long_text (now : Z) (caller : ObjectId) (title message : string)
    (type : AdminMessage.Type_) (isGlobal : option bool)
    (targetUsers : option (list ObjectId)) (expiresAt : option Z) (db : Db) (u : ObjectId) :
  valid_message title message →
  500 < String.length (trim message) →
  0 < fan_out isGlobal targetUsers db u →
  let res := (AdminMessages.createMessage now caller title message type isGlobal
                targetUsers expiresAt db).1 in
  let db' := (AdminMessages.createMessage now caller title message type isGlobal
                targetUsers expiresAt db).2 in
  res = Http.json 500 false "Server error"
  ∧ notifications db' = notifications db
  ∧ ∃ id m, adminMessages db !! id = None
            ∧ adminMessages db' = <[id := m]> (adminMessages db)
            ∧ AdminMessage.message m = trim message
            ∧ AdminMessage.isActive m = true.
Proof.
  intros [Ht Hm] Hlen Hfan. cbv zeta. unfold AdminMessages.createMessage.
  rewrite Ht, Hm. cbn [andb negb]. cbv zeta.
  set (rs := if default false isGlobal then _ else _).
  assert (∃ r rs', rs = r :: rs') as (r & rs' & ->).
  { unfold fan_out in Hfan. subst rs.
    cbn [users AdminMessages.set_adminMessages].
    destruct (default false isGlobal).
    - destruct (users db !! u) as [user|] eqn:Hu; [|lia].
      destruct (User.isBanned user) eqn:Hb; [lia|].
      assert ((u, user) ∈ List.filter (λ d : ObjectId * User.t,
                                         bool_decide (User.isBanned d.2 = false))
                            (map_to_list (users db))) as Hin.
      { apply list_elem_of_In, filter_In. split.
        - by apply list_elem_of_In, elem_of_map_to_list.
        - by apply bool_decide_eq_true. }
      destruct (List.filter _ _) as [|d l]; [by apply elem_of_nil in Hin|].
      rewrite fmap_cons. eauto.
    - destruct (default [] targetUsers) as [|t l]; [cbn in Hfan; lia|eauto]. }
  unfold NotificationStatics.insertMany. rewrite fmap_cons. cbn [forallb].
  assert (NotificationStatics.valid
            (AdminMessages.notify (trim title) (trim message) (fresh (dom (adminMessages db))) r)
          = false) as ->.
  { unfold NotificationStatics.valid, isLength. cbn.
    rewrite (proj2 (Nat.leb_gt _ _) Hlen). by rewrite !andb_false_r. }
  cbn [andb fst snd]. split; [done|]. split; [done|].
  eexists _, _. split; [apply not_elem_of_dom, is_fresh|].
  split; [reflexivity|]. by cbn.
Qed.

(** A global message of 1000 characters. *)
Lemma createMessage_long_text_witness :
  valid_message "Welcome" Example2.long_text
  ∧ 500 < String.length (trim Example2.long_text)
  ∧ 0 < fan_out (Some true) None Example.db0 1
  ∧ (AdminMessages.createMessage 100 4 "Welcome" Example2.long_text
       AdminMessage.announcement (Some true) None None Example.db0).1
    = Http.json 500 false "Server error".
Proof.
  assert (H : valid_message "Welcome" Example2.long_text)
    by (split; vm_compute; reflexivity).
  assert (H' : 500 < String.length (trim Example2.long_text))
    by (apply Nat.ltb_lt; vm_compute; reflexivity).
  assert (H'' : 0 < fan_out (Some true) None Example.db0 1)
    by (apply Nat.ltb_lt; vm_compute; reflexivity).
  split; [exact H|]. split; [exact H'|]. split; [exact H''|].
  exact (proj1 (createMessage_long_text 100 4 "Welcome" Example2.long_text
                  AdminMessage.announcement (Some true) None None Example.db0 1
                  H H' H'')).
Defined.

Lemma activeMessagesForUser_lookup (now : Z) (u id : ObjectId)
    (m : AdminMessage.t) (coll : gmap N AdminMessage.t) :
  (id, m) ∈ AdminMessage.getActiveMessagesForUser now u coll → coll !! id = Some m.
Proof.
  unfold AdminMessage.getActiveMessagesForUser, AdminMessage.find.
  rewrite merge_sort_Permutation. intros [Hin _]%list_elem_of_In%filter_In.
  by apply list_elem_of_In, elem_of_map_to_list in Hin.
Qed.

(** X21.  Deleting a message removes it from the store and from what
    [getActiveMessagesForUser] returns, but keeps every notification, those
    about the deleted message included; deleting an id that is not stored
    is answered 404 and changes nothing. *)
Theorem deleteMessage_keeps_notifications (id : ObjectId) (db : Db) :
  notifications (AdminMessages.deleteMessage id db).2 = notifications db
  ∧ adminMessages (AdminMessages.deleteMessage id db).2 !! id = None
  ∧ (∀ now u m, (id, m) ∉ AdminMessage.getActiveMessagesForUser now u
                            (adminMessages (AdminMessages.deleteMessage id db).2))
  ∧ (∀ id', id' ≠ id →
       adminMessages (AdminMessages.deleteMessage id db).2 !! id'
       = adminMessages db !! id')
  ∧ (adminMessages db !! id = None →
     AdminMessages.deleteMessage id db
     = (Http.json 404 false "Admin message not found", db)).
Proof.
  unfold AdminMessages.deleteMessage.
  destruct (adminMessages db !! id) as [m|] eqn:Hm; cbn [fst snd].
  - cbn [notifications adminMessages AdminMessages.set_adminMessages].
    split; [done|]. split; [apply lookup_delete_eq|]. split; [|split; [|done]].
    + intros now u m' Hin.
      apply activeMessagesForUser_lookup in Hin.
      by rewrite lookup_delete_eq in Hin.
    + intros id' Hne. by apply lookup_delete_ne.
  - split; [done|]. split; [done|]. split; [|split; [done|done]].
    intros now u m' Hin.
    apply activeMessagesForUser_lookup in Hin. congruence.
Qed.

Lemma activeMessagesForUser_elem (now : Z) (u id : ObjectId) (m : AdminMessage.t)
    (coll : gmap N AdminMessage.t) :
  (id, m) ∈ AdminMessage.getActiveMessagesForUser now u coll
  ↔ coll !! id = Some m ∧ visible_future now m.
Proof.
  unfold AdminMessage.getActiveMessagesForUser, AdminMessage.find.
  rewrite merge_sort_Permutation, getActiveMessagesForUser_filter_eq.
  rewrite list_elem_of_In, filter_In, <- list_elem_of_In, elem_of_map_to_list.
  cbn [snd]. by rewrite matches_active_unexpired.
Qed.

Lemma cleanupExpired_lookup (now : Z) (coll : gmap N AdminMessage.t) (id : ObjectId) :
  AdminMessageStatics.cleanupExpired now coll !! id
  = (λ m, if from_option (λ e, (e <? now)%Z) false (AdminMessage.expiresAt m)
             && AdminMessage.isActive m
          then AdminMessageStatics.set_isActive false m else m) <$> coll !! id.
Proof. unfold AdminMessageStatics.cleanupExpired. apply lookup_fmap. Qed.

(** X22.  After [cleanupExpired] no stored message is both active and
    expired; the clean-up changes the active flag of expired messages only,
    so what [shouldShow] says of each message at that time, and what
    [getActiveMessagesForUser] returns, are as before; and a second
    clean-up at the same time changes nothing. *)
Theorem cleanupExpired_hides_nothing_new (now : Z) (coll : gmap N AdminMessage.t) :
  let cleaned := AdminMessageStatics.cleanupExpired now coll in
  (∀ id m, cleaned !! id = Some m →
           ¬ (AdminMessage.isActive m = true ∧ AdminMessage.isExpired now m = true))
  ∧ (∀ id, AdminMessage.shouldShow now <$> cleaned !! id
           = AdminMessage.shouldShow now <$> coll !! id)
  ∧ (∀ u id m, (id, m) ∈ AdminMessage.getActiveMessagesForUser now u cleaned
               ↔ (id, m) ∈ AdminMessage.getActiveMessagesForUser now u coll)
  ∧ AdminMessageStatics.cleanupExpired now cleaned = cleaned.
Proof.
  cbv zeta. split; [|split; [|split]].
  - intros id m. rewrite cleanupExpired_lookup.
    destruct (coll !! id) as [m0|]; [|discriminate]. cbn. intros [= <-].
    unfold AdminMessage.isExpired.
    destruct (AdminMessage.expiresAt m0) as [e|] eqn:He,
      (AdminMessage.isActive m0) eqn:Ha; cbn;
      try destruct (e <? now)%Z eqn:Hlt; cbn; rewrite ?He, ?Ha, ?Hlt;
      intros [? ?]; congruence.
  - intros id. rewrite cleanupExpired_lookup.
    destruct (coll !! id) as [m0|]; [|done]. cbn. f_equal.
    unfold AdminMessage.shouldShow, AdminMessage.isExpired.
    destruct (AdminMessage.expiresAt m0) as [e|] eqn:He,
      (AdminMessage.isActive m0) eqn:Ha; cbn;
      try destruct (e <? now)%Z eqn:Hlt; cbn; rewrite ?He, ?Ha, ?Hlt; done.
  - intros u id m. rewrite !activeMessagesForUser_elem, cleanupExpired_lookup.
    unfold visible_future. destruct (coll !! id) as [m0|]; cbn; [|by split; intros []].
    destruct (AdminMessage.expiresAt m0) as [e|] eqn:He,
      (AdminMessage.isActive m0) eqn:Ha; cbn;
      try destruct (Z.ltb_spec e now) as [Hlt|Hlt]; cbn.
    all: split; intros [[= <-] [Hact Hexp]]; cbn in *;
      rewrite ?He, ?Ha in *; try discriminate.
    all: try (split; [done|split; [done|exact Hexp]]).
    all: destruct Hexp as [?|(e' & [= <-] & ?)]; [discriminate|lia].
  - apply map_eq. intros id. rewrite !cleanupExpired_lookup.
    destruct (coll !! id) as [m0|]; [|done]. cbn. f_equal.
    destruct (AdminMessage.expiresAt m0) as [e|] eqn:He,
      (AdminMessage.isActive m0) eqn:Ha; cbn;
      try destruct (e <? now)%Z eqn:Hlt; cbn; rewrite ?He, ?Ha, ?Hlt; cbn;
      rewrite ?He, ?Ha, ?Hlt, ?andb_false_r; cbn; try done.
Qed.

Lemma shouldShow_visible (now : Z) (m : AdminMessage.t) :
  visible_not_past now m → AdminMessage.shouldShow now m = true.
Proof.
  unfold AdminMessage.shouldShow, AdminMessage.isExpired, visible_not_past.
  intros [-> Hexp]. cbn.
  destruct (AdminMessage.expiresAt m) as [e|]; [|done].
  destruct Hexp as [?|(e' & [= <-] & ?)]; [discriminate|].
  apply negb_true_iff, Z.ltb_ge. lia.
Qed.

#[local] Instance message_newest_first_trans : Transitive AdminMessage.newest_first.
Proof. unfold AdminMessage.newest_first. intros a b c. lia. Qed.

#[local] Instance message_newest_first_total : Total AdminMessage.newest_first.
Proof. unfold AdminMessage.newest_first. intros a b. lia. Qed.

Lemma matches_global (now : Z) (m : AdminMessage.t) :
  Filter.matches AdminMessage.get (AdminMessage.getActiveGlobalMessages_filter now) m = true
  ↔ AdminMessage.isGlobal m = true ∧ visible_future now m.
Proof.
  unfold AdminMessage.getActiveGlobalMessages_filter, Filter.matches, Filter.object,
    visible_future.
  cbn [foldl fst snd]. rewrite bool_decide_eq_true.
  rewrite map_Forall_insert
    by (by rewrite !lookup_insert_ne, lookup_empty).
  rewrite map_Forall_insert by (by rewrite lookup_insert_ne, lookup_empty).
  rewrite map_Forall_insert by apply lookup_empty.
  unfold Filter.entry.
  change (bool_decide ("$or" = "$or")) with true.
  cbn [andb existsb Filter.clause forallb fst snd].
  change (AdminMessage.get m "isActive") with (Filter.Bool (AdminMessage.isActive m)).
  change (AdminMessage.get m "isGlobal") with (Filter.Bool (AdminMessage.isGlobal m)).
  change (AdminMessage.get m "expiresAt")
    with (from_option Filter.Date Filter.Null (AdminMessage.expiresAt m)).
  destruct (AdminMessage.isActive m), (AdminMessage.isGlobal m),
    (AdminMessage.expiresAt m) as [e|]; cbn.
  all: rewrite ?(bool_decide_eq_false_2 (Filter.Null = Filter.Date e)) by discriminate.
  all: rewrite ?(bool_decide_eq_true_2 (Filter.Bool true = Filter.Bool true)) by done.
  all: rewrite ?(bool_decide_eq_false_2 (Filter.Bool true = Filter.Bool false))
         by discriminate.
  all: rewrite ?(bool_decide_eq_true_2 (Filter.Null = Filter.Null)) by done.
  all: cbn; rewrite ?orb_false_r, ?andb_true_r.
  all: split; [intros (Ho & Hg & Ha & _)|intros (Hg & Ha & Ho)]; try discriminate.
  all: try (split; [done|]; split; [done|]).
  all: try (split; [|split; [done|split; [done|apply map_Forall_empty]]]).
  all: try (right; exists e; split; [done|]; by apply Z.ltb_lt).
  all: try (by left).
  all: try done.
  all: destruct Ho as [?|(e' & [= <-] & ?)]; [discriminate|by apply Z.ltb_lt].
Qed.

(** X23.  [getActiveGlobalMessages] returns exactly the stored messages
    that are global, active and without expiry or with one after [now],
    newest first; each of them is also shown by [shouldShow] and returned
    by [getActiveMessagesForUser] for every user. *)
Theorem getActiveGlobalMessages_exact (now : Z) (coll : gmap N AdminMessage.t) :
  (∀ id m, (id, m) ∈ AdminMessage.getActiveGlobalMessages now coll
           ↔ coll !! id = Some m ∧ AdminMessage.isGlobal m = true ∧ visible_future now m)
  ∧ StronglySorted AdminMessage.newest_first (AdminMessage.getActiveGlobalMessages now coll)
  ∧ (∀ id m, (id, m) ∈ AdminMessage.getActiveGlobalMessages now coll →
             AdminMessage.shouldShow now m = true
             ∧ ∀ u, (id, m) ∈ AdminMessage.getActiveMessagesForUser now u coll).
Proof.
  assert (∀ id m, (id, m) ∈ AdminMessage.getActiveGlobalMessages now coll
                  ↔ coll !! id = Some m ∧ AdminMessage.isGlobal m = true
                    ∧ visible_future now m) as Helem.
  { intros id m. unfold AdminMessage.getActiveGlobalMessages, AdminMessage.find.
    rewrite merge_sort_Permutation.
    rewrite list_elem_of_In, filter_In, <- list_elem_of_In, elem_of_map_to_list.
    cbn [snd]. by rewrite matches_global. }
  split; [exact Helem|]. split.
  - apply StronglySorted_merge_sort; apply _.
  - intros id m (Hm & Hg & Hvis)%Helem. split.
    + apply shouldShow_visible. destruct Hvis as [Ha Hexp]. split; [done|].
      destruct Hexp as [?|(e & ? & ?)]; [by left|right; exists e; split; [done|lia]].
    + intros u. by apply activeMessagesForUser_elem.
Qed.

Lemma sum_counts_nonzero {A} (l : list (A * nat * nat)) :
  sum_list ((λ g, g.1.2) <$> List.filter (λ g : A * nat * nat, (0 <? g.1.2)%nat) l)
  = sum_list ((λ g, g.1.2) <$> l).
Proof.
  induction l as [|[[a n] k] l IH]; [done|].
  cbn [List.filter]. change ((a, n, k).1.2) with n.
  destruct n as [|n];
    [change (0 <? 0)%nat with false | change (0 <? S n)%nat with true];
    rewrite !fmap_cons; cbn [sum_list fst snd]; rewrite IH; reflexivity.
Qed.

Lemma sum_active_nonzero {A} (l : list (A * nat * nat)) :
  Forall (λ g, g.2 ≤ g.1.2) l →
  sum_list ((λ g, g.2) <$> List.filter (λ g : A * nat * nat, (0 <? g.1.2)%nat) l)
  = sum_list ((λ g, g.2) <$> l).
Proof.
  induction 1 as [|[[a n] k] l Hle _ IH]; [done|].
  cbn [List.filter]. change ((a, n, k).1.2) with n. cbn [fst snd] in Hle.
  destruct n as [|n];
    [change (0 <? 0)%nat with false | change (0 <? S n)%nat with true];
    rewrite !fmap_cons; cbn [sum_list fst snd id]; rewrite IH; lia.
Qed.

Lemma filter_length_le {A} (p : A → bool) (l : list A) :
  length (List.filter p l) ≤ length l.
Proof. induction l as [|x l IH]; cbn; [lia|]. destruct (p x); cbn; lia. Qed.

Lemma count_by_type (p : ObjectId * AdminMessage.t → bool)
    (docs : list (ObjectId * AdminMessage.t)) :
  let count ty :=
    length (List.filter p
              (List.filter (λ d : ObjectId * AdminMessage.t,
                              bool_decide (AdminMessage.type d.2 = ty)) docs)) in
  count AdminMessage.info + count AdminMessage.warning + count AdminMessage.announcement
  + count AdminMessage.maintenance = length (List.filter p docs).
Proof.
  cbv zeta. induction docs as [|d docs IH]; [done|].
  cbn [List.filter]. destruct (AdminMessage.type d.2);
    repeat (first [rewrite bool_decide_eq_true_2 by reflexivity
                  |rewrite bool_decide_eq_false_2 by discriminate]);
    cbn [List.filter]; destruct (p d); cbn [length]; lia.
Qed.

Lemma counts_as_active_visible (now : Z) (m : AdminMessage.t) :
  AdminMessageStatics.counts_as_active now m = true ↔ visible_future now m.
Proof.
  unfold AdminMessageStatics.counts_as_active, visible_future.
  rewrite andb_true_iff.
  destruct (AdminMessage.expiresAt m) as [e|]; cbn; rewrite ?Z.ltb_lt.
  - split; intros [Ha He]; (split; [done|]).
    + right. by exists e.
    + by destruct He as [?|(e' & [= <-] & ?)].
  - split; intros [Ha _]; (split; [done|]); [by left|done].
Qed.

(** X24.  [AdminMessage.getStats] has one group per message type that
    occurs; in each group the active count is at most the count; the
    counts add up to the number of stored messages, and the active counts
    add up to the number of messages [getActiveMessagesForUser] returns at
    that time, for whichever user. *)
Theorem message_getStats_totals (now : Z) (coll : gmap N AdminMessage.t) :
  let stats := AdminMessageStatics.getStats now coll in
  NoDup ((λ g, g.1.1) <$> stats)
  ∧ (∀ ty, ty ∈ ((λ g, g.1.1) <$> stats)
           ↔ ∃ id m, coll !! id = Some m ∧ AdminMessage.type m = ty)
  ∧ (∀ ty n a, (ty, n, a) ∈ stats → 0 < n ∧ a ≤ n)
  ∧ sum_list ((λ g, g.1.2) <$> stats) = size coll
  ∧ ∀ u, sum_list ((λ g, g.2) <$> stats)
         = length (AdminMessage.getActiveMessagesForUser now u coll).
Proof.
  cbv zeta. unfold AdminMessageStatics.getStats.
  set (docs := map_to_list coll).
  set (f := λ ty : AdminMessage.Type_, _).
  assert (Forall (λ g : AdminMessage.Type_ * nat * nat, g.2 ≤ g.1.2)
            (f <$> AdminMessageStatics.types)) as Hle.
  { apply Forall_fmap, Forall_forall. intros ty _. unfold f. cbn.
    apply filter_length_le. }
  split; [|split; [|split; [|split]]].
  - unfold AdminMessageStatics.types.
    rewrite !fmap_cons, fmap_nil. cbn [List.filter].
    repeat match goal with
           | |- context [(0 <? ?n)%nat] => destruct (0 <? n)%nat
           end;
      rewrite ?fmap_cons, ?fmap_nil; cbn [fst];
      apply (bool_decide_unpack _); vm_compute; reflexivity.
  - intros ty. rewrite list_elem_of_fmap. split.
    + intros ([[ty' n] a] & -> & Hin).
      apply list_elem_of_In, filter_In in Hin as [Hin Hpos].
      apply list_elem_of_In, list_elem_of_fmap in Hin as (ty'' & [= -> -> ->] & _).
      cbn [fst snd] in Hpos |- *. apply Nat.ltb_lt in Hpos.
      destruct (List.filter _ docs) as [|[id m] rest] eqn:Hf; [cbn in Hpos; lia|].
      assert ((id, m) ∈ List.filter
                (λ d : ObjectId * AdminMessage.t,
                   bool_decide (AdminMessage.type d.2 = ty'')) docs) as Hd
        by (rewrite Hf; left).
      apply list_elem_of_In, filter_In in Hd as [Hd Hty].
      apply list_elem_of_In, elem_of_map_to_list in Hd.
      apply bool_decide_eq_true in Hty. by exists id, m.
    + intros (id & m & Hm & Hty). exists (f ty). split; [done|].
      apply list_elem_of_In, filter_In. split.
      * apply list_elem_of_In, list_elem_of_fmap. exists ty. split; [done|].
        unfold AdminMessageStatics.types. destruct ty; repeat constructor.
      * apply Nat.ltb_lt. unfold f. cbn [fst snd].
        assert ((id, m) ∈ List.filter
                  (λ d : ObjectId * AdminMessage.t,
                     bool_decide (AdminMessage.type d.2 = ty)) docs) as Hd.
        { apply list_elem_of_In, filter_In. split.
          - by apply list_elem_of_In, elem_of_map_to_list.
          - by apply bool_decide_eq_true. }
        destruct (List.filter _ docs); [by apply elem_of_nil in Hd|cbn; lia].
  - intros ty n a Hin. apply list_elem_of_In, filter_In in Hin as [Hin Hpos].
    apply Nat.ltb_lt in Hpos. cbn [fst snd] in Hpos. split; [done|].
    apply list_elem_of_In in Hin.
    by apply (proj1 (Forall_forall _ _) Hle) in Hin.
  - rewrite sum_counts_nonzero. unfold AdminMessageStatics.types.
    rewrite !fmap_cons, !fmap_nil. unfold f. cbn [sum_list fst snd id].
    pose proof (count_by_type (λ _, true) docs) as Hc. cbv zeta in Hc.
    assert (∀ l : list (ObjectId * AdminMessage.t), List.filter (λ _, true) l = l) as Hid
      by (induction l as [|x l IH]; cbn; congruence).
    rewrite !Hid in Hc. unfold docs in *. rewrite length_map_to_list in Hc. lia.
  - intros u. rewrite (sum_active_nonzero _ Hle). unfold AdminMessageStatics.types.
    rewrite !fmap_cons, !fmap_nil. unfold f. cbn [sum_list fst snd id].
    pose proof (count_by_type
                  (λ d, AdminMessageStatics.counts_as_active now d.2) docs) as Hc.
    cbv zeta in Hc.
    unfold AdminMessage.getActiveMessagesForUser, AdminMessage.find.
    rewrite merge_sort_Permutation, getActiveMessagesForUser_filter_eq.
    fold docs.
    rewrite (filter_ext (λ d : ObjectId * AdminMessage.t, Filter.matches _ _ d.2)
               (λ d, AdminMessageStatics.counts_as_active now d.2)).
    + lia.
    + intros [id m]. cbn [snd]. apply eq_true_iff_eq.
      by rewrite matches_active_unexpired, counts_as_active_visible.
Qed.

(** X25.  [extendExpiration], called with a whole number of days on a
    message whose expiry is a date, counts from the present expiry even
    when that is in the past, and from [now] only when there is none.  When
    the result is a date, within 8.64e15 milliseconds of the epoch, it is
    stored: afterwards the message is shown at a time [t] exactly when it
    is active and [t] is not after the old expiry (or [now]) plus [days]
    days, so a message without expiry gets one, and two extensions add
    their days up.  When it is not, the call fails and nothing is
    stored. *)
Theorem extendExpiration_counts_from_expiry (now days : Z) (id : ObjectId)
    (m : AdminMessage.t) (coll : gmap N AdminMessage.t) :
  AdminMessageStatics.validDate now = true →
  from_option AdminMessageStatics.validDate true (AdminMessage.expiresAt m) = true →
  let until := (default now (AdminMessage.expiresAt m) + days * 86400000)%Z in
  (AdminMessageStatics.validDate until = false →
     AdminMessageStatics.extendExpiration now days id m coll = None)
  ∧ (AdminMessageStatics.validDate until = true →
     ∃ m' coll',
       AdminMessageStatics.extendExpiration now days id m coll = Some (m', coll')
       ∧ coll' !! id = Some m'
       ∧ (∀ j, j ≠ id → coll' !! j = coll !! j)
       ∧ AdminMessage.expiresAt m' = Some until
       ∧ (∀ t, AdminMessage.shouldShow t m' = AdminMessage.isActive m && (t <=? until)%Z)
       ∧ ∀ now2 days2,
           AdminMessageStatics.validDate (until + days2 * 86400000) = true →
           ∃ m'' coll'',
             AdminMessageStatics.extendExpiration now2 days2 id m' coll'
             = Some (m'', coll'')
             ∧ AdminMessage.expiresAt m'' = Some (until + days2 * 86400000)%Z).
Proof.
  intros _ _. cbv zeta. unfold AdminMessageStatics.extendExpiration.
  assert (match AdminMessage.expiresAt m with
          | Some e => e + days * 24 * 60 * 60 * 1000
          | None => now + days * 24 * 60 * 60 * 1000
          end = default now (AdminMessage.expiresAt m) + days * 86400000)%Z as ->
    by (destruct (AdminMessage.expiresAt m); cbn; lia).
  split; [by intros ->|]. intros ->. unfold AdminMessageStatics.save.
  eexists _, _. split; [reflexivity|]. split; [apply lookup_insert_eq|].
  split; [by intros j Hj; apply lookup_insert_ne|]. split; [done|]. split.
  - intros t. unfold AdminMessage.shouldShow, AdminMessage.isExpired. cbn.
    f_equal. by rewrite Z.leb_antisym.
  - intros now2 days2 Hv.
    cbn [AdminMessage.expiresAt AdminMessageStatics.set_expiresAt].
    replace (default now (AdminMessage.expiresAt m) + days * 86400000
             + days2 * 24 * 60 * 60 * 1000)%Z
      with (default now (AdminMessage.expiresAt m) + days * 86400000
            + days2 * 86400000)%Z by lia.
    rewrite Hv. eexists _, _. split; [reflexivity|]. done.
Qed.

(** The scenario's notice cannot be extended by 100000001 days. *)
Lemma extendExpiration_counts_from_expiry_witness :
  AdminMessageStatics.validDate 2000 = true
  ∧ from_option AdminMessageStatics.validDate true
      (AdminMessage.expiresAt Example.notice) = true
  ∧ AdminMessageStatics.validDate
      (default 2000 (AdminMessage.expiresAt Example.notice) + 100000001 * 86400000)%Z
    = false
  ∧ AdminMessageStatics.extendExpiration 2000 100000001 0 Example.notice Example.board
    = None.
Proof.
  assert (H1 : AdminMessageStatics.validDate 2000 = true) by reflexivity.
  assert (H2 : from_option AdminMessageStatics.validDate true
                 (AdminMessage.expiresAt Example.notice) = true) by reflexivity.
  assert (H3 : AdminMessageStatics.validDate
                 (default 2000 (AdminMessage.expiresAt Example.notice)
                  + 100000001 * 86400000)%Z = false) by reflexivity.
  split; [exact H1|]. split; [exact H2|]. split; [exact H3|].
  exact (proj1 (extendExpiration_counts_from_expiry 2000 100000001 0 Example.notice
                  Example.board H1 H2) H3).
Defined.

(** X26.  A deactivated message is shown at no time and is in no user's
    list of active messages, whatever its expiry; activating it again shows
    it exactly when it has not expired, and then to every user, whether or
    not the message is global or targets them. *)
Theorem deactivate_then_activate (id : ObjectId) (m : AdminMessage.t)
    (coll : gmap N AdminMessage.t) :
  let off := AdminMessageStatics.deactivate id m coll in
  let on := AdminMessageStatics.activate id off.1 off.2 in
  (∀ t, AdminMessage.shouldShow t off.1 = false)
  ∧ (∀ t u x, (id, x) ∉ AdminMessage.getActiveMessagesForUser t u off.2)
  ∧ (∀ t, AdminMessage.shouldShow t on.1 = negb (AdminMessage.isExpired t m))
  ∧ (∀ t u, (id, on.1) ∈ AdminMessage.getActiveMessagesForUser t u on.2
            ↔ from_option (λ e, t < e)%Z True (AdminMessage.expiresAt m))
  ∧ ∀ j, j ≠ id → on.2 !! j = coll !! j.
Proof.
  cbv zeta. unfold AdminMessageStatics.deactivate, AdminMessageStatics.activate,
    AdminMessageStatics.save. cbn [fst snd].
  split; [done|]. split; [|split; [done|split]].
  - intros t u x. rewrite activeMessagesForUser_elem, lookup_insert_eq.
    intros [[= <-] [Hact _]]. discriminate.
  - intros t u. rewrite activeMessagesForUser_elem, lookup_insert_eq.
    unfold visible_future. cbn.
    destruct (AdminMessage.expiresAt m) as [e|]; cbn.
    + split.
      * by intros (_ & _ & [?|(e' & [= <-] & ?)]).
      * intros He. split; [done|]. split; [done|]. right. by exists e.
    + split; [done|]. intros _. split; [done|]. split; [done|]. by left.
  - intros j Hj. by rewrite !lookup_insert_ne.
Qed.

Lemma forUser_elem (st : SwapRequest.Status) (u id : ObjectId) (s : SwapRequest.t)
    (coll : gmap N SwapRequest.t) :
  (id, s) ∈ SwapRequestStatics.find (SwapRequestStatics.forUser st u) coll
  ↔ coll !! id = Some s
    ∧ (SwapRequest.fromUserId s = u ∨ SwapRequest.toUserId s = u)
    ∧ SwapRequest.status s = st.
Proof.
  unfold SwapRequestStatics.find, SwapRequestStatics.forUser.
  rewrite list_elem_of_In, filter_In, <- list_elem_of_In, elem_of_map_to_list.
  cbn [snd]. by rewrite andb_true_iff, orb_true_iff, !N.eqb_eq, bool_decide_eq_true.
Qed.

(** X27.  On a reachable store, [findCompletedForUser] returns exactly the
    user's requests that carry a completion date; what [findPendingForUser]
    and [findAcceptedForUser] return carries neither a completion date nor
    a rating; and [findPendingForUser] returns at most one request per
    counterparty. *)
Theorem finders_on_reachable_store (db : Db) (u : ObjectId) :
  reachable db →
  let coll := swapRequests db in
  (∀ id s, (id, s) ∈ SwapRequestStatics.findCompletedForUser u coll
           ↔ coll !! id = Some s
             ∧ (SwapRequest.fromUserId s = u ∨ SwapRequest.toUserId s = u)
             ∧ SwapRequest.completedAt s ≠ None)
  ∧ (∀ id s, (id, s) ∈ SwapRequestStatics.findPendingForUser u coll
                       ++ SwapRequestStatics.findAcceptedForUser u coll →
             SwapRequest.completedAt s = None ∧ no_feedback s)
  ∧ (∀ id1 id2 s1 s2,
       (id1, s1) ∈ SwapRequestStatics.findPendingForUser u coll →
       (id2, s2) ∈ SwapRequestStatics.findPendingForUser u coll →
       counterparty s1 u = counterparty s2 u → id1 = id2).
Proof.
  intros Hr. cbv zeta.
  pose proof (reachable_invariant db Hr) as Hinv.
  pose proof (reachable_well_formed db Hr) as Hwf.
  pose proof (reachable_pending_unique db Hr) as Huniq.
  unfold SwapRequestStatics.findCompletedForUser, SwapRequestStatics.findPendingForUser,
    SwapRequestStatics.findAcceptedForUser.
  split; [|split].
  - intros id s. rewrite forUser_elem. split.
    + intros (Hs & Hu & Hst). split; [done|]. split; [done|].
      by apply (Hinv id s Hs).
    + intros (Hs & Hu & Hc). split; [done|]. split; [done|].
      by apply (Hinv id s Hs).
  - intros id s Hin.
    assert (swapRequests db !! id = Some s
            ∧ SwapRequest.status s ≠ SwapRequest.completed) as [Hs Hst].
    { apply elem_of_app in Hin as [Hin|Hin]; apply forUser_elem in Hin
        as (Hs & _ & Hst); (split; [done|]); rewrite Hst; discriminate. }
    split.
    + destruct (SwapRequest.completedAt s) as [c|] eqn:Hc; [|done].
      exfalso. apply Hst, (Hinv id s Hs). by rewrite Hc.
    + pose proof (Hwf id s Hs) as Hrated. unfold well_formed in Hrated.
      cbv beta in Hrated. unfold no_feedback.
      destruct (SwapRequest.fromUserRating (SwapRequest.feedback s)) as [r|] eqn:Hf.
      { exfalso. apply Hst. by apply (Hrated r); left. }
      destruct (SwapRequest.toUserRating (SwapRequest.feedback s)) as [r|] eqn:Ht.
      { exfalso. apply Hst. by apply (Hrated r); right. }
      done.
  - intros id1 id2 s1 s2 (H1 & Hu1 & Hp1)%forUser_elem (H2 & Hu2 & Hp2)%forUser_elem Hcp.
    apply (Huniq id1 id2 s1 s2 H1 H2 Hp1 Hp2).
    unfold counterparty in Hcp. unfold same_pair.
    destruct (decide (u = SwapRequest.fromUserId s1)) as [E1|E1],
      (decide (u = SwapRequest.fromUserId s2)) as [E2|E2].
    + left. split; congruence.
    + right. destruct Hu2 as [?|?]; [congruence|]. split; congruence.
    + right. destruct Hu1 as [?|?]; [congruence|]. split; congruence.
    + left. destruct Hu1 as [?|?]; [congruence|].
      destruct Hu2 as [?|?]; [congruence|]. split; congruence.
Qed.

(** The completed request of the scenario is the one A's completed list
    holds. *)
Lemma finders_on_reachable_store_witness :
  reachable Example.db3
  ∧ ∀ id s, (id, s) ∈ SwapRequestStatics.findCompletedForUser 1
                        (swapRequests Example.db3)
            ↔ swapRequests Example.db3 !! id = Some s
              ∧ (SwapRequest.fromUserId s = 1%N ∨ SwapRequest.toUserId s = 1%N)
              ∧ SwapRequest.completedAt s ≠ None.
Proof.
  split; [exact reachable_db3|].
  exact (proj1 (finders_on_reachable_store Example.db3 1 reachable_db3)).
Defined.

Lemma getUnreadCount_alter (u : ObjectId) (b : bool) (i : nat) (n : Notification.t)
    (coll : list Notification.t) :
  coll !! i = Some n →
  NotificationStatics.getUnreadCount u (alter (NotificationStatics.set_isRead b) i coll)
  + (if (Notification.userId n =? u)%N && negb (Notification.isRead n) then 1 else 0)
  = NotificationStatics.getUnreadCount u coll
    + (if (Notification.userId n =? u)%N && negb b then 1 else 0).
Proof.
  unfold NotificationStatics.getUnreadCount.
  revert i. induction coll as [|x coll IH]; intros [|i] Hi; try discriminate.
  - injection Hi as ->. cbn [alter list_alter List.filter].
    cbn [Notification.userId Notification.isRead NotificationStatics.set_isRead].
    destruct (Notification.userId n =? u)%N, (Notification.isRead n), b;
      cbn [andb negb length]; lia.
  - cbn [alter list_alter List.filter]. specialize (IH i Hi).
    change (list_alter (NotificationStatics.set_isRead b) i coll)
      with (alter (NotificationStatics.set_isRead b) i coll).
    destruct ((Notification.userId x =? u)%N && negb (Notification.isRead x));
      cbn [length]; lia.
Qed.

(** X28.  Marking a stored notification as read lowers its owner's unread
    count by one when it was unread and by nothing when it was read, and
    leaves every other user's count; marking it as unread afterwards gives
    the owner's count one more than after the marking. *)
Theorem markAsRead_counts (i : nat) (n : Notification.t) (coll : list Notification.t) :
  coll !! i = Some n →
  let owner := Notification.userId n in
  let read := NotificationStatics.markAsRead i coll in
  NotificationStatics.getUnreadCount owner read
  = NotificationStatics.getUnreadCount owner coll
    - (if Notification.isRead n then 0 else 1)
  ∧ (∀ u, u ≠ owner → NotificationStatics.getUnreadCount u read
                      = NotificationStatics.getUnreadCount u coll)
  ∧ NotificationStatics.getUnreadCount owner (NotificationStatics.markAsUnread i read)
    = S (NotificationStatics.getUnreadCount owner read).
Proof.
  intros Hn. cbv zeta. unfold NotificationStatics.markAsRead, NotificationStatics.markAsUnread.
  split; [|split].
  - pose proof (getUnreadCount_alter (Notification.userId n) true i n coll Hn) as H.
    rewrite N.eqb_refl in H. destruct (Notification.isRead n); cbn in H |- *; lia.
  - intros u Hu.
    pose proof (getUnreadCount_alter u true i n coll Hn) as H.
    apply N.eqb_neq in Hu. rewrite N.eqb_sym in Hu. rewrite Hu in H. cbn in H. lia.
  - assert (alter (NotificationStatics.set_isRead true) i coll !! i
            = Some (NotificationStatics.set_isRead true n)) as Hn'
      by (by rewrite list_lookup_alter_eq, Hn).
    pose proof (getUnreadCount_alter (Notification.userId n) false i _ _ Hn') as H.
    cbn [Notification.userId Notification.isRead NotificationStatics.set_isRead] in H.
    rewrite N.eqb_refl in H. cbn in H. lia.
Qed.

(** The first notification of the scenario, B's, is read. *)
Lemma markAsRead_counts_witness :
  notifications Example.db1 !! 0%nat
  = Some {| Notification.userId := 2; Notification.type := Notification.swap_request;
            Notification.title := "New Swap Request";
            Notification.message := "You have received a new skill swap request";
            Notification.isRead := false; Notification.relatedId := Some 0%N;
            Notification.relatedModel := Some Notification.SwapRequest;
            Notification.metadata := Some 1%N |}
  ∧ NotificationStatics.getUnreadCount 2
      (NotificationStatics.markAsRead 0 (notifications Example.db1)) = 0.
Proof.
  assert (H : notifications Example.db1 !! 0%nat
              = Some {| Notification.userId := 2;
                        Notification.type := Notification.swap_request;
                        Notification.title := "New Swap Request";
                        Notification.message := "You have received a new skill swap request";
                        Notification.isRead := false; Notification.relatedId := Some 0%N;
                        Notification.relatedModel := Some Notification.SwapRequest;
                        Notification.metadata := Some 1%N |})
    by (vm_compute; reflexivity).
  split; [exact H|].
  exact (proj1 (markAsRead_counts 0 _ (notifications Example.db1) H)).
Defined.

(** ** Popular skills *)

Lemma occurrences_app (s : string) (l1 l2 : list string) :
  PopularSkills.occurrences s (l1 ++ l2)
  = PopularSkills.occurrences s l1 + PopularSkills.occurrences s l2.
Proof. unfold PopularSkills.occurrences. by rewrite List.filter_app, length_app. Qed.

Lemma occurrences_pos (s : string) (l : list string) :
  0 < PopularSkills.occurrences s l ↔ s ∈ l.
Proof.
  unfold PopularSkills.occurrences. split.
  - destruct (List.filter _ l) as [|t r] eqn:Hf; [cbn; lia|]. intros _.
    assert (t ∈ List.filter (λ t, bool_decide (t = s)) l) as Hin by (rewrite Hf; left).
    apply list_elem_of_In, filter_In in Hin as [Hin Ht].
    apply bool_decide_eq_true in Ht as ->. by apply list_elem_of_In.
  - intros Hin.
    assert (s ∈ List.filter (λ t, bool_decide (t = s)) l) as Hf.
    { apply list_elem_of_In, filter_In. split; [by apply list_elem_of_In|].
      by apply bool_decide_eq_true. }
    destruct (List.filter _ l); [by apply elem_of_nil in Hf|cbn; lia].
Qed.

Lemma occurrences_unwind (field : User.t → list string) (coll : gmap N User.t)
    (s : string) :
  PopularSkills.occurrences s (PopularSkills.unwind field coll) = uses field coll s.
Proof.
  unfold PopularSkills.unwind, uses.
  induction (map_to_list coll) as [|d l IH]; [done|].
  rewrite !fmap_cons. cbn [sum_list id].
  change (mjoin (field d.2 :: (field <$> l.*2)))
    with (field d.2 ++ mjoin (field <$> l.*2)).
  by rewrite occurrences_app, IH.
Qed.

#[local] Instance most_frequent_first_trans :
  Transitive PopularSkills.most_frequent_first.
Proof. unfold PopularSkills.most_frequent_first. intros a b c. lia. Qed.

#[local] Instance most_frequent_first_total : Total PopularSkills.most_frequent_first.
Proof. unfold PopularSkills.most_frequent_first. intros a b. lia. Qed.

Lemma popular_top (field : User.t → list string) (k : nat) (coll : gmap N User.t) :
  top_skills k field coll (PopularSkills.popular field k coll).
Proof.
  unfold top_skills, PopularSkills.popular.
  set (occ := PopularSkills.unwind field coll).
  set (G := PopularSkills.group occ).
  set (L := merge_sort PopularSkills.most_frequent_first G).
  assert (L ≡ₚ G) as HLG by apply merge_sort_Permutation.
  assert (StronglySorted PopularSkills.most_frequent_first L) as Hsorted
    by (apply StronglySorted_merge_sort; apply _).
  assert (∀ s n, (s, n) ∈ L ↔ s ∈ occ ∧ n = uses field coll s) as HL.
  { intros s n. rewrite HLG. unfold G, PopularSkills.group.
    rewrite list_elem_of_fmap. setoid_rewrite elem_of_remove_dups.
    rewrite <- (occurrences_unwind field coll s). fold occ. split.
    - by intros (s' & [= -> ->] & Hin).
    - intros [Hin ->]. by exists s. }
  assert (NoDup L.*1) as Hnd.
  { rewrite HLG.
    assert (G.*1 = remove_dups occ) as ->; [|apply NoDup_remove_dups].
    unfold G, PopularSkills.group. rewrite <- list_fmap_compose.
    rewrite <- (list_fmap_id (remove_dups occ)) at 2. by apply list_fmap_ext. }
  assert (∀ x, x ∈ take k L → x ∈ L) as Htake.
  { intros x Hx. rewrite <- (take_drop k L). apply elem_of_app. by left. }
  assert (∀ t, 0 < uses field coll t → t ∉ (take k L).*1 →
               (t, uses field coll t) ∈ drop k L) as Hdrop.
  { intros t Hpos Hnot.
    assert ((t, uses field coll t) ∈ L) as Hin.
    { apply HL. split; [|done]. apply occurrences_pos.
      unfold occ. by rewrite occurrences_unwind. }
    rewrite <- (take_drop k L) in Hin. apply elem_of_app in Hin as [Hin|Hin]; [|done].
    exfalso. apply Hnot, list_elem_of_fmap. by exists (t, uses field coll t). }
  split; [rewrite length_take; lia|]. split; [|split; [|split; [|split]]].
  - eapply sublist_NoDup; [exact Hnd|]. apply fmap_sublist, sublist_take.
  - apply (StronglySorted_app_1_l _ _ (drop k L)). by rewrite take_drop.
  - intros s n Hin%Htake%HL. destruct Hin as [Hin ->]. split; [|done].
    rewrite <- occurrences_unwind. by apply occurrences_pos.
  - intros s n t Hin Hnot.
    destruct (uses field coll t) as [|m] eqn:Hu; [lia|].
    assert ((t, S m) ∈ drop k L) as Hd by (rewrite <- Hu; apply Hdrop; [lia|done]).
    rewrite <- (take_drop k L) in Hsorted.
    exact (StronglySorted_app_1_elem_of _ _ _ _ _ Hsorted Hin Hd).
  - intros t Hpos Hnot. pose proof (Hdrop t Hpos Hnot) as Hd.
    rewrite length_take. apply Nat.min_l.
    destruct (decide (k ≤ length L)) as [?|Hlt]; [done|].
    rewrite drop_ge in Hd by lia. by apply elem_of_nil in Hd.
Qed.

(** X29.  The popular-skills route lists the ten most used offered and
    wanted skills, and the dashboard the five most used: no skill twice,
    most used first, each with its number of uses, every skill left out
    used at most as often as every listed one, and nothing left out while
    the list is short of its limit.  A use is counted for every stored
    user, banned and private ones included. *)
Theorem popular_skills_top (db : Db) :
  top_skills 10 User.skillsOffered (users db) (PopularSkills.popularSkills db).1
  ∧ top_skills 10 User.skillsWanted (users db) (PopularSkills.popularSkills db).2
  ∧ top_skills 5 User.skillsOffered (users db) (PopularSkills.dashboardSkills db).1
  ∧ top_skills 5 User.skillsWanted (users db) (PopularSkills.dashboardSkills db).2
  ∧ ∀ field id u s, users db !! id = Some u → s ∈ field u →
                   0 < uses field (users db) s.
Proof.
  repeat (split; [apply popular_top|]).
  intros field id u s Hu Hs. rewrite <- occurrences_unwind. apply occurrences_pos.
  unfold PopularSkills.unwind. apply list_elem_of_join. exists (field u).
  split; [done|]. apply list_elem_of_fmap. exists u. split; [done|].
  apply list_elem_of_fmap. exists (id, u). split; [done|].
  by apply elem_of_map_to_list.
Qed.

(** ** Feedback statistics *)

Lemma filter_length_Permutation {A} (q : A → bool) (l l' : list A) :
  l ≡ₚ l' → length (List.filter q l) = length (List.filter q l').
Proof.
  induction 1 as [|x l l' _ IH|x y l|l l' l'' _ IH1 _ IH2]; cbn.
  - done.
  - destruct (q x); cbn; lia.
  - destruct (q x), (q y); cbn; lia.
  - lia.
Qed.

Lemma omap_filter {A B} (f : A → option B) (q : A → bool) (l : list A) :
  omap f (List.filter q l) = omap (λ d, if q d then f d else None) l.
Proof.
  induction l as [|x l IH]; [done|]. cbn. destruct (q x); cbn; by rewrite IH.
Qed.

Lemma map_to_list_overwrite {A} (coll : gmap N A) (id : N) (s s' : A) :
  coll !! id = Some s →
  map_to_list coll ≡ₚ (id, s) :: map_to_list (delete id coll)
  ∧ map_to_list (<[id := s']> coll) ≡ₚ (id, s') :: map_to_list (delete id coll).
Proof.
  intros Hs. split.
  - symmetry. by apply map_to_list_delete.
  - rewrite <- (delete_insert_eq coll id s'). symmetry.
    apply map_to_list_delete, lookup_insert_eq.
Qed.

Lemma submitFeedback_success (now : Z) (caller id : ObjectId) (rating : Z)
    (comment : option string) (db : Db) (s : SwapRequest.t) :
  swapRequests db !! id = Some s →
  Http.success (Feedback.submitFeedback now caller id rating comment db).1 = true →
  ∃ s', swapRequests (Feedback.submitFeedback now caller id rating comment db).2
        = <[id := s']> (swapRequests db)
        ∧ SwapRequest.status s = SwapRequest.completed
        ∧ SwapRequest.status s' = SwapRequest.completed
        ∧ SwapRequest.fromUserId s' = SwapRequest.fromUserId s
        ∧ SwapRequest.toUserId s' = SwapRequest.toUserId s
        ∧ (SwapRequest.fromUserId s = caller
           ∧ SwapRequest.fromUserRating (SwapRequest.feedback s) = None
           ∧ SwapRequest.fromUserRating (SwapRequest.feedback s') = Some rating
           ∧ SwapRequest.toUserRating (SwapRequest.feedback s')
             = SwapRequest.toUserRating (SwapRequest.feedback s)
           ∨ SwapRequest.fromUserId s ≠ caller
             ∧ SwapRequest.toUserId s = caller
             ∧ SwapRequest.toUserRating (SwapRequest.feedback s) = None
             ∧ SwapRequest.toUserRating (SwapRequest.feedback s') = Some rating
             ∧ SwapRequest.fromUserRating (SwapRequest.feedback s')
               = SwapRequest.fromUserRating (SwapRequest.feedback s)).
Proof.
  intros Hs. unfold Feedback.submitFeedback.
  destruct (Feedback.validRating rating); cbn [andb negb]; [|discriminate].
  destruct (Feedback.validComment _); cbn [negb]; [|discriminate].
  rewrite Hs.
  destruct (N.eqb_spec (SwapRequest.fromUserId s) caller) as [Hf|Hf];
    destruct (N.eqb_spec (SwapRequest.toUserId s) caller) as [Ht|Ht];
    cbn [negb andb]; try discriminate.
  all: destruct (bool_decide_reflect (SwapRequest.status s = SwapRequest.completed))
         as [Hc|Hc]; cbn [negb]; [|discriminate].
  all: match goal with
       | |- context [bool_decide (?x ≠ None)] =>
           destruct (bool_decide_reflect (x ≠ None)) as [Hn|Hn]; [discriminate|]
       end.
  all: unfold SwapRequest.addFeedback, SwapRequest.save; cbv zeta.
  all: rewrite ?(proj2 (N.eqb_eq _ _) Hf), ?(proj2 (N.eqb_neq _ _) Hf),
         ?(proj2 (N.eqb_eq _ _) Ht).
  all: cbn [fst snd set_swapRequests users swapRequests].
  all: destruct (users db !! _);
         [destruct (SwapRequest.isFeedbackComplete _)|]; cbn [fst snd]; intros Hok;
         try discriminate Hok.
  all: eexists; split; [reflexivity|].
  all: cbn.
  all: destruct (SwapRequest.fromUserRating (SwapRequest.feedback s)) eqn:Hfr,
         (SwapRequest.toUserRating (SwapRequest.feedback s)) eqn:Htr;
       try (exfalso; apply Hn; discriminate); tauto.
Qed.

Lemma ratingsReceived_omap (u : ObjectId) (coll : gmap N SwapRequest.t) :
  FeedbackStats.ratingsReceived u coll
  = omap (λ d : ObjectId * SwapRequest.t,
            if SwapRequestStatics.forUser SwapRequest.completed u d
            then FeedbackStats.receivedRating u d.2 else None)
      (map_to_list coll).
Proof. unfold FeedbackStats.ratingsReceived, SwapRequestStatics.find. apply omap_filter. Qed.

Lemma length_omap_le {A B} (f : A → option B) (l : list A) :
  length (omap f l) ≤ length l.
Proof. induction l as [|x l IH]; cbn; [lia|]. destruct (f x); cbn; lia. Qed.

(** X30.  A successful feedback call on a swap between two different
    users adds its rating to the ratings the statistics route finds
    received by the counterparty, and to nobody else's: in the answers of
    [GET /api/feedback/stats/overview] before and after, the counterparty's
    [totalRatingsReceived] grows by one, every other user's stays,
    [completedSwaps] stays, and no user has received more ratings than they
    have completed swaps.  On a swap of a user with themselves the
    statistics of nobody change: the route reads the recipient's slot,
    which the call leaves as it is. *)
Theorem stats_after_feedback (now : Z) (caller id : ObjectId) (rating : Z)
    (comment : option string) (db : Db) (s : SwapRequest.t) :
  swapRequests db !! id = Some s →
  Http.success (Feedback.submitFeedback now caller id rating comment db).1 = true →
  let db' := (Feedback.submitFeedback now caller id rating comment db).2 in
  (SwapRequest.fromUserId s ≠ SwapRequest.toUserId s →
   FeedbackStats.ratingsReceived (counterparty s caller) (swapRequests db')
   ≡ₚ rating :: FeedbackStats.ratingsReceived (counterparty s caller) (swapRequests db)
   ∧ (∀ u, u ≠ counterparty s caller →
           FeedbackStats.ratingsReceived u (swapRequests db')
           ≡ₚ FeedbackStats.ratingsReceived u (swapRequests db))
   ∧ ∀ u st st',
       FeedbackStats.statsOverview u db = inr st →
       FeedbackStats.statsOverview u db' = inr st' →
       FeedbackStats.totalRatingsReceived st'
       = FeedbackStats.totalRatingsReceived st
         + (if decide (u = counterparty s caller) then 1 else 0)
       ∧ FeedbackStats.completedSwaps st' = FeedbackStats.completedSwaps st
       ∧ FeedbackStats.totalRatingsReceived st' ≤ FeedbackStats.completedSwaps st')
  ∧ (SwapRequest.fromUserId s = SwapRequest.toUserId s →
     ∀ u, FeedbackStats.ratingsReceived u (swapRequests db')
          ≡ₚ FeedbackStats.ratingsReceived u (swapRequests db)).
Proof.
  intros Hs Hok. cbv zeta.
  destruct (submitFeedback_success now caller id rating comment db s Hs Hok)
    as (s' & Hdb' & Hst & Hst' & Hfrom & Hto & Hslot).
  destruct (map_to_list_overwrite (swapRequests db) id s s' Hs) as [Hold Hnew].
  set (rest := map_to_list (delete id (swapRequests db))) in *.
  assert (∀ u, SwapRequestStatics.forUser SwapRequest.completed u (id, s')
               = SwapRequestStatics.forUser SwapRequest.completed u (id, s)) as Hq.
  { intros u. unfold SwapRequestStatics.forUser. cbn [snd].
    by rewrite Hfrom, Hto, Hst, Hst'. }
  split; [intros Hne|intros Hself].
  2: { intros u. rewrite Hdb', !ratingsReceived_omap, Hold, Hnew. cbn [omap list_omap].
       rewrite Hq.
       destruct (SwapRequestStatics.forUser SwapRequest.completed u (id, s)) eqn:Hqu;
         [|done].
       cbn [snd]. unfold FeedbackStats.receivedRating. rewrite Hfrom.
       unfold SwapRequestStatics.forUser in Hqu. cbn [snd] in Hqu.
       rewrite <- Hself, orb_diag in Hqu. apply andb_true_iff in Hqu as [Hu _].
       rewrite Hu.
       destruct Hslot as [(_ & _ & _ & ->)|(Hc & Hc' & _)]; [done|congruence]. }
  assert (FeedbackStats.receivedRating (counterparty s caller) s' = Some rating
          ∧ FeedbackStats.receivedRating (counterparty s caller) s = None
          ∧ SwapRequestStatics.forUser SwapRequest.completed (counterparty s caller) (id, s)
            = true
          ∧ ∀ u, u ≠ counterparty s caller →
                 SwapRequestStatics.forUser SwapRequest.completed u (id, s) = true →
                 FeedbackStats.receivedRating u s' = FeedbackStats.receivedRating u s)
    as (Hcp' & Hcp & Hqcp & Hother).
  { unfold counterparty, FeedbackStats.receivedRating, SwapRequestStatics.forUser.
    cbn [snd]. rewrite Hfrom, Hst, (bool_decide_eq_true_2 _ eq_refl), !andb_true_r.
    destruct Hslot as [(Hc & Hn & Hs1 & Hs2)|(Hc & Hc' & Hn & Hs1 & Hs2)].
    - rewrite decide_True by done.
      rewrite (proj2 (N.eqb_neq _ _) Hne), N.eqb_refl, orb_true_r.
      split; [done|]. split; [done|]. split; [done|]. intros u Hu.
      rewrite ?andb_true_r, orb_true_iff, !N.eqb_eq. intros [Hu'|Hu']; [|congruence].
      by rewrite (proj2 (N.eqb_eq _ _) Hu').
    - rewrite decide_False by done. rewrite N.eqb_refl.
      split; [done|]. split; [done|]. split; [done|]. intros u Hu.
      rewrite ?andb_true_r, orb_true_iff, !N.eqb_eq. intros [Hu'|Hu']; [congruence|].
      assert (SwapRequest.fromUserId s ≠ u) as Hu'' by congruence.
      by rewrite (proj2 (N.eqb_neq _ _) Hu''). }
  assert (FeedbackStats.ratingsReceived (counterparty s caller)
            (swapRequests (Feedback.submitFeedback now caller id rating comment db).2)
          ≡ₚ rating :: FeedbackStats.ratingsReceived (counterparty s caller)
                         (swapRequests db)) as H1.
  { rewrite Hdb', !ratingsReceived_omap, Hold, Hnew. cbn [omap list_omap].
    rewrite Hq, Hqcp. cbn [snd]. rewrite Hcp', Hcp. done. }
  assert (∀ u, u ≠ counterparty s caller →
            FeedbackStats.ratingsReceived u
              (swapRequests (Feedback.submitFeedback now caller id rating comment db).2)
            ≡ₚ FeedbackStats.ratingsReceived u (swapRequests db)) as H2.
  { intros u Hu. rewrite Hdb', !ratingsReceived_omap, Hold, Hnew. cbn [omap list_omap].
    rewrite Hq.
    destruct (SwapRequestStatics.forUser SwapRequest.completed u (id, s)) eqn:Hqu; [|done].
    cbn [snd]. by rewrite (Hother u Hu Hqu). }
  split; [exact H1|]. split; [exact H2|].
  intros u st st'. unfold FeedbackStats.statsOverview.
  destruct (users db !! u); [|discriminate].
  destruct (users _ !! u); [|discriminate].
  intros [= <-] [= <-].
  cbn [FeedbackStats.totalRatingsReceived FeedbackStats.completedSwaps].
  split; [|split].
  - destruct (decide (u = counterparty s caller)) as [->|Hu].
    + rewrite H1. cbn [length]. lia.
    + rewrite (H2 u Hu). lia.
  - unfold SwapRequestStatics.countDocuments, SwapRequestStatics.find.
    rewrite Hdb', (filter_length_Permutation _ _ _ Hold),
      (filter_length_Permutation _ _ _ Hnew).
    cbn [List.filter]. rewrite Hq.
    by destruct (SwapRequestStatics.forUser SwapRequest.completed u (id, s)).
  - unfold FeedbackStats.ratingsReceived, SwapRequestStatics.countDocuments.
    apply length_omap_le.
Qed.

(** A rates the completed swap of the scenario: the rating counts for B. *)
Lemma stats_after_feedback_witness :
  swapRequests Example.db3 !! 0%N = Some Example.swap3
  ∧ Http.success (Feedback.submitFeedback 4000 1 0 5 (Some "Great") Example.db3).1 = true
  ∧ SwapRequest.fromUserId Example.swap3 ≠ SwapRequest.toUserId Example.swap3
  ∧ FeedbackStats.ratingsReceived (counterparty Example.swap3 1)
      (swapRequests (Feedback.submitFeedback 4000 1 0 5 (Some "Great") Example.db3).2)
    ≡ₚ 5%Z :: FeedbackStats.ratingsReceived (counterparty Example.swap3 1)
                (swapRequests Example.db3).
Proof.
  assert (H : swapRequests Example.db3 !! 0%N = Some Example.swap3)
    by (vm_compute; reflexivity).
  assert (H' : Http.success
                 (Feedback.submitFeedback 4000 1 0 5 (Some "Great") Example.db3).1 = true)
    by (vm_compute; reflexivity).
  assert (H'' : SwapRequest.fromUserId Example.swap3 ≠ SwapRequest.toUserId Example.swap3)
    by discriminate.
  split; [exact H|]. split; [exact H'|]. split; [exact H''|].
  exact (proj1 (proj1 (stats_after_feedback 4000 1 0 5 (Some "Great") Example.db3
                         Example.swap3 H H') H'')).
Defined.
